(** * Retail POS: stock, sale settlement, invoices and coupons

    A shallow embedding of the sale / invoice settlement code of the
    point-of-sale application:

    - [catalog/models.py]  : [Product.can_sell], [Product.adjust_stock],
                             [Product.get_price_for_customer],
                             [Coupon.is_valid], [Coupon.calculate_discount]
    - [pos/models.py]      : [Sale.calculate_totals], [Sale.complete_sale],
                             [Sale.void_sale], [SaleItem.save]
    - [pos/views.py]       : [SaleViewSet.create_sale], [SaleViewSet.void]
    - [wholesale/models.py]: [Invoice.save], [Invoice.generate_invoice_number],
                             [Invoice.update_payment_status],
                             [InvoicePayment.save]
    - [wholesale/views.py] : [invoice_record_payment], [invoice_cancel]

    Modelling conventions.

    - Python [Decimal] values are rationals ([Q]).  Addition, subtraction
      and multiplication of the amounts that occur here are exact in
      Python (the default context has 28 significant digits), so [Q]
      arithmetic agrees with them.
    - The store keeps every value as it was written.  The database does
      so for a value that fits its column; it rounds a decimal that has
      more decimals than the column and refuses a value that is too
      large.  The objects that the code holds are not rounded.  The
      predicates of [Column] say which values fit, and a statement
      about rows written from request data or computed amounts carries
      them as premises.
    - Python [int] values are [Z]; dates and timestamps are [Z] too and
      the clock ([timezone.now()]) is an explicit argument.
    - The database is an explicit store [DB]; every ORM call is a step of
      a state-and-exception monad [M].  A Python object held by the code
      is a record value that is threaded through the calls; [save]
      copies it (or the listed [update_fields]) into its row.
    - [transaction.atomic] restores the store on an exception and only on
      an exception.
    - The store does not enforce the database's key, uniqueness and
      check constraints; where a statement depends on one (rows stored
      under their primary key, lines referring to stored products, an
      invoice number that no other invoice carries, a quantity that is
      not negative) it is a hypothesis of the statement. *)

From Stdlib Require Import ZArith QArith Lqa String Ascii List Lia.
From stdpp Require Import base option gmap strings.
Import ListNotations.
Local Open Scope string_scope.
Local Open Scope Z_scope.

Abbreviation Decimal := Q (only parsing).

(** Comparisons of decimals, as booleans. *)
Definition Qleb (x y : Decimal) : bool := Qle_bool x y.
Definition Qltb (x y : Decimal) : bool := negb (Qle_bool y x).

(** ** Rows *)

Module Product.
Record t := mk {
  pk : Z;
  sku : string;
  cost_price : Decimal;
  sell_price : Decimal;
  wholesale_price : option Decimal;
  minimum_wholesale_quantity : Z;
  tax_rate : Decimal;
  stock : Z;
  low_stock_threshold : Z;
  is_active : bool;
  track_stock : bool
}.

Definition with_stock (v : Z) (p : t) : t :=
  mk (pk p) (sku p) (cost_price p) (sell_price p) (wholesale_price p)
     (minimum_wholesale_quantity p) (tax_rate p) v (low_stock_threshold p)
     (is_active p) (track_stock p).
End Product.

Module InventoryAdjustment.
Record t := mk {
  product : Z;
  quantity_change : Z;
  old_stock : Z;
  new_stock : Z;
  reason : string;
  performed_by : option Z
}.
End InventoryAdjustment.

Module Customer.
Inductive CustomerType := retail | wholesale | vip.

Record t := mk {
  pk : Z;
  name : string;
  email : string;
  phone : string;
  customer_type : CustomerType;
  credit_limit : Decimal;
  current_balance : Decimal;
  discount_percentage : Decimal;
  is_active : bool
}.

Definition with_name (v : string) (c : t) : t :=
  mk (pk c) v (email c) (phone c) (customer_type c) (credit_limit c)
     (current_balance c) (discount_percentage c) (is_active c).
Definition with_email (v : string) (c : t) : t :=
  mk (pk c) (name c) v (phone c) (customer_type c) (credit_limit c)
     (current_balance c) (discount_percentage c) (is_active c).
Definition with_current_balance (v : Decimal) (c : t) : t :=
  mk (pk c) (name c) (email c) (phone c) (customer_type c) (credit_limit c)
     v (discount_percentage c) (is_active c).
End Customer.

Module Sale.
Inductive Status := PENDING | COMPLETED | VOIDED | REFUNDED.
Inductive PaymentStatus := PAY_PENDING | PARTIAL | PAID.

(** [reference] and [created_at] are left out: they are generated from
    the wall clock and a random UUID and no modelled operation reads
    them. *)
Record t := mk {
  pk : Z;
  cashier : Z;
  customer : option Z;
  subtotal : Decimal;
  tax : Decimal;
  discount : Decimal;
  total : Decimal;
  payment_method : string;
  payment_status : PaymentStatus;
  amount_paid : Decimal;
  status : Status;
  notes : string;
  terminal_id : string;
  completed_at : option Z;
  voided_at : option Z;
  voided_by : option Z;
  void_reason : string
}.

Definition status_eqb (a b : Status) : bool :=
  match a, b with
  | PENDING, PENDING | COMPLETED, COMPLETED
  | VOIDED, VOIDED | REFUNDED, REFUNDED => true
  | _, _ => false
  end.

Definition with_totals (st tx tot : Decimal) (s : t) : t :=
  mk (pk s) (cashier s) (customer s) st tx (discount s) tot
     (payment_method s) (payment_status s) (amount_paid s) (status s)
     (notes s) (terminal_id s) (completed_at s) (voided_at s)
     (voided_by s) (void_reason s).
Definition with_payment_status (v : PaymentStatus) (s : t) : t :=
  mk (pk s) (cashier s) (customer s) (subtotal s) (tax s) (discount s)
     (total s) (payment_method s) v (amount_paid s) (status s)
     (notes s) (terminal_id s) (completed_at s) (voided_at s)
     (voided_by s) (void_reason s).
Definition with_completion (st : Status) (at_ : option Z) (s : t) : t :=
  mk (pk s) (cashier s) (customer s) (subtotal s) (tax s) (discount s)
     (total s) (payment_method s) (payment_status s) (amount_paid s) st
     (notes s) (terminal_id s) at_ (voided_at s)
     (voided_by s) (void_reason s).
Definition with_voiding (st : Status) (at_ by_ : option Z) (why : string)
    (s : t) : t :=
  mk (pk s) (cashier s) (customer s) (subtotal s) (tax s) (discount s)
     (total s) (payment_method s) (payment_status s) (amount_paid s) st
     (notes s) (terminal_id s) (completed_at s) at_ by_ why.
End Sale.

Module SaleItem.
Record t := mk {
  pk : Z;
  sale : Z;
  product : Z;
  quantity : Z;
  unit_price : Decimal;
  tax_rate : Decimal;
  discount : Decimal;
  line_total : Decimal
}.

(** [tax_amount] property. *)
Definition tax_amount (i : t) : Decimal :=
  ((unit_price i * inject_Z (quantity i) - discount i) * tax_rate i)%Q.
End SaleItem.

Module Payment.
Inductive Status := PENDING | COMPLETED | FAILED | REFUNDED.

Record t := mk {
  pk : Z;
  sale : option Z;
  amount : Decimal;
  method : string;
  status : Status;
  amount_tendered : option Decimal;
  change_amount : option Decimal
}.
End Payment.

Module Coupon.
Inductive DiscountType := percentage | fixed.

Record t := mk {
  code : string;
  discount_type : DiscountType;
  discount_value : Decimal;
  min_purchase : Decimal;
  max_discount : option Decimal;
  valid_from : Z;
  valid_to : Z;
  is_active : bool;
  usage_limit : option Z;
  times_used : Z
}.

Definition with_min_purchase (v : Decimal) (c : t) : t :=
  mk (code c) (discount_type c) (discount_value c) v (max_discount c)
     (valid_from c) (valid_to c) (is_active c) (usage_limit c)
     (times_used c).
End Coupon.

Module Invoice.
Inductive PaymentStatus := unpaid | partial | paid | overdue | cancelled.

Record t := mk {
  pk : Z;
  invoice_number : string;
  customer : Z;
  sale : option Z;
  issue_date : Z;
  due_date : option Z;
  payment_terms : string;
  subtotal : Decimal;
  tax_amount : Decimal;
  discount_amount : Decimal;
  total_amount : Decimal;
  amount_paid : Decimal;
  payment_status : PaymentStatus;
  notes : string;
  created_by : Z
}.

Definition with_invoice_number (v : string) (i : t) : t :=
  mk (pk i) v (customer i) (sale i) (issue_date i) (due_date i)
     (payment_terms i) (subtotal i) (tax_amount i) (discount_amount i)
     (total_amount i) (amount_paid i) (payment_status i) (notes i)
     (created_by i).
Definition with_due_date (v : option Z) (i : t) : t :=
  mk (pk i) (invoice_number i) (customer i) (sale i) (issue_date i) v
     (payment_terms i) (subtotal i) (tax_amount i) (discount_amount i)
     (total_amount i) (amount_paid i) (payment_status i) (notes i)
     (created_by i).
Definition with_amount_paid (v : Decimal) (i : t) : t :=
  mk (pk i) (invoice_number i) (customer i) (sale i) (issue_date i)
     (due_date i) (payment_terms i) (subtotal i) (tax_amount i)
     (discount_amount i) (total_amount i) v (payment_status i) (notes i)
     (created_by i).
Definition with_payment_status (v : PaymentStatus) (i : t) : t :=
  mk (pk i) (invoice_number i) (customer i) (sale i) (issue_date i)
     (due_date i) (payment_terms i) (subtotal i) (tax_amount i)
     (discount_amount i) (total_amount i) (amount_paid i) v (notes i)
     (created_by i).

(** [balance_due] property. *)
Definition balance_due (i : t) : Decimal :=
  (total_amount i - amount_paid i)%Q.
End Invoice.

Module InvoicePayment.
Record t := mk {
  pk : Z;
  invoice : Z;
  payment : Z;
  amount : Decimal;
  notes : string;
  recorded_by : Z
}.
End InvoicePayment.

(** ** The store

    One table per model.  Tables that the code addresses by primary key
    are maps from the key; tables that it only scans or appends to are
    lists in insertion order.  [next_pk] stands for the automatic
    primary keys: the modelled code never inspects a key's value, only
    whether two keys are the same. *)

Record DB := mkDB {
  products : gmap Z Product.t;
  adjustments : list InventoryAdjustment.t;
  customers : gmap Z Customer.t;
  sales : gmap Z Sale.t;
  sale_items : list SaleItem.t;
  payments : list Payment.t;
  invoices : gmap Z Invoice.t;
  invoice_payments : list InvoicePayment.t;
  next_pk : Z
}.

Definition set_products (v : gmap Z Product.t) (db : DB) : DB :=
  mkDB v (adjustments db) (customers db) (sales db) (sale_items db)
       (payments db) (invoices db) (invoice_payments db) (next_pk db).
Definition set_adjustments (v : list InventoryAdjustment.t) (db : DB) : DB :=
  mkDB (products db) v (customers db) (sales db) (sale_items db)
       (payments db) (invoices db) (invoice_payments db) (next_pk db).
Definition set_customers (v : gmap Z Customer.t) (db : DB) : DB :=
  mkDB (products db) (adjustments db) v (sales db) (sale_items db)
       (payments db) (invoices db) (invoice_payments db) (next_pk db).
Definition set_sales (v : gmap Z Sale.t) (db : DB) : DB :=
  mkDB (products db) (adjustments db) (customers db) v (sale_items db)
       (payments db) (invoices db) (invoice_payments db) (next_pk db).
Definition set_sale_items (v : list SaleItem.t) (db : DB) : DB :=
  mkDB (products db) (adjustments db) (customers db) (sales db) v
       (payments db) (invoices db) (invoice_payments db) (next_pk db).
Definition set_payments (v : list Payment.t) (db : DB) : DB :=
  mkDB (products db) (adjustments db) (customers db) (sales db)
       (sale_items db) v (invoices db) (invoice_payments db) (next_pk db).
Definition set_invoices (v : gmap Z Invoice.t) (db : DB) : DB :=
  mkDB (products db) (adjustments db) (customers db) (sales db)
       (sale_items db) (payments db) v (invoice_payments db) (next_pk db).
Definition set_invoice_payments (v : list InvoicePayment.t) (db : DB) : DB :=
  mkDB (products db) (adjustments db) (customers db) (sales db)
       (sale_items db) (payments db) (invoices db) v (next_pk db).
Definition set_next_pk (v : Z) (db : DB) : DB :=
  mkDB (products db) (adjustments db) (customers db) (sales db)
       (sale_items db) (payments db) (invoices db) (invoice_payments db) v.

(** ** Store-and-exception monad *)

Inductive Exn :=
| ValueError (msg : string)
| DoesNotExist
| MultipleObjectsReturned
| DatabaseError
| TypeError.

(** [Raise e db]: the exception [e] escaped, leaving the store as [db]. *)
Inductive Result (A : Type) :=
| Ok (a : A) (db : DB)
| Raise (e : Exn) (db : DB).
Arguments Ok {A} a db.
Arguments Raise {A} e db.

Definition M (A : Type) : Type := DB -> Result A.

#[global] Instance M_ret : MRet M := fun A a db => Ok a db.
#[global] Instance M_bind : MBind M := fun A B f m db =>
  match m db with
  | Ok a db' => f a db'
  | Raise e db' => Raise e db'
  end.

Definition raise {A} (e : Exn) : M A := fun db => Raise e db.
Definition get_db : M DB := fun db => Ok db db.
Definition modify_db (f : DB -> DB) : M unit := fun db => Ok tt (f db).

(** [fresh_pk]: the key of the next inserted row. *)
Definition fresh_pk : M Z :=
  fun db => Ok (next_pk db) (set_next_pk (next_pk db + 1) db).

(** [transaction.atomic]: an exception that leaves the block undoes the
    block's writes; a normal return (of any value) commits them. *)
Definition atomic {A} (m : M A) : M A := fun db =>
  match m db with
  | Ok a db' => Ok a db'
  | Raise e _ => Raise e db
  end.

(** ** catalog/models.py *)

Module Catalog.

(** [Product.objects.get(id=...)]. *)
Definition Product_get (id : Z) : M Product.t := fun db =>
  match products db !! id with
  | Some p => Ok p db
  | None => Raise DoesNotExist db
  end.

(** [Product.save(update_fields=['stock'])]: writes the object's stock
    into its row and nothing else; Django raises [DatabaseError] when
    no row is updated.  The stock is kept as it is written, which the
    database does for an integer of the column ([Column.integer]). *)
Definition Product_save_stock (self : Product.t) : M unit := fun db =>
  match products db !! Product.pk self with
  | Some row =>
      Ok tt (set_products
               (<[Product.pk self := Product.with_stock (Product.stock self) row]>
                  (products db)) db)
  | None => Raise DatabaseError db
  end.

Definition InventoryAdjustment_create (a : InventoryAdjustment.t) : M unit :=
  modify_db (fun db => set_adjustments (adjustments db ++ [a]) db).

(** [Product.can_sell]. *)
Definition can_sell (self : Product.t) (quantity : Z) : bool :=
  if negb (Product.is_active self) then false
  else if Product.track_stock self && (Product.stock self <? quantity)
  then false
  else true.

(** [Product.adjust_stock]; returns the mutated object. *)
Definition adjust_stock (self : Product.t) (quantity : Z) (reason : string)
    (performed_by : option Z) : M Product.t :=
  let old_stock := Product.stock self in
  let self := Product.with_stock (Product.stock self + quantity) self in
  _ ← Product_save_stock self;
  _ ← InventoryAdjustment_create
        (InventoryAdjustment.mk (Product.pk self) quantity old_stock
           (Product.stock self) reason performed_by);
  mret self.

(** The label returned next to the price by [get_price_for_customer]:
    the tier, and the customer's percentage when it was applied. *)
Inductive PriceTier := tier_retail | tier_wholesale.
Definition PriceType : Type := PriceTier * option Decimal.

(** [Product.get_price_for_customer]. *)
Definition get_price_for_customer (self : Product.t)
    (customer : option Customer.t) (quantity : Z) : Decimal * PriceType :=
  let price := Product.sell_price self in
  let price_type := tier_retail in
  let '(price, price_type) :=
    match customer with
    | Some c =>
        match Customer.customer_type c, Product.wholesale_price self with
        | Customer.wholesale, Some wp =>
            if negb (Qeq_bool wp 0) && Qltb 0 wp
               && (Product.minimum_wholesale_quantity self <=? quantity)
            then (wp, tier_wholesale)
            else (price, price_type)
        | _, _ => (price, price_type)
        end
    | None => (price, price_type)
    end in
  match customer with
  | Some c =>
      if Qltb 0 (Customer.discount_percentage c) then
        let discount_amount :=
          (price * (Customer.discount_percentage c / 100))%Q in
        ((price - discount_amount)%Q,
         (price_type, Some (Customer.discount_percentage c)))
      else (price, (price_type, None))
  | None => (price, (price_type, None))
  end.

(** [Coupon.is_valid]; [cart_total = None] is Python's default. *)
Inductive CouponVerdict :=
| Valid
| NotActive
| NotYetValid
| Expired
| UsageLimitReached
| MinimumPurchaseRequired.

Definition is_valid (self : Coupon.t) (now : Z)
    (cart_total : option Decimal) : bool * CouponVerdict :=
  if negb (Coupon.is_active self) then (false, NotActive)
  else if now <? Coupon.valid_from self then (false, NotYetValid)
  else if Coupon.valid_to self <? now then (false, Expired)
  else if match Coupon.usage_limit self with
          | Some l => negb (l =? 0) && (l <=? Coupon.times_used self)
          | None => false
          end
  then (false, UsageLimitReached)
  else if match cart_total with
          | Some t => Qltb t (Coupon.min_purchase self)
          | None => false
          end
  then (false, MinimumPurchaseRequired)
  else (true, Valid).

Definition Qmin (x y : Decimal) : Decimal := if Qleb x y then x else y.

(** [Coupon.calculate_discount]. *)
Definition calculate_discount (self : Coupon.t) (cart_total : Decimal)
    : Decimal :=
  let discount :=
    match Coupon.discount_type self with
    | Coupon.percentage =>
        let discount := (cart_total * (Coupon.discount_value self / 100))%Q in
        match Coupon.max_discount self with
        | Some m => if negb (Qeq_bool m 0) then Qmin discount m else discount
        | None => discount
        end
    | Coupon.fixed => Coupon.discount_value self
    end in
  Qmin discount cart_total.

End Catalog.

(** ** pos/models.py *)

(** Python's [sum]: starts from 0 and adds from the left. *)
Definition Qsum (l : list Decimal) : Decimal := fold_left Qplus l 0%Q.

Module PosModels.
Import Catalog.

(** [Sale.save()] with all fields: insert or overwrite the row.  The
    row is the object as it is, which it is in the database when the
    object fits its columns ([Column.sale_row]). *)
Definition Sale_save (self : Sale.t) : M unit :=
  modify_db (fun db => set_sales (<[Sale.pk self := self]> (sales db)) db).

(** [Sale.save(update_fields=...)]: [copy self row] is [row] with the
    listed columns taken from [self]. *)
Definition Sale_save_fields (copy : Sale.t -> Sale.t -> Sale.t)
    (self : Sale.t) : M unit := fun db =>
  match sales db !! Sale.pk self with
  | Some row =>
      Ok tt (set_sales (<[Sale.pk self := copy self row]> (sales db)) db)
  | None => Raise DatabaseError db
  end.

(** update_fields=['subtotal', 'tax', 'total'] *)
Definition copy_totals (self row : Sale.t) : Sale.t :=
  Sale.with_totals (Sale.subtotal self) (Sale.tax self) (Sale.total self) row.
(** update_fields=['status', 'completed_at'] *)
Definition copy_completion (self row : Sale.t) : Sale.t :=
  Sale.with_completion (Sale.status self) (Sale.completed_at self) row.
(** update_fields=['status', 'voided_at', 'voided_by', 'void_reason'] *)
Definition copy_voiding (self row : Sale.t) : Sale.t :=
  Sale.with_voiding (Sale.status self) (Sale.voided_at self)
    (Sale.voided_by self) (Sale.void_reason self) row.

(** [Sale.objects.create(cashier=, customer=, discount=, notes=,
    terminal_id=)]; the other fields take their declared defaults. *)
Definition Sale_create (cashier : Z) (customer : option Z)
    (discount : Decimal) (notes terminal_id : string) : M Sale.t :=
  pk ← fresh_pk;
  let sale :=
    Sale.mk pk cashier customer 0%Q 0%Q discount 0%Q "cash"
      Sale.PAY_PENDING 0%Q Sale.PENDING notes terminal_id
      None None None "" in
  _ ← Sale_save sale;
  mret sale.

(** [self.items.all()]: the sale's rows, ordered by id. *)
Definition Sale_items (self : Sale.t) : M (list SaleItem.t) := fun db =>
  Ok (List.filter (fun i => SaleItem.sale i =? Sale.pk self) (sale_items db))
     db.

(** [SaleItem.objects.create(...)]; [SaleItem.save] fills in
    [line_total], which [create] leaves unset.  The row is the object
    as it is; the database refuses a negative quantity and rounds an
    amount of more than two decimals ([request_line_fits] says when it
    does neither). *)
Definition SaleItem_create (sale product quantity : Z)
    (unit_price tax_rate discount : Decimal) : M SaleItem.t :=
  pk ← fresh_pk;
  let line_total := (unit_price * inject_Z quantity - discount)%Q in
  let item :=
    SaleItem.mk pk sale product quantity unit_price tax_rate discount
      line_total in
  _ ← modify_db (fun db => set_sale_items (sale_items db ++ [item]) db);
  mret item.

(** [Payment.objects.create(...)]; the row is the object as it is
    ([Column.amount] says which amounts the database keeps so). *)
Definition Payment_create (sale : option Z) (amount : Decimal)
    (method : string) (status : Payment.Status)
    (amount_tendered change_amount : option Decimal) : M Payment.t :=
  pk ← fresh_pk;
  let p :=
    Payment.mk pk sale amount method status amount_tendered change_amount in
  _ ← modify_db (fun db => set_payments (payments db ++ [p]) db);
  mret p.

(** [Sale.calculate_totals]; returns the mutated object.  The lines
    are read as they were written, and the sums are kept on the object
    and in the row without rounding. *)
Definition calculate_totals (self : Sale.t) : M Sale.t :=
  items ← Sale_items self;
  let subtotal := Qsum (map SaleItem.line_total items) in
  let tax := Qsum (map SaleItem.tax_amount items) in
  let total := (subtotal + tax - Sale.discount self)%Q in
  let self := Sale.with_totals subtotal tax total self in
  _ ← Sale_save_fields copy_totals self;
  mret self.

(** The loop shared by [complete_sale] and [void_sale]:
<<
    for item in self.items.all():
        if item.product.track_stock:
            item.product.adjust_stock(quantity=..., reason=..., performed_by=...)
>>
    [item.product] is fetched from the store when the item is reached. *)
Fixpoint adjust_items (delta : SaleItem.t -> Z) (reason : string)
    (performed_by : option Z) (items : list SaleItem.t) : M unit :=
  match items with
  | [] => mret tt
  | item :: rest =>
      product ← Product_get (SaleItem.product item);
      _ ← (if Product.track_stock product
           then _ ← adjust_stock product (delta item) reason performed_by;
                mret tt
           else mret tt);
      adjust_items delta reason performed_by rest
  end.

(** [Sale.complete_sale]; returns the mutated object. *)
Definition complete_sale (self : Sale.t) (now : Z) : M Sale.t :=
  atomic (
    if negb (Sale.status_eqb (Sale.status self) Sale.PENDING)
    then raise (ValueError "Only pending sales can be completed")
    else
      items ← Sale_items self;
      _ ← adjust_items (fun item => - SaleItem.quantity item) "sale"
            (Some (Sale.cashier self)) items;
      let self := Sale.with_completion Sale.COMPLETED (Some now) self in
      _ ← Sale_save_fields copy_completion self;
      mret self).

(** [Sale.void_sale]; returns the mutated object. *)
Definition void_sale (self : Sale.t) (user : Z) (reason : string) (now : Z)
    : M Sale.t :=
  atomic (
    if Sale.status_eqb (Sale.status self) Sale.VOIDED
    then raise (ValueError "Sale is already voided")
    else
      items ← Sale_items self;
      _ ← adjust_items (fun item => SaleItem.quantity item) "return"
            (Some user) items;
      let self :=
        Sale.with_voiding Sale.VOIDED (Some now) (Some user) reason self in
      _ ← Sale_save_fields copy_voiding self;
      mret self).

End PosModels.

(** ** pos/views.py *)

Module User.
Record t := mk { pk : Z; terminal_id : string }.
End User.

(** The request body of [create_sale] that the serializer has passed.
    The serializer checks [items] and [payments] for being lists of
    objects and looks at none of their fields; the records below hold
    fields that the view can compute with: whole numbers for
    [product_id], [quantity] and the discount of a line, decimals for
    the amounts of the payments.  [request_line_fits] says when a line
    is written to the database as it is. *)
Module ItemData.
Record t := mk {
  product_id : Z;
  quantity : Z;
  discount : Decimal          (* item_data.get('discount', 0) *)
}.
End ItemData.

Module PaymentData.
Record t := mk {
  amount : Decimal;           (* Decimal(str(payment_data['amount'])) *)
  method : string;
  amount_tendered : option Decimal;
  change_amount : option Decimal
}.
End PaymentData.

Module CreateSaleData.
Record t := mk {
  customer_name : string;
  customer_phone : string;
  customer_email : string;    (* data.get('customer_email', '') *)
  items : list ItemData.t;
  payments : list PaymentData.t;
  discount : Decimal;
  notes : string
}.
End CreateSaleData.

Module PosViews.
Import Catalog PosModels.

Inductive SaleError :=
| ProductCannotBeSold (sku : string)
| WholesaleMinimum (min_payment : Decimal)
| InsufficientPayment.

(** What the view returns: 201 with the serialized sale, or 400. *)
Inductive Response :=
| Created (sale : Sale.t)
| BadRequest (error : SaleError).

(** [Customer.save()]; the row is the object as it is
    ([Column.customer_row]). *)
Definition Customer_save (self : Customer.t) : M unit :=
  modify_db (fun db =>
    set_customers (<[Customer.pk self := self]> (customers db)) db).

(** [Customer.objects.get_or_create(phone=..., defaults={...})]. *)
Definition Customer_get_or_create (phone name email : string)
    : M (Customer.t * bool) := fun db =>
  match List.filter (fun c => String.eqb (Customer.phone c) phone)
          (map snd (map_to_list (customers db))) with
  | [] =>
      let c :=
        Customer.mk (next_pk db) name email phone Customer.retail
          0%Q 0%Q 0%Q true in
      Ok (c, true)
         (set_customers (<[next_pk db := c]> (customers db))
            (set_next_pk (next_pk db + 1) db))
  | [c] => Ok (c, false) db
  | _ => Raise MultipleObjectsReturned db
  end.

(** Lines 74-93: the loop over [data['items']].  [Some r]: the view
    returned [r] from inside the loop. *)
Fixpoint create_items (sale : Sale.t) (customer : Customer.t)
    (items : list ItemData.t) : M (option Response) :=
  match items with
  | [] => mret None
  | item_data :: rest =>
      product ← Product_get (ItemData.product_id item_data);
      if negb (can_sell product (ItemData.quantity item_data))
      then mret (Some (BadRequest (ProductCannotBeSold (Product.sku product))))
      else
        let '(unit_price, _) :=
          get_price_for_customer product (Some customer)
            (ItemData.quantity item_data) in
        _ ← SaleItem_create (Sale.pk sale) (Product.pk product)
              (ItemData.quantity item_data) unit_price
              (Product.tax_rate product) (ItemData.discount item_data);
        create_items sale customer rest
  end.

(** Lines 99-110: the loop over [data['payments']]. *)
Fixpoint create_payments (sale : Sale.t) (payments : list PaymentData.t)
    (total_payment : Decimal) : M Decimal :=
  match payments with
  | [] => mret total_payment
  | payment_data :: rest =>
      let amount := PaymentData.amount payment_data in
      let total_payment := (total_payment + amount)%Q in
      _ ← Payment_create (Some (Sale.pk sale)) amount
            (PaymentData.method payment_data) Payment.COMPLETED
            (PaymentData.amount_tendered payment_data)
            (PaymentData.change_amount payment_data);
      create_payments sale rest total_payment
  end.

(** Lines 112-134: payment validation by customer type.  [inl e]: the
    view returns 400 with [e]; [inr]: the view goes on with the
    (possibly mutated) sale and customer objects. *)
Definition settle (sale : Sale.t) (customer : Customer.t)
    (total_payment : Decimal) : M (SaleError + Sale.t * Customer.t) :=
  match Customer.customer_type customer with
  | Customer.wholesale =>
      let min_payment := (Sale.total sale * 0.5)%Q in
      if Qltb total_payment min_payment
      then mret (inl (WholesaleMinimum min_payment))
      else if Qltb total_payment (Sale.total sale) then
        let sale := Sale.with_payment_status Sale.PARTIAL sale in
        _ ← Sale_save sale;
        let remaining_balance := (Sale.total sale - total_payment)%Q in
        let customer :=
          Customer.with_current_balance
            (Customer.current_balance customer + remaining_balance)%Q
            customer in
        _ ← Customer_save customer;
        mret (inr (sale, customer))
      else mret (inr (sale, customer))
  | _ =>
      if Qltb total_payment (Sale.total sale)
      then mret (inl InsufficientPayment)
      else mret (inr (sale, customer))
  end.

(** [SaleViewSet.create_sale], on a request body that passed the
    serializer. *)
Definition create_sale (user : User.t) (data : CreateSaleData.t) (now : Z)
    : M Response :=
  atomic (
    '(customer, created) ←
      Customer_get_or_create (CreateSaleData.customer_phone data)
        (CreateSaleData.customer_name data)
        (CreateSaleData.customer_email data);
    customer ←
      (if negb created then
         let customer :=
           Customer.with_name (CreateSaleData.customer_name data) customer in
         let customer :=
           if negb (String.eqb (CreateSaleData.customer_email data) "")
           then Customer.with_email (CreateSaleData.customer_email data)
                  customer
           else customer in
         _ ← Customer_save customer;
         mret customer
       else mret customer);
    sale ← Sale_create (User.pk user) (Some (Customer.pk customer))
             (CreateSaleData.discount data) (CreateSaleData.notes data)
             (User.terminal_id user);
    early ← create_items sale customer (CreateSaleData.items data);
    match early with
    | Some response => mret response
    | None =>
        sale ← calculate_totals sale;
        total_payment ←
          create_payments sale (CreateSaleData.payments data) 0%Q;
        verdict ← settle sale customer total_payment;
        match verdict with
        | inl e => mret (BadRequest e)
        | inr (sale, customer) =>
            sale ← complete_sale sale now;
            mret (Created sale)
        end
    end).

Inductive VoidResponse :=
| SaleVoided
| VoidError (msg : string)
| VoidNotFound.

(** [SaleViewSet.void]. *)
Definition void (pk : Z) (user : User.t) (reason : string) (now : Z)
    : M VoidResponse := fun db =>
  match sales db !! pk with
  | None => Ok VoidNotFound db
  | Some sale =>
      match void_sale sale (User.pk user) reason now db with
      | Ok _ db' => Ok SaleVoided db'
      | Raise (ValueError msg) db' => Ok (VoidError msg) db'
      | Raise e db' => Raise e db'
      end
  end.

End PosViews.

(** ** Python string operations used by the invoice numbering *)

Module Text.

Definition digit_char (d : Z) : ascii := ascii_of_nat (48 + Z.to_nat d).

(** Decimal digits of a non-negative integer, most significant first. *)
Fixpoint digits_aux (fuel : nat) (n : Z) (acc : string) : string :=
  match fuel with
  | O => acc
  | S fuel =>
      let acc := String (digit_char (n mod 10)) acc in
      if n / 10 =? 0 then acc else digits_aux fuel (n / 10) acc
  end.

Definition digits (n : Z) : string :=
  digits_aux (S (Z.to_nat (Z.log2 n))) n "".

(** [str(n)] for an [int]. *)
Definition str (n : Z) : string :=
  if n <? 0 then "-" +:+ digits (- n) else digits n.

Fixpoint zeros (k : nat) : string :=
  match k with O => "" | S k => String "0" (zeros k) end.

(** [f"{n:04d}"]: sign first, then zero-padded to a total width of 4. *)
Definition format_04d (n : Z) : string :=
  let sign := if n <? 0 then "-" else "" in
  let body := digits (Z.abs n) in
  sign +:+ zeros (4 - String.length sign - String.length body) +:+ body.

Definition digit_value (c : ascii) : option Z :=
  let k := Z.of_nat (nat_of_ascii c) in
  if (48 <=? k) && (k <=? 57) then Some (k - 48) else None.

Fixpoint int_aux (s : string) (acc : Z) : option Z :=
  match s with
  | EmptyString => Some acc
  | String c rest =>
      match digit_value c with
      | Some d => int_aux rest (10 * acc + d)
      | None => None
      end
  end.

(** [int(s)] on a string of decimal digits; [None] is [ValueError].
    (Python also accepts surrounding blanks, a sign and underscores
    between digits; none of them occurs in a generated number.) *)
Definition int (s : string) : option Z :=
  match s with
  | EmptyString => None
  | _ => int_aux s 0
  end.

(** [s.split(sep)] for a one-character separator. *)
Fixpoint split (sep : ascii) (s : string) : list string :=
  match s with
  | EmptyString => [""]
  | String c rest =>
      if Ascii.eqb c sep then "" :: split sep rest
      else match split sep rest with
           | field :: fields => String c field :: fields
           | [] => [String c ""]
           end
  end.

(** [s.startswith(prefix)]. *)
Definition startswith (s prefix : string) : bool := String.prefix prefix s.

(** The greatest string of a list in the order of the code points (the
    SQL aggregate [MAX] on a text column); [None] on no rows. *)
Definition str_max (l : list string) : option string :=
  fold_left
    (fun acc s =>
       match acc with
       | None => Some s
       | Some m => if String.ltb m s then Some s else Some m
       end)
    l None.

End Text.

(** ** wholesale/models.py *)

Module WholesaleModels.

(** [Invoice.generate_invoice_number]; [year] is [datetime.now().year]. *)
Definition generate_invoice_number (year : Z) : M string := fun db =>
  let prefix := "INV-" +:+ Text.str year +:+ "-" in
  let last_invoice :=
    Text.str_max
      (List.filter (fun n => Text.startswith n prefix)
         (map (fun kv => Invoice.invoice_number (snd kv))
            (map_to_list (invoices db)))) in
  match last_invoice with
  | Some (String c rest as last_invoice) =>
      match Text.int (List.last (Text.split "-" last_invoice) "") with
      | Some last_number =>
          let new_number := last_number + 1 in
          Ok (prefix +:+ Text.format_04d new_number) db
      | None => Raise (ValueError "invalid literal for int()") db
      end
  | _ =>
      let new_number := 1 in
      Ok (prefix +:+ Text.format_04d new_number) db
  end.

(** [terms_days.get(self.payment_terms, 30)]. *)
Definition terms_days (payment_terms : string) : Z :=
  if String.eqb payment_terms "net_30" then 30
  else if String.eqb payment_terms "net_15" then 15
  else if String.eqb payment_terms "net_7" then 7
  else if String.eqb payment_terms "due_on_receipt" then 0
  else if String.eqb payment_terms "custom" then 0
  else 30.

(** [Invoice.calculate_due_date]; dates are day numbers. *)
Definition calculate_due_date (self : Invoice.t) : Z :=
  Invoice.issue_date self + terms_days (Invoice.payment_terms self).

Definition status_eqb (a b : Invoice.PaymentStatus) : bool :=
  match a, b with
  | Invoice.unpaid, Invoice.unpaid | Invoice.partial, Invoice.partial
  | Invoice.paid, Invoice.paid | Invoice.overdue, Invoice.overdue
  | Invoice.cancelled, Invoice.cancelled => true
  | _, _ => false
  end.

(** [Invoice.update_payment_status]; [today] is
    [timezone.now().date()].  Comparing a missing due date with a date
    is a [TypeError]. *)
Definition update_payment_status (self : Invoice.t) (today : Z)
    : M Invoice.t :=
  let self :=
    if Qleb (Invoice.amount_paid self) 0 then
      Invoice.with_payment_status Invoice.unpaid self
    else if Qleb (Invoice.total_amount self) (Invoice.amount_paid self) then
      Invoice.with_payment_status Invoice.paid self
    else Invoice.with_payment_status Invoice.partial self in
  if negb (status_eqb (Invoice.payment_status self) Invoice.paid) then
    match Invoice.due_date self with
    | Some due_date =>
        if due_date <? today
        then mret (Invoice.with_payment_status Invoice.overdue self)
        else mret self
    | None => raise TypeError
    end
  else mret self.

(** [Invoice.save] of an object that has a primary key; returns the
    mutated object.  The row is the object as it is
    ([Column.invoice_row]); the unique index on [invoice_number] is not
    consulted ([Column.number_free] states it). *)
Definition Invoice_save (self : Invoice.t) (year today : Z) : M Invoice.t :=
  self ←
    (if String.eqb (Invoice.invoice_number self) "" then
       number ← generate_invoice_number year;
       mret (Invoice.with_invoice_number number self)
     else mret self);
  let self :=
    match Invoice.due_date self with
    | None => Invoice.with_due_date (Some (calculate_due_date self)) self
    | Some _ => self
    end in
  self ← update_payment_status self today;
  _ ← modify_db (fun db =>
        set_invoices (<[Invoice.pk self := self]> (invoices db)) db);
  mret self.

(** [invoice.invoice_payments.aggregate(total=Sum('amount'))['total']]:
    [None] when the invoice has no linked payment. *)
Definition sum_invoice_payments (invoice : Z) (db : DB) : option Decimal :=
  match List.filter (fun ip => InvoicePayment.invoice ip =? invoice)
          (invoice_payments db) with
  | [] => None
  | rows => Some (Qsum (map InvoicePayment.amount rows))
  end.

(** Python's [x or 0] on an optional decimal. *)
Definition or_zero (x : option Decimal) : Decimal :=
  match x with
  | Some d => if Qeq_bool d 0 then 0%Q else d
  | None => 0%Q
  end.

(** [InvoicePayment.objects.create(invoice=invoice, ...)], that is
    [InvoicePayment.save] on a new row.  [invoice] is the object the
    caller holds; it is mutated and saved, and returned.  The linked
    amount is kept, and summed, as it is written ([Column.amount]). *)
Definition InvoicePayment_create (invoice : Invoice.t) (payment : Z)
    (amount : Decimal) (notes : string) (recorded_by : Z) (year today : Z)
    : M (InvoicePayment.t * Invoice.t) :=
  pk ← fresh_pk;
  let self :=
    InvoicePayment.mk pk (Invoice.pk invoice) payment amount notes
      recorded_by in
  _ ← modify_db (fun db =>
        set_invoice_payments (invoice_payments db ++ [self]) db);
  db ← get_db;
  let invoice :=
    Invoice.with_amount_paid
      (or_zero (sum_invoice_payments (Invoice.pk invoice) db)) invoice in
  invoice ← Invoice_save invoice year today;
  mret (self, invoice).

End WholesaleModels.

(** ** wholesale/views.py *)

Module WholesaleViews.
Import PosModels WholesaleModels.

Definition try_except {A} (m : M A) (handler : Exn -> M A) : M A := fun db =>
  match m db with
  | Ok a db' => Ok a db'
  | Raise e db' => handler e db'
  end.

(** The flash message (or 404) a view ends with. *)
Inductive Flash :=
| NotFound
| AmountNotPositive
| ExceedsBalanceDue
| PaymentRecorded (amount : Decimal)
| ErrorRecordingPayment (e : Exn)
| CannotCancelWithPayments
| InvoiceCancelled (invoice_number : string).

(** [invoice_record_payment] on a POST whose [amount] parsed as a
    decimal. *)
Definition invoice_record_payment (invoice_id : Z) (amount : Decimal)
    (payment_method notes : string) (user : User.t) (year today : Z)
    : M Flash := fun db =>
  match invoices db !! invoice_id with
  | None => Ok NotFound db
  | Some invoice =>
      try_except
        (if Qleb amount 0 then mret AmountNotPositive
         else if Qltb (Invoice.balance_due invoice) amount
         then mret ExceedsBalanceDue
         else
           payment ← Payment_create (Invoice.sale invoice) amount
                       payment_method Payment.PENDING (Some amount)
                       (Some 0%Q);
           _ ← InvoicePayment_create invoice (Payment.pk payment) amount
                 notes (User.pk user) year today;
           mret (PaymentRecorded amount))
        (fun e => mret (ErrorRecordingPayment e))
        db
  end.

(** [invoice_cancel] on a POST. *)
Definition invoice_cancel (invoice_id : Z) (year today : Z) : M Flash :=
  fun db =>
  match invoices db !! invoice_id with
  | None => Ok NotFound db
  | Some invoice =>
      (if Qltb 0 (Invoice.amount_paid invoice)
       then mret CannotCancelWithPayments
       else
         let invoice :=
           Invoice.with_payment_status Invoice.cancelled invoice in
         invoice ← Invoice_save invoice year today;
         mret (InvoiceCancelled (Invoice.invoice_number invoice)))
        db
  end.

End WholesaleViews.

(** ** Sample data *)

Module Examples.

Definition empty_db : DB := mkDB ∅ [] ∅ ∅ [] [] ∅ [] 1.

(** A tracked, active product with 5 units on hand. *)
Definition widget : Product.t :=
  Product.mk 1 "WID-1" 60%Q 100%Q None 1 0%Q 5 10 true true.

Definition widget_db : DB := set_products {[1 := widget]} empty_db.

(** An active coupon, valid on days 10 to 20, that asks for a purchase
    of at least 50. *)
Definition save10 : Coupon.t :=
  Coupon.mk "SAVE10" Coupon.percentage 10%Q 50%Q (Some 5%Q) 10 20 true
    None 0.

(** Two customers: Ann buys wholesale, Bob retail. *)
Definition ann : Customer.t :=
  Customer.mk 7 "Ann" "" "555" Customer.wholesale 0%Q 0%Q 0%Q true.
Definition bob : Customer.t :=
  Customer.mk 8 "Bob" "" "777" Customer.retail 0%Q 0%Q 0%Q true.

(** A second product, sold at 80. *)
Definition gadget : Product.t :=
  Product.mk 2 "GAD-2" 40%Q 80%Q None 1 0%Q 5 10 true true.

Definition shop_db : DB :=
  mkDB {[1 := widget; 2 := gadget]} [] {[7 := ann; 8 := bob]} ∅ [] [] ∅ []
    100.

Definition cashier : User.t := User.mk 3 "T1".

(** One unit of [product] for the customer with [phone], paid with one
    cash payment of [amount]. *)
Definition order (name phone : string) (product : Z) (amount : Decimal)
    : CreateSaleData.t :=
  CreateSaleData.mk name phone "" [ItemData.mk product 1 0%Q]
    [PaymentData.mk amount "cash" None None] 0%Q "".

(** A pending sale of two widgets and one gadget. *)
Definition pending_sale : Sale.t :=
  Sale.mk 50 3 (Some 8) 280%Q 0%Q 0%Q 280%Q "cash" Sale.PAY_PENDING 0%Q
    Sale.PENDING "" "T1" None None None "".

Definition sale_db : DB :=
  set_sale_items
    [SaleItem.mk 51 50 1 2 100%Q 0%Q 0%Q 200%Q;
     SaleItem.mk 52 50 2 1 80%Q 0%Q 0%Q 80%Q]
    (set_sales {[50 := pending_sale]} shop_db).


(** One gadget, then nine widgets (only five are on hand), for Bob. *)
Definition two_line_order : CreateSaleData.t :=
  CreateSaleData.mk "Bob" "777" ""
    [ItemData.mk 2 1 0%Q; ItemData.mk 1 9 0%Q]
    [PaymentData.mk 980%Q "cash" None None] 0%Q "".

Definition voided_sale : Sale.t :=
  Sale.with_voiding Sale.VOIDED (Some 900) (Some 3) "mistake" pending_sale.

(** An unpaid invoice of 100, due on day 30. *)
Definition invoice1 : Invoice.t :=
  Invoice.mk 1 "INV-2026-0001" 7 None 0 (Some 30) "net_30" 100%Q 0%Q 0%Q
    100%Q 0%Q Invoice.unpaid "" 3.

Definition invoice_db : DB := set_invoices {[1 := invoice1]} shop_db.

(** An invoice of 100 on which 70 was paid by one linked payment, so
    that 30 is due. *)
Definition invoice2 : Invoice.t :=
  Invoice.mk 2 "INV-2026-0002" 7 None 0 (Some 30) "net_30" 100%Q 0%Q 0%Q
    100%Q 70%Q Invoice.partial "" 3.

Definition ledger_db : DB :=
  set_invoice_payments [InvoicePayment.mk 91 2 90 70%Q "" 3]
    (set_payments
       [Payment.mk 90 None 70%Q "cash" Payment.PENDING (Some 70%Q) (Some 0%Q)]
       (set_invoices {[1 := invoice1; 2 := invoice2]} shop_db)).

(** A store whose invoices carry the given numbers, under the keys
    1, 2, ... *)
Definition numbered (pk : Z) (number : string) : Invoice.t :=
  Invoice.mk pk number 7 None 0 (Some 30) "net_30" 100%Q 0%Q 0%Q
    100%Q 0%Q Invoice.unpaid "" 3.

Definition numbers_db (numbers : list string) : DB :=
  set_invoices
    (list_to_map
       (zip_with (fun k n => (k, numbered k n))
          (seqZ 1 (Z.of_nat (length numbers))) numbers))
    (set_next_pk 1000 empty_db).

(** [n] new invoices saved one after the other in [year], under the
    keys [pk], [pk + 1], ...; the numbers they were given. *)
Fixpoint issue (n : nat) (pk year : Z) : M (list string) :=
  match n with
  | O => mret []
  | S n =>
      i ← WholesaleModels.Invoice_save (numbered pk "") year 10;
      rest ← issue n (pk + 1) year;
      mret (Invoice.invoice_number i :: rest)
  end.

End Examples.

(** ** Vocabulary of the statements *)

(** [db'] differs from [db] at most in the product and adjustment
    tables. *)
Definition only_stock_changed (db db' : DB) : Prop :=
  db' = set_adjustments (adjustments db') (set_products (products db') db).

(** Product rows are stored under their primary key. *)
Definition products_keyed (m : gmap Z Product.t) : Prop :=
  map_Forall (fun k p => Product.pk p = k) m.

(** Every line refers to a stored product (the foreign key holds). *)
Definition items_have_products (items : list SaleItem.t)
    (m : gmap Z Product.t) : Prop :=
  Forall (fun item => is_Some (m !! SaleItem.product item)) items.

(** The lines of a sale, as [self.items.all()] returns them. *)
Definition sale_lines (s : Sale.t) (db : DB) : list SaleItem.t :=
  List.filter (fun i => SaleItem.sale i =? Sale.pk s) (sale_items db).

(** The sum of [delta] over the lines of product [k]. *)
Definition sum_delta (delta : SaleItem.t -> Z) (k : Z)
    (items : list SaleItem.t) : Z :=
  fold_right
    (fun item acc => if SaleItem.product item =? k then delta item + acc else acc)
    0 items.

(** Units of product [k] on the lines. *)
Definition units_of (k : Z) (items : list SaleItem.t) : Z :=
  sum_delta SaleItem.quantity k items.

(** A product row after its stock moved by [d], if it is tracked. *)
Definition moved_by (d : Z) (p : Product.t) : Product.t :=
  if Product.track_stock p
  then Product.with_stock (Product.stock p + d) p
  else p.

(** Whether the product stored under [k] is tracked. *)
Definition tracks (m : gmap Z Product.t) (k : Z) : bool :=
  match m !! k with
  | Some p => Product.track_stock p
  | None => false
  end.

(** The lines whose product is tracked. *)
Definition tracked_lines (m : gmap Z Product.t) (items : list SaleItem.t)
    : list SaleItem.t :=
  List.filter (fun item => tracks m (SaleItem.product item)) items.

(** The prefix of the invoice numbers of a year, and the stored numbers
    that carry it. *)
Definition year_prefix (year : Z) : string := "INV-" +:+ Text.str year +:+ "-".

Definition year_numbers (year : Z) (db : DB) : list string :=
  List.filter (fun n => Text.startswith n (year_prefix year))
    (map (fun kv => Invoice.invoice_number (snd kv))
       (map_to_list (invoices db))).

Definition four_digits (d3 d2 d1 d0 : Z) : string :=
  String (Text.digit_char d3) (String (Text.digit_char d2)
    (String (Text.digit_char d1) (String (Text.digit_char d0) ""))).

(** What the numbering relies on for a suffix [n]: it is printed as its
    four decimal digits, it is read back as [n], and it holds no dash. *)
Definition four_digit_row (n : Z) : Prop :=
  Text.format_04d n
    = four_digits (n / 1000) (n / 100 mod 10) (n / 10 mod 10) (n mod 10) /\
  Text.int (Text.format_04d n) = Some n /\
  Text.split "-" (Text.format_04d n) = [Text.format_04d n].

(** The sum of the amounts linked to an invoice. *)
Definition linked_total (invoice : Z) (db : DB) : Decimal :=
  Qsum (map InvoicePayment.amount
          (List.filter (fun ip => InvoicePayment.invoice ip =? invoice)
             (invoice_payments db))).

(** ** Further code of the same modules

    The functions below are not needed by the operations above; they
    are their neighbours and callers. *)

(** *** catalog/models.py *)

Definition Coupon_with_max_discount (v : option Decimal) (c : Coupon.t)
    : Coupon.t :=
  Coupon.mk (Coupon.code c) (Coupon.discount_type c) (Coupon.discount_value c)
    (Coupon.min_purchase c) v (Coupon.valid_from c) (Coupon.valid_to c)
    (Coupon.is_active c) (Coupon.usage_limit c) (Coupon.times_used c).

(** [Product.is_low_stock]. *)
Definition is_low_stock (self : Product.t) : bool :=
  Product.track_stock self
  && (Product.stock self <=? Product.low_stock_threshold self).

(** *** catalog/views.py *)

Module CatalogViews.

Inductive AdjustResponse :=
| StockAdjusted
| AdjustError (e : Exn)
| AdjustNotFound.

(** [ProductViewSet.adjust_stock], once the viewset's permission check
    has let the request through.  [quantity] is what [int(quantity)]
    makes of the request's value, [None] when it raises [ValueError];
    the call sits in [try: ... except Exception], outside any
    transaction.  A quantity that leaves the range of the integer
    column ([Column.integer]) is outside this definition: the database
    refuses it and the view answers with that error. *)
Definition adjust_stock (pk : Z) (quantity : option Z) (reason : string)
    (user : User.t) : M AdjustResponse := fun db =>
  match products db !! pk with
  | None => Ok AdjustNotFound db
  | Some product =>
      match
        match quantity with
        | Some quantity =>
            Catalog.adjust_stock product quantity reason
              (Some (User.pk user)) db
        | None => Raise (ValueError "invalid literal for int()") db
        end
      with
      | Ok _ db' => Ok StockAdjusted db'
      | Raise e db' => Ok (AdjustError e) db'
      end
  end.

End CatalogViews.

(** *** pos/views.py: the read-only endpoints *)

Module PosQueries.
Import Catalog WholesaleViews.

Inductive StockAnswer :=
| Available (stock : Z) (price : Decimal)
| NotAvailable (stock : Z)
| ProductIdRequired
| ProductNotFound
| InvalidQuantity.

(** [check_stock].  [quantity] is what [int(...)] makes of the
    parameter, [None] when it raises [ValueError]: that call stands
    before the [try].  [product_id] is [None] when the parameter is
    missing or empty, [Some None] when it is not a number (the lookup
    raises [ValueError]), else the key.  [price] is the decimal that
    the view hands to [float]; the product's name is not part of the
    rows here. *)
Definition check_stock (product_id : option (option Z)) (quantity : option Z)
    : M StockAnswer :=
  match quantity with
  | None => raise (ValueError "invalid literal for int()")
  | Some quantity =>
      match product_id with
      | None => mret ProductIdRequired
      | Some product_id =>
          try_except
            (match product_id with
             | None => raise (ValueError "Field 'id' expected a number")
             | Some id =>
                 product ← Product_get id;
                 if quantity <=? Product.stock product
                 then mret (Available (Product.stock product)
                              (Product.sell_price product))
                 else mret (NotAvailable (Product.stock product))
             end)
            (fun e =>
               match e with
               | DoesNotExist => mret ProductNotFound
               | ValueError _ => mret InvalidQuantity
               | _ => raise e
               end)
      end
  end.

(** [Coupon.calculate_discount] when [cart_total] is a [float], as
    [validate_coupon] passes it: Python multiplies no [float] by a
    [Decimal] (a [TypeError]) but compares the two. *)
Definition calculate_discount_float (self : Coupon.t) (cart_total : Q)
    : Exn + Q :=
  match Coupon.discount_type self with
  | Coupon.percentage => inl TypeError
  | Coupon.fixed => inr (Qmin (Coupon.discount_value self) cart_total)
  end.

Inductive CouponAnswer :=
| CouponApplied (discount_amount : Q)
| CouponRefused (why : CouponVerdict)
| InvalidCouponCode
| CouponFailed (e : Exn).

(** [validate_coupon], from the lookup of the code on: [found] is the
    coupon that [Coupon.objects.get(code__iexact=code)] returned.
    [cart_total] is the (finite) value of [float(...)], [None] when it
    raises; [discount_amount] is the value handed to [float]. *)
Definition validate_coupon (found : option Coupon.t)
    (cart_total : option Q) (now : Z) : CouponAnswer :=
  match cart_total with
  | None => CouponFailed (ValueError "could not convert string to float")
  | Some cart_total =>
      match found with
      | None => InvalidCouponCode
      | Some coupon =>
          let '(is_valid, message) := is_valid coupon now (Some cart_total) in
          if is_valid then
            match calculate_discount_float coupon cart_total with
            | inr discount_amount => CouponApplied discount_amount
            | inl e => CouponFailed e
            end
          else CouponRefused message
      end
  end.

End PosQueries.

(** *** wholesale/models.py and wholesale/views.py: invoices of sales *)

Module InvoiceItem.
(** [description], the product's name, is left out. *)
Record t := mk {
  pk : Z;
  invoice : Z;
  product : Z;
  quantity : Z;
  unit_price : Decimal;
  discount : Decimal;
  tax_rate : Decimal;
  total : Decimal
}.

(** [subtotal] property. *)
Definition subtotal (i : t) : Decimal :=
  (unit_price i * inject_Z (quantity i) - discount i)%Q.

(** [tax_amount] property. *)
Definition tax_amount (i : t) : Decimal :=
  (subtotal i * (tax_rate i / 100))%Q.
End InvoiceItem.

Module WholesaleInvoices.
Import PosModels WholesaleModels WholesaleViews.

(** [Invoice.is_overdue]; comparing a missing due date is an error. *)
Definition is_overdue (self : Invoice.t) (today : Z) : option bool :=
  match Invoice.due_date self with
  | Some due_date =>
      Some ((due_date <? today)
            && negb (status_eqb (Invoice.payment_status self) Invoice.paid
                     || status_eqb (Invoice.payment_status self)
                          Invoice.cancelled))
  | None => None
  end.

(** [Invoice.objects.create(customer=, sale=, payment_terms=, subtotal=,
    tax_amount=, discount_amount=, total_amount=, amount_paid=, notes=,
    created_by=)]: [Invoice.save] on a new object.  The customer column
    is not nullable: without a customer the insert fails, after the
    number was generated.  As in [Invoice_save], the row is the object
    as it is and the unique index on the number is a premise of the
    statements. *)
Definition Invoice_create (customer : option Z) (sale : option Z)
    (payment_terms : string)
    (subtotal tax_amount discount_amount total_amount amount_paid : Decimal)
    (notes : string) (created_by : Z) (year today : Z) : M Invoice.t :=
  match customer with
  | Some customer =>
      pk ← fresh_pk;
      Invoice_save
        (Invoice.mk pk "" customer sale today None payment_terms subtotal
           tax_amount discount_amount total_amount amount_paid
           Invoice.unpaid notes created_by)
        year today
  | None =>
      _ ← generate_invoice_number year;
      raise DatabaseError
  end.

(** [InvoiceItem.objects.create(...)]; [InvoiceItem.save] computes
    [total].  The table is read by no other code here: the row is
    returned to the caller instead of being kept in the store. *)
Definition InvoiceItem_create (invoice product quantity : Z)
    (unit_price discount tax_rate : Decimal) : M InvoiceItem.t :=
  pk ← fresh_pk;
  let subtotal := (unit_price * inject_Z quantity - discount)%Q in
  let tax := (subtotal * (tax_rate / 100))%Q in
  mret (InvoiceItem.mk pk invoice product quantity unit_price discount
          tax_rate (subtotal + tax)%Q).

(** The loop of [invoice_from_sale] over [sale.items.all()]. *)
Fixpoint copy_items (invoice : Invoice.t) (items : list SaleItem.t)
    : M (list InvoiceItem.t) :=
  match items with
  | [] => mret []
  | sale_item :: rest =>
      item ← InvoiceItem_create (Invoice.pk invoice)
                (SaleItem.product sale_item) (SaleItem.quantity sale_item)
                (SaleItem.unit_price sale_item) (SaleItem.discount sale_item)
                (SaleItem.tax_rate sale_item);
      rest ← copy_items invoice rest;
      mret (item :: rest)
  end.

(** The loop of [invoice_from_sale] over [sale.payments.all()]; every
    [InvoicePayment.objects.create] gets the same [invoice] object and
    mutates it. *)
Fixpoint link_payments (invoice : Invoice.t) (payments : list Payment.t)
    (user : User.t) (year today : Z) : M Invoice.t :=
  match payments with
  | [] => mret invoice
  | payment :: rest =>
      '(_, invoice) ←
        InvoicePayment_create invoice (Payment.pk payment)
          (Payment.amount payment) "" (User.pk user) year today;
      link_payments invoice rest user year today
  end.

Inductive FromSale :=
| SaleNotFound
| InvoiceExists (invoice_id : Z)
| InvoiceCreated (invoice_number : string)
| ErrorCreatingInvoice (e : Exn).

(** [sale.payments.all()]: the payments of the sale, the newest first
    (the model orders payments by [-created_at]). *)
Definition Sale_payments (self : Sale.t) : M (list Payment.t) := fun db =>
  Ok (rev (List.filter
             (fun p => match Payment.sale p with
                       | Some s => s =? Sale.pk self
                       | None => false
                       end)
             (payments db)))
     db.

(** [invoice_from_sale].  The result carries the invoice-item rows the
    view has written.  [hasattr(sale, 'invoice')] looks the invoice of
    the sale up through the one-to-one link.  Item rows are written
    only after the invoice was created, and writing them raises
    nothing, so the handler of the [try] finds none of them. *)
Definition invoice_from_sale (sale_id : Z) (user : User.t) (year today : Z)
    : M (FromSale * list InvoiceItem.t) := fun db =>
  match sales db !! sale_id with
  | None => Ok (SaleNotFound, []) db
  | Some sale =>
      match List.filter
              (fun i => match Invoice.sale i with
                        | Some s => s =? Sale.pk sale
                        | None => false
                        end)
              (map snd (map_to_list (invoices db))) with
      | _ :: _ :: _ => Raise MultipleObjectsReturned db
      | [invoice] => Ok (InvoiceExists (Invoice.pk invoice), []) db
      | [] =>
          try_except
            (invoice ←
               Invoice_create (Sale.customer sale) (Some (Sale.pk sale))
                 "net_30" (Sale.subtotal sale) (Sale.tax sale)
                 (Sale.discount sale) (Sale.total sale)
                 (Sale.amount_paid sale) "" (User.pk user) year today;
             sale_items ← Sale_items sale;
             items ← copy_items invoice sale_items;
             payments ← Sale_payments sale;
             invoice ← link_payments invoice payments user year today;
             mret (InvoiceCreated (Invoice.invoice_number invoice), items))
            (fun e => mret (ErrorCreatingInvoice e, []))
            db
      end
  end.

End WholesaleInvoices.

(** *** core/models.py and core/permissions.py *)

Module Core.

Inductive Role := ADMIN | MANAGER | CASHIER | VIEWER.

Definition role_eqb (a b : Role) : bool :=
  match a, b with
  | ADMIN, ADMIN | MANAGER, MANAGER | CASHIER, CASHIER | VIEWER, VIEWER =>
      true
  | _, _ => false
  end.

(** The fields of [User] that the role checks read. *)
Record Account := mkAccount {
  role : Role;
  is_superuser : bool;
  is_authenticated : bool
}.

(** [User.save], the part before the row is written. *)
Definition save (self : Account) : Account :=
  if is_superuser self && negb (role_eqb (role self) ADMIN)
  then mkAccount ADMIN (is_superuser self) (is_authenticated self)
  else self.

Definition is_admin (self : Account) : bool := role_eqb (role self) ADMIN.
Definition is_manager (self : Account) : bool :=
  existsb (role_eqb (role self)) [ADMIN; MANAGER].
Definition is_cashier (self : Account) : bool :=
  existsb (role_eqb (role self)) [ADMIN; MANAGER; CASHIER].
Definition can_access_reports (self : Account) : bool :=
  existsb (role_eqb (role self)) [ADMIN; MANAGER].
Definition can_manage_products (self : Account) : bool :=
  existsb (role_eqb (role self)) [ADMIN; MANAGER].
Definition can_manage_users (self : Account) : bool :=
  role_eqb (role self) ADMIN.

(** [permissions.SAFE_METHODS]. *)
Definition SAFE_METHODS : list string := ["GET"; "HEAD"; "OPTIONS"].

(** The [has_permission] of each permission class. *)
Definition IsAdmin (user : Account) : bool :=
  is_authenticated user && role_eqb (role user) ADMIN.
Definition IsManager (user : Account) : bool :=
  is_authenticated user && is_manager user.
Definition IsCashier (user : Account) : bool :=
  is_authenticated user && is_cashier user.
Definition CanAccessReports (user : Account) : bool :=
  is_authenticated user && can_access_reports user.
Definition CanManageProducts (user : Account) (method : string) : bool :=
  if existsb (String.eqb method) SAFE_METHODS
  then is_authenticated user
  else is_authenticated user && can_manage_products user.

End Core.

(** *** More sample data *)

Module MoreExamples.

(** A product with a wholesale price of 80 from 10 units on, taxed at
    15 percent. *)
Definition bulk : Product.t :=
  Product.mk 3 "BLK-3" 50%Q 100%Q (Some 80%Q) 10 0.15%Q 100 10 true true.

(** A wholesale customer with a discount of 10 percent. *)
Definition carol : Customer.t :=
  Customer.mk 9 "Carol" "" "999" Customer.wholesale 0%Q 0%Q 10%Q true.

(** A product taken out of the assortment with 5 units left. *)
Definition retired : Product.t :=
  Product.mk 4 "OLD-4" 1%Q 2%Q None 1 0%Q 5 10 false true.

(** A service: sold without stock keeping. *)
Definition service : Product.t :=
  Product.mk 5 "SVC-5" 0%Q 30%Q None 1 0%Q 0 0 true false.

Definition back_room_db : DB :=
  set_products {[3 := bulk; 4 := retired; 5 := service]} Examples.shop_db.

(** A coupon of 5 off, valid on days 10 to 20. *)
Definition five_off : Coupon.t :=
  Coupon.mk "FIVE" Coupon.fixed 5%Q 0%Q None 10 20 true None 0.

(** Three widgets and three widgets more, for Bob, paid in full. *)
Definition double_order : CreateSaleData.t :=
  CreateSaleData.mk "Bob" "777" ""
    [ItemData.mk 1 3 0%Q; ItemData.mk 1 3 0%Q]
    [PaymentData.mk 600%Q "cash" None None] 0%Q "".

(** The store after Ann bought a widget for 100 and paid 60 of it. *)
Definition ann_sale_db : DB :=
  match
    PosViews.create_sale Examples.cashier (Examples.order "Ann" "555" 1 60%Q)
      1000 Examples.shop_db
  with
  | Ok _ db | Raise _ db => db
  end.

End MoreExamples.

(** *** wholesale/views.py: the manual invoice *)

(** One row of the form of [invoice_create]: [product_id] is [None]
    when the field is empty (the row is skipped); the quantity and the
    price are the values that [int] and [Decimal] read. *)
Module InvoiceLine.
Record t := mk {
  product_id : option Z;
  quantity : Z;
  unit_price : Decimal
}.
End InvoiceLine.

Module WholesaleCreate.
Import WholesaleModels WholesaleInvoices.

Definition Invoice_with_totals (subtotal tax_amount total_amount : Decimal)
    (i : Invoice.t) : Invoice.t :=
  Invoice.mk (Invoice.pk i) (Invoice.invoice_number i) (Invoice.customer i)
    (Invoice.sale i) (Invoice.issue_date i) (Invoice.due_date i)
    (Invoice.payment_terms i) subtotal tax_amount (Invoice.discount_amount i)
    total_amount (Invoice.amount_paid i) (Invoice.payment_status i)
    (Invoice.notes i) (Invoice.created_by i).

(** The loop of [invoice_create] over the rows of the form.  It ends
    with the running sums, or with the exception of
    [get_object_or_404(Product, ...)], which the enclosing [try]
    catches; either way with the item rows written so far. *)
Fixpoint add_items (invoice : Invoice.t) (lines : list InvoiceLine.t)
    (subtotal tax_amount : Decimal) (rows : list InvoiceItem.t)
    : M (list InvoiceItem.t * (Exn + Decimal * Decimal)) :=
  match lines with
  | [] => mret (rows, inr (subtotal, tax_amount))
  | line :: rest =>
      match InvoiceLine.product_id line with
      | None => add_items invoice rest subtotal tax_amount rows
      | Some product_id =>
          db ← get_db;
          match products db !! product_id with
          | None => mret (rows, inl DoesNotExist)
          | Some product =>
              item ← InvoiceItem_create (Invoice.pk invoice)
                        (Product.pk product) (InvoiceLine.quantity line)
                        (InvoiceLine.unit_price line) 0%Q
                        (Product.tax_rate product);
              add_items invoice rest
                (subtotal + InvoiceItem.subtotal item)%Q
                (tax_amount + InvoiceItem.tax_amount item)%Q
                (rows ++ [item])
          end
      end
  end.

Inductive Created :=
| InvoiceCreated (invoice_number : string)
| ErrorCreatingInvoice (e : Exn).

(** [invoice_create] on a POST whose numbers could be read.  The whole
    body stands in [try: ... except Exception], outside any
    transaction; a customer or product that is not found is an
    exception of that [try] ([DoesNotExist] stands for it).  The result
    carries the invoice-item rows that were written. *)
Definition invoice_create (customer_id : Z) (payment_terms notes : string)
    (discount_amount : Decimal) (lines : list InvoiceLine.t) (user : User.t)
    (year today : Z) : M (Created * list InvoiceItem.t) := fun db =>
  match customers db !! customer_id with
  | None => Ok (ErrorCreatingInvoice DoesNotExist, []) db
  | Some customer =>
      let subtotal := 0%Q in
      let tax_amount := 0%Q in
      match
        Invoice_create (Some (Customer.pk customer)) None payment_terms
          subtotal tax_amount discount_amount subtotal 0%Q notes
          (User.pk user) year today db
      with
      | Raise e db1 => Ok (ErrorCreatingInvoice e, []) db1
      | Ok invoice db1 =>
          match add_items invoice lines subtotal tax_amount [] db1 with
          | Raise e db2 => Ok (ErrorCreatingInvoice e, []) db2
          | Ok (rows, inl e) db2 => Ok (ErrorCreatingInvoice e, rows) db2
          | Ok (rows, inr (subtotal, tax_amount)) db2 =>
              let invoice :=
                Invoice_with_totals subtotal tax_amount
                  (subtotal + tax_amount - discount_amount)%Q invoice in
              match Invoice_save invoice year today db2 with
              | Ok invoice db3 =>
                  Ok (InvoiceCreated (Invoice.invoice_number invoice), rows)
                     db3
              | Raise e db3 => Ok (ErrorCreatingInvoice e, rows) db3
              end
          end
      end
  end.

End WholesaleCreate.

(** ** What the columns keep

    The store of this development keeps every value as it was written.
    The database keeps it as it was written when it fits its column:

    - a [DecimalField(max_digits, decimal_places)] keeps a decimal that
      has at most [decimal_places] decimals and, counted in units of
      the last place, fewer than [max_digits] digits; it rounds a
      decimal with more decimals and refuses one with more digits;
    - an [IntegerField] keeps the integers of 32 bits on every database
      that Django supports, a [PositiveIntegerField] those of them that
      are not negative (the column carries a [CHECK] for it);
    - a [CharField(max_length)] keeps a string of at most [max_length]
      characters;
    - [unique=True] refuses a row whose value another row holds.

    The predicates below say that a value fits.  Statements about rows
    that are written from the data of a request, or from amounts that
    the code computed, are made for values that fit. *)

Module Column.

(** [DecimalField(max_digits, decimal_places)]. *)
Definition decimal (max_digits decimal_places : Z) (q : Decimal) : bool :=
  let units := Qnum q * 10 ^ decimal_places in
  (units mod Z.pos (Qden q) =? 0)
  && (Z.abs (units / Z.pos (Qden q)) <? 10 ^ max_digits).

(** The amounts: [DecimalField(max_digits=10, decimal_places=2)]. *)
Definition amount (q : Decimal) : bool := decimal 10 2 q.

(** [IntegerField] and [PositiveIntegerField]. *)
Definition integer (n : Z) : bool :=
  (-2147483648 <=? n) && (n <=? 2147483647).
Definition positive_integer (n : Z) : bool :=
  (0 <=? n) && (n <=? 2147483647).

(** [CharField(max_length)]. *)
Definition char (max_length : nat) (s : string) : bool :=
  (String.length s <=? max_length)%nat.



Definition invoice_row (i : Invoice.t) : bool :=
  amount (Invoice.subtotal i) && amount (Invoice.tax_amount i)
  && amount (Invoice.discount_amount i) && amount (Invoice.total_amount i)
  && amount (Invoice.amount_paid i)
  && char 50 (Invoice.invoice_number i) && char 20 (Invoice.payment_terms i).

(** [unique=True] on [Invoice.invoice_number]: no row but the one under
    [pk] carries [number]. *)
Definition number_free (number : string) (pk : Z) (db : DB) : bool :=
  forallb
    (fun kv => (fst kv =? pk)
               || negb (String.eqb (Invoice.invoice_number (snd kv)) number))
    (map_to_list (invoices db)).

(** The invoice stored under [pk] when a request has ended fits its
    columns. *)
Definition invoice_fits {A} (r : Result A) (pk : Z) : bool :=
  match r with
  | Ok _ db' | Raise _ db' =>
      match invoices db' !! pk with
      | Some i => invoice_row i
      | None => true
      end
  end.

End Column.

(** A JSON integer, read as a decimal. *)
Definition whole (q : Decimal) : bool := Qnum q mod Z.pos (Qden q) =? 0.

(** A line of a create-sale request that the view can write as it is
    for [product] and [customer]: the quantity is an integer of the
    column and the discount a JSON integer ([SaleItem.save] subtracts
    it from a [Decimal], which Python does for an [int] only), and the
    customer's price, the discount and the line total fit the amount
    columns. *)
Definition request_line_fits (customer : Customer.t) (product : Product.t)
    (item_data : ItemData.t) : bool :=
  let quantity := ItemData.quantity item_data in
  let discount := ItemData.discount item_data in
  let unit_price :=
    fst (Catalog.get_price_for_customer product (Some customer) quantity) in
  Column.positive_integer quantity && whole discount
  && Column.amount discount && Column.amount unit_price
  && Column.amount (unit_price * inject_Z quantity - discount)%Q.

(** The customer fields and the discount of a create-sale request fit
    the columns of the customer and of the sale. *)
Definition request_head_fits (data : CreateSaleData.t) : bool :=
  Column.char 200 (CreateSaleData.customer_name data)
  && Column.char 254 (CreateSaleData.customer_email data)
  && Column.char 20 (CreateSaleData.customer_phone data)
  && Column.amount (CreateSaleData.discount data).

(** The customer for whom [create_sale] prices the lines of a request:
    the stored customer with the request's phone number, or the new
    one. *)
Definition request_customer (data : CreateSaleData.t) (db : DB)
    : option Customer.t :=
  match
    PosViews.Customer_get_or_create (CreateSaleData.customer_phone data)
      (CreateSaleData.customer_name data) (CreateSaleData.customer_email data)
      db
  with
  | Ok (customer, _) _ => Some customer
  | Raise _ _ => None
  end.

(** A row of the invoice form that [invoice_create] can write as it is
    for [product]: the quantity, the price, the product's tax rate
    (four decimals on the product, two on the invoice item) and the
    item's total fit the columns of the invoice item. *)
Definition form_line_fits (product : Product.t) (line : InvoiceLine.t)
    : bool :=
  let subtotal :=
    (InvoiceLine.unit_price line * inject_Z (InvoiceLine.quantity line))%Q in
  Column.integer (InvoiceLine.quantity line)
  && Column.amount (InvoiceLine.unit_price line)
  && Column.decimal 5 2 (Product.tax_rate product)
  && Column.amount (subtotal + subtotal * (Product.tax_rate product / 100))%Q.

(** A row of the form is in order when it names no product, or a
    stored one for which it fits. *)
Definition form_line_in_order (db : DB) (line : InvoiceLine.t) : Prop :=
  match InvoiceLine.product_id line with
  | Some k =>
      exists p, products db !! k = Some p /\ form_line_fits p line = true
  | None => True
  end.

(** *** Sample data for the columns *)

Module ColumnExamples.

(** The invoice of 100 that shows 70 paid, in a store that links no
    payment to it: [amount_paid] was entered by hand (the invoice admin
    edits the field). *)
Definition unlinked_db : DB :=
  set_invoices {[2 := Examples.invoice2]} Examples.shop_db.

End ColumnExamples.

(* ================================================================== *)
(** * Properties *)

Import Catalog PosModels PosViews WholesaleModels WholesaleViews.

(** ** Decimal comparisons *)

Lemma Qltb_lt (x y : Q) : Qltb x y = true <-> (x < y)%Q.
Proof.
  unfold Qltb. rewrite negb_true_iff, <- not_true_iff_false, Qle_bool_iff.
  split; [apply Qnot_le_lt | apply Qlt_not_le].
Qed.

Lemma Qltb_ge (x y : Q) : Qltb x y = false <-> (y <= x)%Q.
Proof.
  unfold Qltb. rewrite negb_false_iff. apply Qle_bool_iff.
Qed.

Lemma Qleb_le (x y : Q) : Qleb x y = true <-> (x <= y)%Q.
Proof. apply Qle_bool_iff. Qed.

Lemma Qleb_gt (x y : Q) : Qleb x y = false <-> (y < x)%Q.
Proof.
  unfold Qleb. rewrite <- not_true_iff_false, Qle_bool_iff.
  split; [apply Qnot_le_lt | apply Qlt_not_le].
Qed.

(** ** Running the monad *)

Lemma bind_Ok {A B} (m : M A) (f : A -> M B) db b db2 :
  (m ≫= f) db = Ok b db2 ->
  exists a db1, m db = Ok a db1 /\ f a db1 = Ok b db2.
Proof.
  unfold mbind, M_bind. destruct (m db) as [a db1|e db1]; [eauto|discriminate].
Qed.

Lemma atomic_Ok {A} (m : M A) db a db1 :
  atomic m db = Ok a db1 <-> m db = Ok a db1.
Proof. unfold atomic. destruct (m db); split; congruence. Qed.

(** Unfold the primitive steps of a computation. *)
Ltac unfold_steps :=
  unfold fresh_pk, modify_db, get_db, mbind, M_bind, mret, M_ret.
Tactic Notation "unfold_steps" "in" hyp(H) :=
  unfold fresh_pk, modify_db, get_db, mbind, M_bind, mret, M_ret in H.

(** ** Catalog: stock adjustment *)

(** [adjust_stock] writes the new stock and one audit row, for any
    delta, as soon as the product's row exists. *)
Lemma adjust_stock_run (p : Product.t) (q : Z) (reason : string)
    (by_ : option Z) (db : DB) (row : Product.t) :
  products db !! Product.pk p = Some row ->
  adjust_stock p q reason by_ db =
    Ok (Product.with_stock (Product.stock p + q) p)
       (set_adjustments
          (adjustments db ++
             [InventoryAdjustment.mk (Product.pk p) q (Product.stock p)
                (Product.stock p + q) reason by_])
          (set_products
             (<[Product.pk p := Product.with_stock (Product.stock p + q) row]>
                (products db)) db)).
Proof.
  intros Hrow. unfold adjust_stock, mbind, M_bind, Product_save_stock.
  cbn. rewrite Hrow. reflexivity.
Qed.

(** C4: [adjust_stock] does not fail when the stock of a tracked
    product would go negative.  The method has no guard: for every
    tracked product whose row exists and every delta that takes the
    stock below zero (the figures and the reason fitting their
    columns), it returns normally, writes [stock + delta] into the row
    and appends one adjustment row that records the negative stock.
    So taking 10 units from the widget, which has 5, leaves a stock of
    -5 and an audit row saying so. *)
Theorem adjust_stock_records_negative_stock :
  (forall (p row : Product.t) (q : Z) (reason : string) (by_ : option Z)
          (db : DB),
     products db !! Product.pk p = Some row ->
     Product.track_stock p = true ->
     Product.stock p + q < 0 ->
     Column.integer (Product.stock p) = true ->
     Column.integer q = true ->
     Column.integer (Product.stock p + q) = true ->
     Column.char 20 reason = true ->
     exists p' db',
       adjust_stock p q reason by_ db = Ok p' db' /\
       Product.stock p' = Product.stock p + q /\
       Product.stock p' < 0 /\
       products db' !! Product.pk p
         = Some (Product.with_stock (Product.stock p + q) row) /\
       adjustments db' =
         (adjustments db ++
           [InventoryAdjustment.mk (Product.pk p) q (Product.stock p)
              (Product.stock p + q) reason by_])%list) /\
  (Product.track_stock Examples.widget = true /\
   Product.stock Examples.widget + -10 < 0 /\
   exists p' db',
     adjust_stock Examples.widget (-10) "damage" None Examples.widget_db
       = Ok p' db' /\
     Product.stock p' = -5 /\
     products db' !! 1 = Some p' /\
     adjustments db' =
       [InventoryAdjustment.mk 1 (-10) 5 (-5) "damage" None]).
Proof.
  split.
  - intros p row q reason by_ db Hrow _ Hneg _ _ _ _.
    eexists _, _. split; [apply (adjust_stock_run _ _ _ _ _ _ Hrow)|].
    cbn. split; [reflexivity|]. split; [exact Hneg|].
    split; [apply lookup_insert_eq|reflexivity].
  - split; [reflexivity|]. split; [reflexivity|].
    eexists _, _. split; [vm_compute; reflexivity|].
    split; [reflexivity|]. split; vm_compute; reflexivity.
Qed.

(** ** Catalog: coupons *)

(** C10: without a cart total, [is_valid] never looks at [min_purchase]:
    its answer is the same for every minimum, it is never the
    minimum-purchase refusal, and a coupon that passes the other checks
    is reported valid whatever its minimum (the sample coupon asks for
    50).  With a cart total, the same coupon is refused exactly when the
    total is below the minimum. *)
Theorem is_valid_without_cart_total (c : Coupon.t) (now : Z) :
  (forall m, is_valid (Coupon.with_min_purchase m c) now None
             = is_valid c now None) /\
  is_valid c now None <> (false, MinimumPurchaseRequired) /\
  (forall t,
     is_valid c now (Some t) =
       if fst (is_valid c now None)
       then if Qltb t (Coupon.min_purchase c)
            then (false, MinimumPurchaseRequired)
            else (true, Valid)
       else is_valid c now None) /\
  ((0 < Coupon.min_purchase Examples.save10)%Q /\
   is_valid Examples.save10 15 None = (true, Valid) /\
   is_valid Examples.save10 15 (Some 49.99%Q)
     = (false, MinimumPurchaseRequired)).
Proof.
  split; [|split; [|split]].
  - intros m. unfold is_valid. cbn. reflexivity.
  - unfold is_valid.
    repeat match goal with
           | |- context [if ?b then _ else _] => destruct b
           end; discriminate.
  - intros t. unfold is_valid.
    destruct (negb (Coupon.is_active c)); [reflexivity|].
    destruct (now <? Coupon.valid_from c); [reflexivity|].
    destruct (Coupon.valid_to c <? now); [reflexivity|].
    destruct (match Coupon.usage_limit c with
              | Some l => negb (l =? 0) && (l <=? Coupon.times_used c)
              | None => false
              end); reflexivity.
  - split; [reflexivity|]. split; vm_compute; reflexivity.
Qed.

(** The discount never exceeds the cart total, and the sample coupon
    (10 percent, capped at 5) gives 5 on a cart of 100. *)
Lemma calculate_discount_capped (c : Coupon.t) (cart_total : Q) :
  (calculate_discount c cart_total <= cart_total)%Q /\
  (calculate_discount Examples.save10 100 == 5)%Q.
Proof.
  split; [|reflexivity].
  unfold calculate_discount, Qmin.
  match goal with
  | |- context [Qleb ?d cart_total] => destruct (Qleb d cart_total) eqn:E
  end.
  - apply Qleb_le in E. exact E.
  - apply Qle_refl.
Qed.

(** ** Sales: the stock loop *)

Lemma only_stock_changed_refl db : only_stock_changed db db.
Proof. destruct db; reflexivity. Qed.

Lemma only_stock_changed_trans db1 db2 db3 :
  only_stock_changed db1 db2 -> only_stock_changed db2 db3 ->
  only_stock_changed db1 db3.
Proof.
  unfold only_stock_changed. intros H12 H23. rewrite H23 at 1.
  rewrite H12 at 1. destruct db1; reflexivity.
Qed.

Lemma adjust_stock_Ok p q reason by_ db p' db' :
  adjust_stock p q reason by_ db = Ok p' db' ->
  exists row,
    products db !! Product.pk p = Some row /\
    p' = Product.with_stock (Product.stock p + q) p /\
    db' = set_adjustments
            (adjustments db ++
               [InventoryAdjustment.mk (Product.pk p) q (Product.stock p)
                  (Product.stock p + q) reason by_])
            (set_products
               (<[Product.pk p := Product.with_stock (Product.stock p + q) row]>
                  (products db)) db).
Proof.
  destruct (products db !! Product.pk p) as [row|] eqn:Hrow.
  - rewrite (adjust_stock_run _ _ _ _ _ _ Hrow). intros [= <- <-]. eauto.
  - unfold adjust_stock, mbind, M_bind, Product_save_stock. cbn.
    rewrite Hrow. discriminate.
Qed.

Lemma adjust_items_frame delta reason by_ items db u db' :
  adjust_items delta reason by_ items db = Ok u db' ->
  only_stock_changed db db'.
Proof.
  revert db. induction items as [|item rest IH]; intros db; cbn.
  - intros [= _ <-]. apply only_stock_changed_refl.
  - intros H. apply bind_Ok in H as (product & db1 & Hget & H).
    unfold Product_get in Hget.
    destruct (products db !! SaleItem.product item) as [p0|]; [|discriminate].
    injection Hget as <- <-.
    apply bind_Ok in H as ([] & db2 & Hadj & H).
    apply IH in H. refine (only_stock_changed_trans _ _ _ _ H).
    destruct (Product.track_stock p0).
    + apply bind_Ok in Hadj as (p' & db3 & Hadj & Hret).
      injection Hret as <-.
      apply adjust_stock_Ok in Hadj as (row & _ & _ & ->).
      destruct db; reflexivity.
    + injection Hadj as <-. apply only_stock_changed_refl.
Qed.

(** ** Sales: voiding *)

Lemma void_sale_Ok s user reason now db s' db' :
  void_sale s user reason now db = Ok s' db' ->
  s' = Sale.with_voiding Sale.VOIDED (Some now) (Some user) reason s /\
  exists row dbm,
    only_stock_changed db dbm /\
    sales db !! Sale.pk s = Some row /\
    db' = set_sales (<[Sale.pk s := copy_voiding s' row]> (sales db)) dbm.
Proof.
  unfold void_sale. rewrite atomic_Ok.
  destruct (Sale.status_eqb (Sale.status s) Sale.VOIDED); [discriminate|].
  intros H. apply bind_Ok in H as (items & db1 & Hitems & H).
  injection Hitems as <- <-.
  apply bind_Ok in H as ([] & dbm & Hadj & H).
  apply adjust_items_frame in Hadj.
  apply bind_Ok in H as ([] & db3 & Hsave & H). injection H as <- <-.
  split; [reflexivity|]. unfold Sale_save_fields in Hsave.
  assert (Hs : sales dbm = sales db) by (rewrite Hadj; reflexivity).
  cbn in Hsave. rewrite Hs in Hsave.
  destruct (sales db !! Sale.pk s) as [row|] eqn:Hrow; [|discriminate].
  injection Hsave as <-. exists row, dbm. auto.
Qed.

(** C8: [void_sale] on a sale that is already voided raises the
    invalid-state error and leaves the store as it was (no stock is
    restored, no row changes).  A successful [void_sale] leaves the sale
    voided, in the object and in its row, so every later call, on the
    object or through the [void] view, is refused in the same way. *)
Theorem void_sale_only_once (s : Sale.t) (user : Z) (reason : string)
    (now : Z) (db : DB) :
  (Sale.status s = Sale.VOIDED ->
   void_sale s user reason now db
     = Raise (ValueError "Sale is already voided") db) /\
  (forall s' db',
     void_sale s user reason now db = Ok s' db' ->
     Sale.status s' = Sale.VOIDED /\
     (exists row, sales db' !! Sale.pk s = Some row /\
                  Sale.status row = Sale.VOIDED) /\
     forall (user2 : User.t) reason2 now2,
       void_sale s' (User.pk user2) reason2 now2 db'
         = Raise (ValueError "Sale is already voided") db' /\
       void (Sale.pk s) user2 reason2 now2 db'
         = Ok (VoidError "Sale is already voided") db').
Proof.
  assert (Hvoided : forall s0 u r n d, Sale.status s0 = Sale.VOIDED ->
            void_sale s0 u r n d
              = Raise (ValueError "Sale is already voided") d).
  { intros s0 u r n d Hst. unfold void_sale, atomic. rewrite Hst. reflexivity. }
  split; [apply Hvoided|].
  intros s' db' H. apply void_sale_Ok in H as (-> & row & dbm & _ & _ & ->).
  split; [reflexivity|]. split.
  - eexists. split; [apply lookup_insert_eq|reflexivity].
  - intros user2 reason2 now2. split; [apply Hvoided; reflexivity|].
    unfold void. cbn. rewrite lookup_insert_eq.
    rewrite Hvoided by reflexivity. reflexivity.
Qed.

(** The theorem at the sample sale: a voided object is refused; the
    pending sale is voided once and then refused by the view. *)
Lemma void_sale_only_once_witness :
  void_sale Examples.voided_sale 3 "again" 2000 Examples.sale_db
    = Raise (ValueError "Sale is already voided") Examples.sale_db /\
  exists s' db',
    void_sale Examples.pending_sale 3 "mistake" 2000 Examples.sale_db
      = Ok s' db' /\
    Sale.status s' = Sale.VOIDED /\
    void 50 Examples.cashier "again" 2001 db'
      = Ok (VoidError "Sale is already voided") db'.
Proof.
  split.
  - apply (void_sale_only_once Examples.voided_sale 3 "again" 2000
             Examples.sale_db). reflexivity.
  - eexists _, _. split; [vm_compute; reflexivity|].
    pose proof (void_sale_only_once Examples.pending_sale 3 "mistake" 2000
                  Examples.sale_db) as [_ H].
    specialize (H _ _ ltac:(vm_compute; reflexivity)) as (Hst & _ & Hnext).
    split; [exact Hst|]. apply (Hnext Examples.cashier "again" 2001).
Defined.

(** ** Sales: completion *)

Lemma status_eqb_eq a b : Sale.status_eqb a b = true <-> a = b.
Proof. destruct a, b; cbn; split; congruence. Qed.

Lemma complete_sale_Ok s now db s' db' :
  complete_sale s now db = Ok s' db' ->
  Sale.status s = Sale.PENDING /\
  s' = Sale.with_completion Sale.COMPLETED (Some now) s /\
  exists row dbm,
    only_stock_changed db dbm /\
    sales db !! Sale.pk s = Some row /\
    db' = set_sales (<[Sale.pk s := copy_completion s' row]> (sales db)) dbm.
Proof.
  unfold complete_sale. rewrite atomic_Ok.
  destruct (Sale.status_eqb (Sale.status s) Sale.PENDING) eqn:Hst;
    [|discriminate].
  apply status_eqb_eq in Hst. cbn.
  intros H. apply bind_Ok in H as (items & db1 & Hitems & H).
  injection Hitems as <- <-.
  apply bind_Ok in H as ([] & dbm & Hadj & H).
  apply adjust_items_frame in Hadj.
  apply bind_Ok in H as ([] & db3 & Hsave & H). injection H as <- <-.
  split; [exact Hst|]. split; [reflexivity|]. unfold Sale_save_fields in Hsave.
  assert (Hs : sales dbm = sales db) by (rewrite Hadj; reflexivity).
  cbn in Hsave. rewrite Hs in Hsave.
  destruct (sales db !! Sale.pk s) as [row|] eqn:Hrow; [|discriminate].
  injection Hsave as <-. exists row, dbm. auto.
Qed.

(** ** The create-sale view, step by step *)

Lemma Sale_create_Ok cashier customer discount notes terminal db s db' :
  Sale_create cashier customer discount notes terminal db = Ok s db' ->
  Sale.payment_status s = Sale.PAY_PENDING /\
  Sale.amount_paid s = 0%Q /\
  Sale.status s = Sale.PENDING /\
  sales db' !! Sale.pk s = Some s /\
  products db' = products db /\ adjustments db' = adjustments db.
Proof.
  unfold Sale_create, Sale_save. unfold_steps.
  intros [= <- <-]. cbn. rewrite lookup_insert_eq. auto 10.
Qed.

Lemma create_items_Ok sale customer items db r db' :
  create_items sale customer items db = Ok r db' ->
  sales db' = sales db /\ products db' = products db /\
  adjustments db' = adjustments db /\ customers db' = customers db /\
  payments db' = payments db /\
  match r with
  | Some (BadRequest (ProductCannotBeSold _)) | None => True
  | _ => False
  end.
Proof.
  revert db. induction items as [|item rest IH]; intros db; cbn.
  - intros [= <- <-]. auto 10.
  - intros H. apply bind_Ok in H as (product & db1 & Hget & H).
    unfold Product_get in Hget.
    destruct (products db !! ItemData.product_id item) as [p0|];
      [|discriminate].
    injection Hget as <- <-.
    destruct (negb (can_sell p0 (ItemData.quantity item))).
    + injection H as <- <-. auto 10.
    + destruct (get_price_for_customer p0 (Some customer)
                  (ItemData.quantity item)) as [unit_price label].
      apply bind_Ok in H as (it & db2 & Hit & H).
      apply IH in H as (Hs & Hp & Ha & Hc & Hpay & Hr).
      unfold SaleItem_create in Hit. unfold_steps in Hit.
      injection Hit as _ <-. cbn in *. auto 10.
Qed.

Lemma calculate_totals_Ok self db self' db' :
  calculate_totals self db = Ok self' db' ->
  exists st tx row,
    self' = Sale.with_totals st tx (st + tx - Sale.discount self)%Q self /\
    sales db !! Sale.pk self = Some row /\
    sales db' = <[Sale.pk self :=
                    Sale.with_totals st tx (st + tx - Sale.discount self)%Q row]>
                  (sales db) /\
    products db' = products db /\ adjustments db' = adjustments db /\
    customers db' = customers db /\ payments db' = payments db.
Proof.
  unfold calculate_totals. intros H.
  apply bind_Ok in H as (items & db1 & Hitems & H).
  injection Hitems as <- <-.
  apply bind_Ok in H as ([] & db2 & Hsave & H). injection H as <- <-.
  unfold Sale_save_fields in Hsave. cbn in Hsave.
  destruct (sales db !! Sale.pk self) as [row|]; [|discriminate].
  injection Hsave as <-. eexists _, _, row. cbn. auto 10.
Qed.

Lemma create_payments_Ok sale ps tp db tp' db' :
  create_payments sale ps tp db = Ok tp' db' ->
  tp' = fold_left Qplus (map PaymentData.amount ps) tp /\
  sales db' = sales db /\ products db' = products db /\
  adjustments db' = adjustments db /\ customers db' = customers db /\
  (exists new, payments db' = (payments db ++ new)%list /\
               length new = length ps).
Proof.
  revert tp db. induction ps as [|p rest IH]; intros tp db; cbn.
  - intros [= <- <-]. repeat split. exists []. rewrite app_nil_r. auto.
  - intros H. apply bind_Ok in H as (pay & db1 & Hpay & H).
    apply IH in H as (-> & Hs & Hp & Ha & Hc & new & Hnew & Hlen).
    unfold Payment_create in Hpay. unfold_steps in Hpay.
    injection Hpay as _ <-. cbn in *. repeat split; auto.
    eexists (_ :: new). rewrite Hnew, <- app_assoc. cbn. auto.
Qed.

Lemma settle_Ok sale customer tp db v db' :
  settle sale customer tp db = Ok v db' ->
  products db' = products db /\ adjustments db' = adjustments db /\
  match v with
  | inl _ => db' = db
  | inr (sale', _) =>
      ((sale' = sale /\ db' = db /\ (Sale.total sale <= tp)%Q) \/
       (sale' = Sale.with_payment_status Sale.PARTIAL sale /\
        sales db' !! Sale.pk sale = Some sale' /\
        Customer.customer_type customer = Customer.wholesale /\
        (tp < Sale.total sale)%Q))
  end.
Proof.
  unfold settle.
  destruct (Customer.customer_type customer) eqn:Hty;
    try (destruct (Qltb tp (Sale.total sale)) eqn:Hlt;
         intros [= <- <-]; repeat split; left;
         apply Qltb_ge in Hlt; auto).
  destruct (Qltb tp (Sale.total sale * 0.5)); [intros [= <- <-]; auto|].
  destruct (Qltb tp (Sale.total sale)) eqn:Hlt.
  - cbn. intros [= <- <-]. cbn. repeat split. right.
    apply Qltb_lt in Hlt. rewrite lookup_insert_eq. auto.
  - intros [= <- <-]. apply Qltb_ge in Hlt. repeat split. left. auto.
Qed.

(** What a [Created] answer of [create_sale] says about the sale. *)
Lemma create_sale_Created user data now db s db' :
  create_sale user data now db = Ok (Created s) db' ->
  exists sale1 : Sale.t,
    Sale.payment_status sale1 = Sale.PAY_PENDING /\
    Sale.amount_paid sale1 = 0%Q /\
    (s = Sale.with_completion Sale.COMPLETED (Some now) sale1 /\
     (Sale.total sale1
      <= Qsum (map PaymentData.amount (CreateSaleData.payments data)))%Q
     \/
     s = Sale.with_completion Sale.COMPLETED (Some now)
           (Sale.with_payment_status Sale.PARTIAL sale1) /\
     (Qsum (map PaymentData.amount (CreateSaleData.payments data))
      < Sale.total sale1)%Q) /\
    sales db' !! Sale.pk s = Some s.
Proof.
  unfold create_sale. rewrite atomic_Ok. intros H.
  apply bind_Ok in H as ([customer0 created] & db1 & _ & H).
  apply bind_Ok in H as (customer & db2 & _ & H).
  apply bind_Ok in H as (sale0 & db3 & Hcreate & H).
  apply Sale_create_Ok in Hcreate as (Hps & Hap & Hst & Hrow3 & _).
  apply bind_Ok in H as (early & db4 & Hitems & H).
  apply create_items_Ok in Hitems as (Hs4 & _ & _ & _ & _ & Hearly).
  destruct early as [response|].
  { injection H as -> _. destruct Hearly. }
  apply bind_Ok in H as (sale1 & db5 & Htot & H).
  apply calculate_totals_Ok in Htot
    as (st & tx & row & -> & Hrow4 & Hs5 & _).
  rewrite Hs4, Hrow3 in Hrow4. injection Hrow4 as <-.
  apply bind_Ok in H as (tp & db6 & Hpay & H).
  apply create_payments_Ok in Hpay as (-> & Hs6 & _).
  apply bind_Ok in H as ([e|[sale2 customer2]] & db7 & Hsettle & H);
    [discriminate|].
  apply bind_Ok in H as (s' & db8 & Hcomplete & H). injection H as <- <-.
  apply complete_sale_Ok in Hcomplete
    as (_ & -> & row & dbm & _ & Hrow7 & ->).
  apply settle_Ok in Hsettle as (_ & _ & Hsettle).
  exists (Sale.with_totals st tx (st + tx - Sale.discount sale0)%Q sale0).
  split; [exact Hps|]. split; [exact Hap|].
  assert (Hrow6 : sales db6 !! Sale.pk sale0
                  = Some (Sale.with_totals st tx
                            (st + tx - Sale.discount sale0)%Q sale0)).
  { rewrite Hs6, Hs5. apply lookup_insert_eq. }
  assert (Hrow : row = sale2).
  { destruct Hsettle as [(-> & -> & _)|(-> & Hrow & _)]; cbn in *; congruence. }
  subst row. split.
  - destruct Hsettle as [(-> & _ & Hle)|(-> & _ & _ & Hlt)]; [left|right];
      auto.
  - cbn. rewrite lookup_insert_eq. reflexivity.
Qed.


(** ** Settlement policy *)



(** The same two cases through the whole view, for Ann buying one
    widget at 100. *)
Lemma create_sale_wholesale_examples :
  (exists m db',
     create_sale Examples.cashier (Examples.order "Ann" "555" 1 40%Q) 1000
       Examples.shop_db = Ok (BadRequest (WholesaleMinimum m)) db' /\
     (m == 50)%Q) /\
  (exists s c db',
     create_sale Examples.cashier (Examples.order "Ann" "555" 1 50%Q) 1000
       Examples.shop_db = Ok (Created s) db' /\
     Sale.status s = Sale.COMPLETED /\
     Sale.payment_status s = Sale.PARTIAL /\
     (Sale.total s == 100)%Q /\
     customers db' !! 7 = Some c /\
     (Customer.current_balance c
      == Customer.current_balance Examples.ann + 50)%Q).
Proof.
  split.
  - eexists _, _. split; [vm_compute; reflexivity|reflexivity].
  - eexists _, _, _. split; [vm_compute; reflexivity|].
    repeat split; vm_compute; reflexivity.
Qed.

(** ** Rejected create-sale requests *)

Lemma Customer_get_or_create_Ok phone name email db r db' :
  Customer_get_or_create phone name email db = Ok r db' ->
  products db' = products db /\ adjustments db' = adjustments db /\
  sales db' = sales db /\ next_pk db <= next_pk db'.
Proof.
  unfold Customer_get_or_create.
  destruct (List.filter _ _) as [|c1 [|c2 l]]; intros [= <- <-]; cbn;
    repeat split; lia.
Qed.

(** Lines 58-62 of the view: the update of a customer that existed. *)
Lemma Customer_update_Ok (created : bool) (name email : string)
    (customer : Customer.t) db c db' :
  (if negb created then
     let customer := Customer.with_name name customer in
     let customer :=
       if negb (String.eqb email "")
       then Customer.with_email email customer
       else customer in
     _ ← Customer_save customer;
     mret customer
   else mret customer) db = Ok c db' ->
  products db' = products db /\ adjustments db' = adjustments db /\
  sales db' = sales db /\ next_pk db' = next_pk db.
Proof.
  destruct created; cbn.
  - intros [= _ <-]. auto.
  - unfold Customer_save. unfold_steps.
    intros [= _ <-]. cbn. auto.
Qed.

Lemma Sale_create_pk cashier customer discount notes terminal db s db' :
  Sale_create cashier customer discount notes terminal db = Ok s db' ->
  Sale.pk s = next_pk db /\ next_pk db' = next_pk db + 1.
Proof.
  unfold Sale_create, Sale_save. unfold_steps.
  intros [= <- <-]. cbn. auto.
Qed.

Lemma create_items_pk sale customer items db r db' :
  create_items sale customer items db = Ok r db' -> next_pk db <= next_pk db'.
Proof.
  revert db. induction items as [|item rest IH]; intros db; cbn.
  - intros [= _ <-]. lia.
  - intros H. apply bind_Ok in H as (product & db1 & Hget & H).
    unfold Product_get in Hget.
    destruct (products db !! ItemData.product_id item) as [p0|];
      [|discriminate].
    injection Hget as <- <-.
    destruct (negb (can_sell p0 (ItemData.quantity item))).
    + injection H as _ <-. lia.
    + destruct (get_price_for_customer p0 (Some customer)
                  (ItemData.quantity item)) as [unit_price label].
      apply bind_Ok in H as (it & db2 & Hit & H). apply IH in H.
      unfold SaleItem_create in Hit. unfold_steps in Hit.
      injection Hit as _ <-. cbn in H. lia.
Qed.

Lemma create_payments_pk sale ps tp db tp' db' :
  create_payments sale ps tp db = Ok tp' db' -> next_pk db <= next_pk db'.
Proof.
  revert tp db. induction ps as [|p rest IH]; intros tp db; cbn.
  - intros [= _ <-]. lia.
  - intros H. apply bind_Ok in H as (pay & db1 & Hpay & H). apply IH in H.
    unfold Payment_create in Hpay. unfold_steps in Hpay.
    injection Hpay as _ <-. cbn in H. lia.
Qed.

Lemma calculate_totals_pk self db self' db' :
  calculate_totals self db = Ok self' db' ->
  next_pk db' = next_pk db /\ Sale.pk self' = Sale.pk self /\
  (forall row, sales db !! Sale.pk self = Some row ->
     exists row', sales db' !! Sale.pk self = Some row' /\
                  Sale.status row' = Sale.status row /\
                  Sale.payment_status row' = Sale.payment_status row).
Proof.
  unfold calculate_totals. intros H.
  apply bind_Ok in H as (items & db1 & Hitems & H).
  injection Hitems as <- <-.
  apply bind_Ok in H as ([] & db2 & Hsave & H). injection H as <- <-.
  unfold Sale_save_fields in Hsave. cbn in Hsave.
  destruct (sales db !! Sale.pk self) as [row|]; [|discriminate].
  injection Hsave as <-. cbn. split; [reflexivity|]. split; [reflexivity|].
  intros row0 [= <-]. eexists. rewrite lookup_insert_eq.
  split; [reflexivity|]. split; reflexivity.
Qed.

(** Whatever request is answered with 400: no stock was deducted, but
    the store is not what it was.  The sale created at the start of the
    view is still there, pending, under the key that was fresh. *)
Lemma create_sale_BadRequest user data now db e db' :
  create_sale user data now db = Ok (BadRequest e) db' ->
  products db' = products db /\ adjustments db' = adjustments db /\
  next_pk db < next_pk db' /\
  exists k s,
    next_pk db <= k /\ sales db' !! k = Some s /\
    Sale.status s = Sale.PENDING /\
    Sale.payment_status s = Sale.PAY_PENDING.
Proof.
  unfold create_sale. rewrite atomic_Ok. intros H.
  apply bind_Ok in H as ([customer0 created] & db1 & Hget & H).
  apply Customer_get_or_create_Ok in Hget as (Hp1 & Ha1 & _ & Hn1).
  apply bind_Ok in H as (customer & db2 & Hupd & H).
  apply Customer_update_Ok in Hupd as (Hp2 & Ha2 & _ & Hn2).
  apply bind_Ok in H as (sale0 & db3 & Hcreate & H).
  pose proof (Sale_create_pk _ _ _ _ _ _ _ _ Hcreate) as (Hk & Hn3).
  apply Sale_create_Ok in Hcreate as (Hps & _ & Hst & Hrow3 & Hp3 & Ha3).
  apply bind_Ok in H as (early & db4 & Hitems & H).
  pose proof (create_items_pk _ _ _ _ _ _ Hitems) as Hn4.
  apply create_items_Ok in Hitems as (Hs4 & Hp4 & Ha4 & _ & _ & _).
  destruct early as [response|].
  { injection H as _ <-.
    split; [congruence|]. split; [congruence|]. split; [lia|].
    exists (Sale.pk sale0), sale0. rewrite Hs4.
    split; [lia|]. auto. }
  apply bind_Ok in H as (sale1 & db5 & Htot & H).
  pose proof (calculate_totals_pk _ _ _ _ Htot) as (Hn5 & _ & Hrow5).
  apply calculate_totals_Ok in Htot
    as (st & tx & row & -> & _ & _ & Hp5 & Ha5 & _).
  rewrite Hs4 in Hrow5.
  destruct (Hrow5 _ Hrow3) as (row5 & Hlook5 & Hst5 & Hps5).
  apply bind_Ok in H as (tp & db6 & Hpay & H).
  pose proof (create_payments_pk _ _ _ _ _ _ Hpay) as Hn6.
  apply create_payments_Ok in Hpay as (_ & Hs6 & Hp6 & Ha6 & _).
  apply bind_Ok in H as ([e0|[sale2 customer2]] & db7 & Hsettle & H).
  - injection H as _ <-. apply settle_Ok in Hsettle as (_ & _ & ->).
    split; [congruence|]. split; [congruence|]. split; [lia|].
    exists (Sale.pk sale0), row5. rewrite Hs6.
    split; [lia|]. split; [exact Hlook5|]. split; congruence.
  - apply bind_Ok in H as (s' & db8 & _ & H). discriminate.
Qed.

(** C2 on the code.  Bob's payment of 79.99 for a gadget at 80 is
    answered with the insufficient-payment rejection, and so is an order
    whose second line cannot be sold; in both cases no stock is
    deducted and no balance changes, but the store is not what it was:
    the [Sale] row created at the start of the view, the [SaleItem] rows
    of the lines before the failing check and (in the first case) the
    [Payment] row survive, because the view returns the 400 response
    instead of raising, and [transaction.atomic] commits on a return.
    This is so for every rejection: it leaves a pending sale behind. *)
Theorem create_sale_rejection_keeps_rows :
  (exists db',
     create_sale Examples.cashier (Examples.order "Bob" "777" 2 79.99%Q) 1000
       Examples.shop_db = Ok (BadRequest InsufficientPayment) db' /\
     db' <> Examples.shop_db /\
     sales Examples.shop_db = ∅ /\
     Sale.status <$> sales db' !! 100 = Some Sale.PENDING /\
     map SaleItem.sale (sale_items db') = [100] /\
     map Payment.sale (payments db') = [Some 100] /\
     products db' = products Examples.shop_db /\
     adjustments db' = [] /\
     customers db' = customers Examples.shop_db) /\
  (exists db',
     create_sale Examples.cashier Examples.two_line_order 1000
       Examples.shop_db = Ok (BadRequest (ProductCannotBeSold "WID-1")) db' /\
     db' <> Examples.shop_db /\
     Sale.status <$> sales db' !! 100 = Some Sale.PENDING /\
     map SaleItem.product (sale_items db') = [2] /\
     payments db' = [] /\
     products db' = products Examples.shop_db) /\
  (forall user data now db e db',
     create_sale user data now db = Ok (BadRequest e) db' ->
     db' <> db /\
     products db' = products db /\ adjustments db' = adjustments db /\
     exists k s,
       next_pk db <= k /\ sales db' !! k = Some s /\
       Sale.status s = Sale.PENDING /\
       Sale.payment_status s = Sale.PAY_PENDING).
Proof.
  split; [|split].
  - eexists. split; [vm_compute; reflexivity|].
    split; [intros H; apply (f_equal next_pk) in H; vm_compute in H;
            discriminate|].
    repeat split; vm_compute; reflexivity.
  - eexists. split; [vm_compute; reflexivity|].
    split; [intros H; apply (f_equal next_pk) in H; vm_compute in H;
            discriminate|].
    repeat split; vm_compute; reflexivity.
  - intros user data now db e db' H.
    apply create_sale_BadRequest in H
      as (Hp & Ha & Hn & k & s & Hk & Hs & Hst & Hps).
    split; [intros ->; lia|]. split; [exact Hp|]. split; [exact Ha|].
    exists k, s. auto.
Qed.

(** ** Sales: what the stock loop does to the products *)

Lemma with_stock_same p : Product.with_stock (Product.stock p) p = p.
Proof. destruct p; reflexivity. Qed.

Lemma moved_by_0 p : moved_by 0 p = p.
Proof.
  unfold moved_by. destruct (Product.track_stock p); [|reflexivity].
  rewrite Z.add_0_r. apply with_stock_same.
Qed.

Lemma moved_by_moved_by d e p : moved_by e (moved_by d p) = moved_by (d + e) p.
Proof.
  unfold moved_by. destruct (Product.track_stock p) eqn:Ht; cbn;
    rewrite Ht; [|reflexivity].
  unfold Product.with_stock; cbn. f_equal. lia.
Qed.

Lemma sum_delta_opp k items :
  sum_delta (fun item => - SaleItem.quantity item) k items
  = - units_of k items.
Proof.
  unfold units_of, sum_delta. induction items as [|item rest IH]; cbn;
    [reflexivity|].
  destruct (SaleItem.product item =? k); lia.
Qed.

Lemma tracked_lines_ext m m' items :
  (forall k, tracks m' k = tracks m k) ->
  tracked_lines m' items = tracked_lines m items.
Proof.
  intros H. unfold tracked_lines. induction items as [|item rest IH]; cbn;
    [reflexivity|].
  rewrite H, IH. reflexivity.
Qed.

Lemma tracked_lines_cons m item rest :
  tracked_lines m (item :: rest)
  = if tracks m (SaleItem.product item)
    then item :: tracked_lines m rest
    else tracked_lines m rest.
Proof. reflexivity. Qed.

(** With the keys in place the loop cannot fail; it moves the stock of
    each tracked product by the sum of its lines' deltas and writes one
    audit row per tracked line, in line order. *)
Lemma adjust_items_run delta reason by_ items db :
  products_keyed (products db) ->
  items_have_products items (products db) ->
  exists db' new,
    adjust_items delta reason by_ items db = Ok tt db' /\
    only_stock_changed db db' /\
    (forall k, products db' !! k
               = moved_by (sum_delta delta k items) <$> products db !! k) /\
    adjustments db' = (adjustments db ++ new)%list /\
    map (fun a => (InventoryAdjustment.product a,
                   InventoryAdjustment.quantity_change a,
                   InventoryAdjustment.new_stock a
                   - InventoryAdjustment.old_stock a)) new
    = map (fun item => (SaleItem.product item, delta item, delta item))
        (tracked_lines (products db) items).
Proof.
  revert db. induction items as [|item rest IH]; intros db Hkey Hfk.
  - exists db, []. cbn. split; [reflexivity|].
    split; [apply only_stock_changed_refl|]. split.
    + intros k. destruct (products db !! k) as [p|]; cbn; [|reflexivity].
      rewrite moved_by_0. reflexivity.
    + rewrite app_nil_r. auto.
  - apply Forall_cons in Hfk as [[p Hp] Hfk].
    pose proof (Hkey _ _ Hp) as Hpk.
    cbn [adjust_items]. unfold Product_get at 1.
    unfold mbind at 1, M_bind at 1. rewrite Hp.
    destruct (Product.track_stock p) eqn:Ht.
    + assert (Hrow : products db !! Product.pk p = Some p) by (rewrite Hpk; exact Hp).
      unfold mbind at 1, M_bind at 1. unfold mbind at 1, M_bind at 1.
      rewrite (adjust_stock_run _ (delta item) reason by_ _ _ Hrow).
      cbn [mret M_ret].
      set (db1 := set_adjustments _ _).
      destruct (IH db1) as (db' & new & Hrun & Hframe & Hlook & Hadj & Hnew).
      * intros k q. subst db1. cbn. rewrite lookup_insert.
        case_decide as Hk; [intros [= <-]; exact Hk|apply Hkey].
      * subst db1. cbn. eapply Forall_impl; [exact Hfk|].
        intros it Hit. cbn in Hit. rewrite lookup_insert.
        case_decide; [eauto|exact Hit].
      * exists db', (InventoryAdjustment.mk (Product.pk p) (delta item)
                      (Product.stock p) (Product.stock p + delta item)
                      reason by_ :: new).
        split; [exact Hrun|]. split.
        { refine (only_stock_changed_trans _ _ _ _ Hframe).
          subst db1. destruct db; reflexivity. }
        split; [|split].
        { intros k. rewrite Hlook. subst db1. cbn. rewrite lookup_insert.
          rewrite Hpk.
          case_decide as Hk.
          - subst k. rewrite Hp, Z.eqb_refl. cbn. f_equal.
            replace (Product.with_stock (Product.stock p + delta item) p)
              with (moved_by (delta item) p)
              by (unfold moved_by; rewrite Ht; reflexivity).
            apply moved_by_moved_by.
          - destruct (Z.eqb_spec (SaleItem.product item) k); [contradiction|].
            reflexivity. }
        { rewrite Hadj. subst db1. cbn. rewrite <- app_assoc. reflexivity. }
        { cbn [map]. rewrite Hnew.
          rewrite (tracked_lines_ext (products db) (products db1)).
          - rewrite tracked_lines_cons.
            replace (tracks (products db) (SaleItem.product item)) with true
              by (unfold tracks; rewrite Hp, Ht; reflexivity).
            cbn. rewrite Hpk.
            replace (Product.stock p + delta item - Product.stock p)
              with (delta item) by lia.
            reflexivity.
          - intros k. subst db1. unfold tracks. cbn. rewrite lookup_insert.
            case_decide as Hk; [|reflexivity].
            subst k. rewrite Hrow. reflexivity. }
    + unfold mbind at 1, M_bind at 1. cbn [mret M_ret].
      destruct (IH db Hkey Hfk) as (db' & new & Hrun & Hframe & Hlook & Hadj & Hnew).
      exists db', new. split; [exact Hrun|]. split; [exact Hframe|].
      split; [|split; [exact Hadj|]].
      * intros k. rewrite Hlook. cbn [sum_delta fold_right].
        destruct (Z.eqb_spec (SaleItem.product item) k) as [Hk|Hk];
          [|reflexivity].
        subst k. rewrite Hp. cbn. unfold moved_by. rewrite Ht. reflexivity.
      * rewrite Hnew, tracked_lines_cons.
        replace (tracks (products db) (SaleItem.product item)) with false
          by (unfold tracks; rewrite Hp, Ht; reflexivity).
        reflexivity.
Qed.

Lemma only_stock_changed_sales db db' :
  only_stock_changed db db' ->
  sales db' = sales db /\ sale_items db' = sale_items db.
Proof. intros ->. split; reflexivity. Qed.

Lemma complete_sale_run s now db db1 row :
  Sale.status s = Sale.PENDING ->
  sales db !! Sale.pk s = Some row ->
  adjust_items (fun item => - SaleItem.quantity item) "sale"
    (Some (Sale.cashier s)) (sale_lines s db) db = Ok tt db1 ->
  complete_sale s now db
  = Ok (Sale.with_completion Sale.COMPLETED (Some now) s)
       (set_sales
          (<[Sale.pk s := Sale.with_completion Sale.COMPLETED (Some now) row]>
             (sales db)) db1).
Proof.
  intros Hst Hrow Hadj. pose proof (adjust_items_frame _ _ _ _ _ _ _ Hadj) as Hf.
  apply only_stock_changed_sales in Hf as [Hs _].
  unfold complete_sale, atomic. rewrite Hst. cbn [negb Sale.status_eqb].
  unfold Sale_items. unfold mbind at 1, M_bind at 1.
  fold (sale_lines s db). unfold mbind at 1, M_bind at 1. rewrite Hadj.
  unfold mbind, M_bind, Sale_save_fields. cbn. rewrite Hs, Hrow. reflexivity.
Qed.

Lemma void_sale_run s user reason now db db1 row :
  Sale.status s <> Sale.VOIDED ->
  sales db !! Sale.pk s = Some row ->
  adjust_items (fun item => SaleItem.quantity item) "return"
    (Some user) (sale_lines s db) db = Ok tt db1 ->
  void_sale s user reason now db
  = Ok (Sale.with_voiding Sale.VOIDED (Some now) (Some user) reason s)
       (set_sales
          (<[Sale.pk s :=
               Sale.with_voiding Sale.VOIDED (Some now) (Some user) reason row]>
             (sales db)) db1).
Proof.
  intros Hst Hrow Hadj. pose proof (adjust_items_frame _ _ _ _ _ _ _ Hadj) as Hf.
  apply only_stock_changed_sales in Hf as [Hs _].
  unfold void_sale, atomic.
  destruct (Sale.status_eqb (Sale.status s) Sale.VOIDED) eqn:E;
    [apply status_eqb_eq in E; contradiction|].
  unfold Sale_items. unfold mbind at 1, M_bind at 1.
  fold (sale_lines s db). unfold mbind at 1, M_bind at 1. rewrite Hadj.
  unfold mbind, M_bind, Sale_save_fields. cbn. rewrite Hs, Hrow. reflexivity.
Qed.

(** C3: for a pending sale whose row and products are in the store,
    [complete_sale] succeeds, writes one audit row per tracked line with
    [new_stock - old_stock = - quantity], and leaves every tracked
    product with its stock lowered by the units on its lines; a
    [void_sale] after it succeeds as well, raises each stock by the same
    units, and the product table is then exactly what it was before
    [complete_sale]. *)
Theorem complete_then_void_restores_stock (s : Sale.t) (now later user : Z)
    (reason : string) (db : DB) :
  Sale.status s = Sale.PENDING ->
  is_Some (sales db !! Sale.pk s) ->
  products_keyed (products db) ->
  items_have_products (sale_lines s db) (products db) ->
  exists s1 db1 s2 db2 sold,
    complete_sale s now db = Ok s1 db1 /\
    (forall k, products db1 !! k
               = moved_by (- units_of k (sale_lines s db)) <$> products db !! k) /\
    adjustments db1 = (adjustments db ++ sold)%list /\
    map (fun a => (InventoryAdjustment.product a,
                   InventoryAdjustment.quantity_change a,
                   InventoryAdjustment.new_stock a
                   - InventoryAdjustment.old_stock a)) sold
    = map (fun item => (SaleItem.product item, - SaleItem.quantity item,
                        - SaleItem.quantity item))
        (tracked_lines (products db) (sale_lines s db)) /\
    void_sale s1 user reason later db1 = Ok s2 db2 /\
    (forall k, products db2 !! k
               = moved_by (units_of k (sale_lines s db)) <$> products db1 !! k) /\
    products db2 = products db.
Proof.
  intros Hst [row Hrow] Hkey Hfk.
  destruct (adjust_items_run (fun item => - SaleItem.quantity item) "sale"
              (Some (Sale.cashier s)) _ db Hkey Hfk)
    as (db1 & sold & Hrun1 & Hf1 & Hlook1 & Hadj1 & Hsold).
  pose proof (complete_sale_run s now db db1 row Hst Hrow Hrun1) as Hc.
  set (s1 := Sale.with_completion Sale.COMPLETED (Some now) s) in *.
  set (dbc := set_sales _ db1) in *.
  assert (Hlines : sale_lines s1 dbc = sale_lines s db).
  { unfold sale_lines. subst dbc s1. cbn.
    apply only_stock_changed_sales in Hf1 as [_ ->]. reflexivity. }
  assert (Hkey1 : products_keyed (products dbc)).
  { intros k p. subst dbc. cbn. rewrite Hlook1.
    destruct (products db !! k) as [p0|] eqn:Hp0; cbn; [|discriminate].
    intros [= <-]. apply Hkey in Hp0. unfold moved_by.
    destruct (Product.track_stock p0); exact Hp0. }
  assert (Hfk1 : items_have_products (sale_lines s1 dbc) (products dbc)).
  { rewrite Hlines. eapply Forall_impl; [exact Hfk|].
    intros item [p Hp]. subst dbc. cbn. rewrite Hlook1, Hp. cbn. eauto. }
  destruct (adjust_items_run (fun item => SaleItem.quantity item) "return"
              (Some user) _ dbc Hkey1 Hfk1)
    as (db2 & back & Hrun2 & Hf2 & Hlook2 & _ & _).
  assert (Hrow1 : sales dbc !! Sale.pk s1
                  = Some (Sale.with_completion Sale.COMPLETED (Some now) row)).
  { subst dbc s1. cbn. apply lookup_insert_eq. }
  assert (Hst1 : Sale.status s1 <> Sale.VOIDED) by (subst s1; discriminate).
  pose proof (void_sale_run s1 user reason later dbc db2 _ Hst1 Hrow1 Hrun2)
    as Hv.
  rewrite Hlines in Hlook2. fold (units_of) in Hlook2.
  eexists s1, dbc, _, _, sold. split; [exact Hc|].
  split; [intros k; subst dbc; cbn; rewrite Hlook1, sum_delta_opp; reflexivity|].
  split; [subst dbc; exact Hadj1|]. split; [exact Hsold|].
  split; [exact Hv|]. split; [intros k; cbn; apply Hlook2|].
  cbn. apply map_eq. intros k. rewrite Hlook2. subst dbc. cbn.
  rewrite Hlook1, sum_delta_opp.
  destruct (products db !! k) as [p|]; cbn; [|reflexivity].
  rewrite moved_by_moved_by, Z.add_opp_diag_l, moved_by_0. reflexivity.
Qed.

(** The theorem at the sample sale of two widgets and one gadget: both
    stocks of 5 go to 3 and 4 and come back. *)
Lemma complete_then_void_restores_stock_witness :
  exists s1 db1 s2 db2 sold,
    complete_sale Examples.pending_sale 1000 Examples.sale_db = Ok s1 db1 /\
    (forall k, products db1 !! k
               = moved_by
                   (- units_of k (sale_lines Examples.pending_sale
                                     Examples.sale_db))
                 <$> products Examples.sale_db !! k) /\
    adjustments db1 = (adjustments Examples.sale_db ++ sold)%list /\
    map (fun a => (InventoryAdjustment.product a,
                   InventoryAdjustment.quantity_change a,
                   InventoryAdjustment.new_stock a
                   - InventoryAdjustment.old_stock a)) sold
    = map (fun item => (SaleItem.product item, - SaleItem.quantity item,
                        - SaleItem.quantity item))
        (tracked_lines (products Examples.sale_db)
           (sale_lines Examples.pending_sale Examples.sale_db)) /\
    void_sale s1 3 "mistake" 2000 db1 = Ok s2 db2 /\
    (forall k, products db2 !! k
               = moved_by
                   (units_of k (sale_lines Examples.pending_sale
                                   Examples.sale_db))
                 <$> products db1 !! k) /\
    products db2 = products Examples.sale_db.
Proof.
  apply (complete_then_void_restores_stock Examples.pending_sale 1000 2000 3
           "mistake" Examples.sale_db).
  - reflexivity.
  - vm_compute. eauto.
  - unfold products_keyed. refine (bool_decide_unpack _ _).
    vm_compute. exact I.
  - unfold items_have_products. refine (bool_decide_unpack _ _).
    vm_compute. exact I.
Defined.

(** The sample sale, evaluated: stocks 5 and 5, then 3 and 4, then 5
    and 5 again. *)
Lemma complete_then_void_sample :
  exists s1 db1 s2 db2,
    complete_sale Examples.pending_sale 1000 Examples.sale_db = Ok s1 db1 /\
    void_sale s1 3 "mistake" 2000 db1 = Ok s2 db2 /\
    Product.stock <$> products Examples.sale_db !! 1 = Some 5 /\
    Product.stock <$> products Examples.sale_db !! 2 = Some 5 /\
    Product.stock <$> products db1 !! 1 = Some 3 /\
    Product.stock <$> products db1 !! 2 = Some 4 /\
    Product.stock <$> products db2 !! 1 = Some 5 /\
    Product.stock <$> products db2 !! 2 = Some 5.
Proof.
  eexists _, _, _, _. split; [vm_compute; reflexivity|].
  split; [vm_compute; reflexivity|].
  repeat split; vm_compute; reflexivity.
Qed.

(** ** Invoices: status recompute and cancelling *)

Lemma update_payment_status_Ok i today db i' db' :
  update_payment_status i today db = Ok i' db' ->
  db' = db /\
  Invoice.payment_status i' <> Invoice.cancelled /\
  Invoice.with_payment_status (Invoice.payment_status i') i = i'.
Proof.
  unfold update_payment_status.
  destruct (Qleb (Invoice.amount_paid i) 0);
    [|destruct (Qleb (Invoice.total_amount i) (Invoice.amount_paid i))];
    cbn; destruct (Invoice.due_date i) as [d|]; try discriminate;
    try destruct (d <? today); intros [= <- <-]; repeat split; discriminate.
Qed.

Lemma Invoice_save_Ok i year today db i' db' :
  Invoice_save i year today db = Ok i' db' ->
  Invoice.payment_status i' <> Invoice.cancelled /\
  Invoice.pk i' = Invoice.pk i /\
  Invoice.amount_paid i' = Invoice.amount_paid i /\
  Invoice.total_amount i' = Invoice.total_amount i /\
  invoices db' = <[Invoice.pk i := i']> (invoices db).
Proof.
  unfold Invoice_save. intros H.
  apply bind_Ok in H as (i1 & db1 & H1 & H).
  apply bind_Ok in H as (i2 & db2 & H2 & H).
  apply bind_Ok in H as ([] & db3 & H3 & H). injection H as <- <-.
  injection H3 as <-.
  apply update_payment_status_Ok in H2 as (-> & Hnc & Hi2).
  assert (Hi1 : Invoice.pk i1 = Invoice.pk i /\
                Invoice.amount_paid i1 = Invoice.amount_paid i /\
                Invoice.total_amount i1 = Invoice.total_amount i /\
                invoices db1 = invoices db).
  { destruct (String.eqb (Invoice.invoice_number i) "").
    - apply bind_Ok in H1 as (n & db0 & Hgen & Hret). injection Hret as <- <-.
      unfold generate_invoice_number in Hgen.
      repeat match type of Hgen with
             | match ?x with _ => _ end = _ => destruct x; try discriminate
             end; injection Hgen as _ <-; auto.
    - injection H1 as <- <-. auto. }
  destruct Hi1 as (Hpk & Hap & Htot & Hinv).
  rewrite <- Hi2. cbn.
  destruct (Invoice.due_date i1); cbn; rewrite Hpk, Hap, Htot, Hinv; auto.
Qed.

Lemma invoice_cancel_Ok id year today db f db' :
  invoice_cancel id year today db = Ok f db' ->
  match f with
  | NotFound => invoices db !! id = None /\ db' = db
  | CannotCancelWithPayments =>
      (exists i, invoices db !! id = Some i /\ (0 < Invoice.amount_paid i)%Q)
      /\ db' = db
  | InvoiceCancelled _ =>
      exists i i',
        invoices db !! id = Some i /\
        (Invoice.amount_paid i <= 0)%Q /\
        invoices db' !! Invoice.pk i = Some i' /\
        Invoice.payment_status i' <> Invoice.cancelled
  | _ => False
  end.
Proof.
  unfold invoice_cancel.
  destruct (invoices db !! id) as [i|] eqn:Hi; [|intros [= <- <-]; auto].
  destruct (Qltb 0 (Invoice.amount_paid i)) eqn:Hpaid.
  - intros [= <- <-]. apply Qltb_lt in Hpaid. eauto.
  - intros H. apply bind_Ok in H as (i' & db1 & Hsave & H).
    injection H as <- <-. apply Qltb_ge in Hpaid.
    apply Invoice_save_Ok in Hsave as (Hnc & Hpk & _ & _ & Hinv).
    exists i, i'. cbn in Hinv. rewrite Hinv, lookup_insert_eq. auto.
Qed.

(** C5 on the code: cancelling the unpaid sample invoice is accepted and
    reported as done, yet the stored status is [unpaid] before the due
    date and [overdue] after it, never [cancelled]; and this is so for
    every accepted cancel, because [Invoice.save] recomputes the status
    from the amounts whatever status the caller had set. *)
Theorem invoice_cancel_status_overwritten :
  (exists db',
     invoice_cancel 1 2026 10 Examples.invoice_db
       = Ok (InvoiceCancelled "INV-2026-0001") db' /\
     Invoice.payment_status <$> invoices db' !! 1 = Some Invoice.unpaid) /\
  (exists db',
     invoice_cancel 1 2026 31 Examples.invoice_db
       = Ok (InvoiceCancelled "INV-2026-0001") db' /\
     Invoice.payment_status <$> invoices db' !! 1 = Some Invoice.overdue) /\
  (forall id year today db number db',
     invoice_cancel id year today db = Ok (InvoiceCancelled number) db' ->
     exists i i',
       invoices db !! id = Some i /\
       invoices db' !! Invoice.pk i = Some i' /\
       Invoice.payment_status i' <> Invoice.cancelled).
Proof.
  split; [|split].
  - eexists. split; vm_compute; reflexivity.
  - eexists. split; vm_compute; reflexivity.
  - intros id year today db number db' H.
    apply invoice_cancel_Ok in H as (i & i' & Hi & _ & Hi' & Hnc). eauto.
Qed.

(** ** Invoices: recording a payment *)

Lemma Qsum_snoc (l : list Q) (a : Q) : (Qsum (l ++ [a]) == Qsum l + a)%Q.
Proof.
  unfold Qsum. rewrite fold_left_app. cbn. reflexivity.
Qed.

Lemma or_zero_Some d : (or_zero (Some d) == d)%Q.
Proof.
  unfold or_zero. destruct (Qeq_bool d 0) eqn:E; [|reflexivity].
  apply Qeq_bool_iff in E. symmetry. exact E.
Qed.

Lemma update_payment_status_run i d today db :
  Invoice.due_date i = Some d ->
  exists st,
    update_payment_status i today db
      = Ok (Invoice.with_payment_status st i) db /\
    ((0 < Invoice.amount_paid i)%Q ->
     (Invoice.total_amount i <= Invoice.amount_paid i)%Q ->
     st = Invoice.paid).
Proof.
  intros Hd. unfold update_payment_status.
  destruct (Qleb (Invoice.amount_paid i) 0) eqn:E0.
  - apply Qleb_le in E0. cbn. rewrite Hd.
    destruct (d <? today); eexists; (split; [reflexivity|]);
      intros Hpos; exfalso; apply (Qlt_not_le _ _ Hpos E0).
  - destruct (Qleb (Invoice.total_amount i) (Invoice.amount_paid i)) eqn:E1.
    + cbn. eexists. split; [reflexivity|]. reflexivity.
    + apply Qleb_gt in E1. cbn. rewrite Hd.
      destruct (d <? today); eexists; (split; [reflexivity|]);
        intros _ Hle; exfalso; apply (Qlt_not_le _ _ E1 Hle).
Qed.

(** The status that [update_payment_status] leaves, case by case. *)
Lemma update_payment_status_cases i due today db i' db' :
  Invoice.due_date i = Some due ->
  update_payment_status i today db = Ok i' db' ->
  i' = Invoice.with_payment_status (Invoice.payment_status i') i /\
  (Invoice.payment_status i' = Invoice.paid <->
   (0 < Invoice.amount_paid i)%Q /\
   (Invoice.total_amount i <= Invoice.amount_paid i)%Q) /\
  (Invoice.payment_status i' = Invoice.overdue <->
   ~ ((0 < Invoice.amount_paid i)%Q /\
      (Invoice.total_amount i <= Invoice.amount_paid i)%Q) /\
   due < today) /\
  (Invoice.payment_status i' = Invoice.unpaid <->
   (Invoice.amount_paid i <= 0)%Q /\ today <= due) /\
  (Invoice.payment_status i' = Invoice.partial <->
   (0 < Invoice.amount_paid i)%Q /\
   (Invoice.amount_paid i < Invoice.total_amount i)%Q /\ today <= due).
Proof.
  intros Hd. unfold update_payment_status.
  destruct (Qleb (Invoice.amount_paid i) 0) eqn:E0;
    [apply Qleb_le in E0|apply Qleb_gt in E0];
    [|destruct (Qleb (Invoice.total_amount i) (Invoice.amount_paid i)) eqn:E1;
      [apply Qleb_le in E1|apply Qleb_gt in E1]];
    cbn; rewrite ?Hd; try destruct (Z.ltb_spec due today);
    intros [= <- <-]; cbn; (split; [reflexivity|]);
    repeat split; intros; try discriminate; try lia; try lra;
    try (exfalso; lra); try (exfalso; lia);
    repeat match goal with
           | H : _ /\ _ |- _ => destruct H
           | H : ~ (_ /\ _) |- _ => exfalso; apply H; split; lra
           end;
    try (exfalso; lra); try (exfalso; lia).
Qed.

Lemma Invoice_save_run i d year today db :
  Invoice.invoice_number i <> "" ->
  Invoice.due_date i = Some d ->
  exists st,
    Invoice_save i year today db
      = Ok (Invoice.with_payment_status st i)
           (set_invoices
              (<[Invoice.pk i := Invoice.with_payment_status st i]>
                 (invoices db)) db) /\
    ((0 < Invoice.amount_paid i)%Q ->
     (Invoice.total_amount i <= Invoice.amount_paid i)%Q ->
     st = Invoice.paid).
Proof.
  intros Hn Hd. unfold Invoice_save.
  apply String.eqb_neq in Hn. rewrite Hn.
  unfold mbind at 1, M_bind at 1. cbn [mret M_ret]. rewrite Hd.
  destruct (update_payment_status_run i d today db Hd) as (st & Hrun & Hpaid).
  exists st. split; [|exact Hpaid].
  unfold mbind at 1, M_bind at 1. rewrite Hrun. reflexivity.
Qed.

(** [Invoice.save] of an invoice that has its number and due date: the
    row is the invoice with the recomputed status, which is "paid"
    exactly when something was paid and it reaches the total. *)
Lemma Invoice_save_paid i d year today db :
  Invoice.invoice_number i <> "" ->
  Invoice.due_date i = Some d ->
  exists st,
    Invoice_save i year today db
      = Ok (Invoice.with_payment_status st i)
           (set_invoices
              (<[Invoice.pk i := Invoice.with_payment_status st i]>
                 (invoices db)) db) /\
    (st = Invoice.paid <->
     (0 < Invoice.amount_paid i)%Q /\
     (Invoice.total_amount i <= Invoice.amount_paid i)%Q).
Proof.
  intros Hn Hd. unfold Invoice_save.
  apply String.eqb_neq in Hn. rewrite Hn.
  unfold mbind at 1, M_bind at 1. cbn [mret M_ret]. rewrite Hd.
  destruct (update_payment_status_run i d today db Hd) as (st & Hrun & _).
  pose proof (update_payment_status_cases i d today db _ _ Hd Hrun)
    as (_ & Hpaid & _).
  exists st. split; [|exact Hpaid].
  unfold mbind at 1, M_bind at 1. rewrite Hrun. reflexivity.
Qed.

(** C6: [invoice_record_payment] refuses an amount that is not positive
    and an amount above the balance due, and then writes nothing.  An
    amount in between that fits the amount columns (with a method that
    fits its column) is accepted: one [Payment] and one
    [InvoicePayment] linking it to the invoice are appended, and the
    invoice is saved with [amount_paid] equal to the sum of all its
    linked amounts, whatever [amount_paid] was before.
    Paying the whole balance due therefore leaves a balance due of 0
    exactly when [amount_paid] was the sum of the linked amounts before
    the call, and makes the invoice [paid] exactly when that sum was
    not below [amount_paid] and the new sum is positive.  Both hold on
    an invoice whose [amount_paid] was that sum and not negative, as it
    is on a new invoice and after every accepted payment. *)
Theorem record_payment_rules (id : Z) (i : Invoice.t) (amount : Q)
    (method notes : string) (user : User.t) (year today : Z) (db : DB) :
  invoices db !! id = Some i ->
  Invoice.pk i = id ->
  Invoice.invoice_number i <> "" ->
  is_Some (Invoice.due_date i) ->
  ((amount <= 0)%Q ->
   invoice_record_payment id amount method notes user year today db
     = Ok AmountNotPositive db) /\
  ((Invoice.balance_due i < amount)%Q ->
   invoice_record_payment id amount method notes user year today db
     = Ok (if Qleb amount 0 then AmountNotPositive else ExceedsBalanceDue) db) /\
  ((0 < amount)%Q -> (amount <= Invoice.balance_due i)%Q ->
   Column.amount amount = true ->
   Column.amount (linked_total id db + amount) = true ->
   Column.char 20 method = true ->
   exists db' i',
     invoice_record_payment id amount method notes user year today db
       = Ok (PaymentRecorded amount) db' /\
     payments db'
       = (payments db ++
          [Payment.mk (next_pk db) (Invoice.sale i) amount method
             Payment.PENDING (Some amount) (Some 0%Q)])%list /\
     invoice_payments db'
       = (invoice_payments db ++
          [InvoicePayment.mk (next_pk db + 1) id (next_pk db) amount notes
             (User.pk user)])%list /\
     invoices db' !! id = Some i' /\
     (Invoice.amount_paid i' == linked_total id db')%Q /\
     (linked_total id db' == linked_total id db + amount)%Q /\
     Invoice.total_amount i' = Invoice.total_amount i /\
     ((amount == Invoice.balance_due i)%Q ->
      ((Invoice.balance_due i' == 0)%Q <->
       (Invoice.amount_paid i == linked_total id db)%Q) /\
      (Invoice.payment_status i' = Invoice.paid <->
       (Invoice.amount_paid i <= linked_total id db)%Q /\
       (0 < linked_total id db + amount)%Q)) /\
     ((Invoice.amount_paid i == linked_total id db)%Q ->
      (0 <= Invoice.amount_paid i)%Q ->
      (Invoice.amount_paid i' == Invoice.amount_paid i + amount)%Q /\
      (0 <= Invoice.amount_paid i')%Q /\
      ((amount == Invoice.balance_due i)%Q ->
       Invoice.payment_status i' = Invoice.paid /\
       (Invoice.balance_due i' == 0)%Q))).
Proof.
  intros Hi Hpk Hn [d Hd].
  split; [|split].
  - intros Hle. unfold invoice_record_payment. rewrite Hi.
    unfold try_except. apply Qleb_le in Hle. rewrite Hle. reflexivity.
  - intros Hgt. unfold invoice_record_payment. rewrite Hi.
    unfold try_except. destruct (Qleb amount 0); [reflexivity|].
    apply Qltb_lt in Hgt. rewrite Hgt. reflexivity.
  - intros Hpos Hle _ _ _. unfold invoice_record_payment. rewrite Hi.
    unfold try_except.
    apply Qleb_gt in Hpos as Hpos'. apply Qltb_ge in Hle as Hle'.
    rewrite Hpos', Hle'.
    unfold Payment_create, InvoicePayment_create. unfold_steps.
    cbn -[Invoice_save sum_invoice_payments].
    set (db1 := set_invoice_payments _ _).
    set (paid_now := or_zero (sum_invoice_payments (Invoice.pk i) db1)).
    destruct (Invoice_save_paid (Invoice.with_amount_paid paid_now i) d year
                today db1 Hn Hd) as (st & Hsave & Hpaid).
    cbn [Invoice.pk Invoice.with_amount_paid Invoice.amount_paid
         Invoice.total_amount] in Hsave, Hpaid.
    rewrite Hsave. cbn.
    assert (Hsum : sum_invoice_payments (Invoice.pk i) db1
                   = Some (linked_total id db1)).
    { unfold sum_invoice_payments, linked_total. subst db1. cbn.
      rewrite Hpk, List.filter_app. cbn. rewrite Z.eqb_refl.
      destruct (List.filter _ (invoice_payments db)); reflexivity. }
    assert (Hlink : (linked_total id db1 == linked_total id db + amount)%Q).
    { unfold linked_total. subst db1. cbn.
      rewrite Hpk, List.filter_app. cbn. rewrite Z.eqb_refl.
      rewrite map_app. cbn. apply Qsum_snoc. }
    assert (Hnow : (paid_now == linked_total id db1)%Q).
    { subst paid_now. rewrite Hsum. apply or_zero_Some. }
    eexists _, _. split; [reflexivity|]. cbn.
    split; [reflexivity|]. split; [subst db1; rewrite Hpk; reflexivity|].
    split; [rewrite Hpk; apply lookup_insert_eq|]. cbn.
    split; [exact Hnow|]. split; [exact Hlink|]. split; [reflexivity|].
    unfold Invoice.balance_due in *. cbn.
    split.
    + intros Hfull. split.
      * split; intros H; lra.
      * rewrite Hpaid. split; intros [H1 H2]; split; lra.
    + intros Hinv Hnonneg. split; [lra|]. split; [lra|].
      intros Hfull. split; [|lra]. apply Hpaid. split; lra.
Qed.

(** The theorem at the invoice with 30 due: 30.01 is refused, 30.00 is
    accepted and settles the invoice. *)
Lemma record_payment_rules_witness :
  invoice_record_payment 2 30.01%Q "cash" "" Examples.cashier 2026 10
    Examples.ledger_db = Ok ExceedsBalanceDue Examples.ledger_db /\
  exists db' i',
    invoice_record_payment 2 30%Q "cash" "" Examples.cashier 2026 10
      Examples.ledger_db = Ok (PaymentRecorded 30%Q) db' /\
    invoices db' !! 2 = Some i' /\
    (Invoice.amount_paid i' == linked_total 2 db')%Q /\
    Invoice.payment_status i' = Invoice.paid /\
    (Invoice.balance_due i' == 0)%Q.
Proof.
  assert (Hi : invoices Examples.ledger_db !! 2 = Some Examples.invoice2)
    by (vm_compute; reflexivity).
  assert (Hn : Invoice.invoice_number Examples.invoice2 <> "") by discriminate.
  assert (Hd : is_Some (Invoice.due_date Examples.invoice2))
    by (eexists; reflexivity).
  split.
  - destruct (record_payment_rules 2 Examples.invoice2 30.01%Q "cash" ""
                Examples.cashier 2026 10 Examples.ledger_db Hi eq_refl Hn Hd)
      as (_ & H & _).
    apply H. reflexivity.
  - destruct (record_payment_rules 2 Examples.invoice2 30%Q "cash" ""
                Examples.cashier 2026 10 Examples.ledger_db Hi eq_refl Hn Hd)
      as (_ & _ & H).
    destruct H as (db' & i' & Hrun & _ & _ & Hrow & Hap & _ & _ & _ & Hinv).
    + reflexivity.
    + vm_compute. discriminate.
    + reflexivity.
    + vm_compute. reflexivity.
    + reflexivity.
    + destruct Hinv as (_ & _ & Hfull).
      * reflexivity.
      * vm_compute. discriminate.
      * destruct Hfull as [Hpaid Hzero]; [reflexivity|].
        exists db', i'. auto.
Defined.

(** C6, as stated, fails on an invoice whose [amount_paid] is not the
    sum of its linked payments.  The invoice of 100 shows 70 paid and
    no payment is linked to it; paying the balance due of 30 in full is
    accepted and sets [amount_paid] to the sum of the linked amounts,
    30: the invoice is [partial] and 70 are due. *)
Lemma record_payment_of_full_balance_leaves_partial :
  invoices ColumnExamples.unlinked_db !! 2 = Some Examples.invoice2 /\
  (Invoice.balance_due Examples.invoice2 == 30)%Q /\
  exists db' i',
    invoice_record_payment 2 30%Q "cash" "" Examples.cashier 2026 10
      ColumnExamples.unlinked_db = Ok (PaymentRecorded 30%Q) db' /\
    invoices db' !! 2 = Some i' /\
    (Invoice.amount_paid i' == 30)%Q /\
    Invoice.payment_status i' = Invoice.partial /\
    (Invoice.balance_due i' == 70)%Q.
Proof.
  split; [vm_compute; reflexivity|]. split; [reflexivity|].
  eexists _, _. split; [vm_compute; reflexivity|].
  split; [vm_compute; reflexivity|].
  split; [vm_compute; reflexivity|]. split; vm_compute; reflexivity.
Qed.

(** ** Invoice numbers *)

(** What the code computes: one more than the number after the last
    dash of the greatest stored invoice number of the year, greatest in
    the order of strings. *)
Lemma generate_invoice_number_run year db last n :
  Text.str_max (year_numbers year db) = Some last ->
  last <> "" ->
  Text.int (List.last (Text.split "-" last) "") = Some n ->
  generate_invoice_number year db
  = Ok (year_prefix year +:+ Text.format_04d (n + 1)) db.
Proof.
  intros Hmax Hne Hint. unfold generate_invoice_number.
  fold (year_prefix year). fold (year_numbers year db). rewrite Hmax.
  destruct last as [|c rest]; [contradiction|]. rewrite Hint. reflexivity.
Qed.

(** *** Numbers of four digits *)

(** The suffixes 0 to 9999, checked one by one. *)
Lemma four_digit_table :
  forallb (fun n => bool_decide (four_digit_row n)) (seqZ 0 10000) = true.
Proof. vm_compute. reflexivity. Qed.

Lemma four_digit_rows n : 0 <= n < 10000 -> four_digit_row n.
Proof.
  intros Hn. pose proof four_digit_table as H.
  rewrite forallb_forall in H.
  eapply bool_decide_eq_true_1, H, list_elem_of_In, elem_of_seqZ. lia.
Qed.

(** On numbers of four digits the order of strings is the order of
    integers. *)
Lemma digit_char_compare x y :
  0 <= x <= 9 -> 0 <= y <= 9 ->
  Ascii.compare (Text.digit_char x) (Text.digit_char y) = (x ?= y).
Proof.
  intros Hx Hy.
  assert (Ex : x = 0 \/ x = 1 \/ x = 2 \/ x = 3 \/ x = 4 \/ x = 5 \/ x = 6
               \/ x = 7 \/ x = 8 \/ x = 9) by lia.
  assert (Ey : y = 0 \/ y = 1 \/ y = 2 \/ y = 3 \/ y = 4 \/ y = 5 \/ y = 6
               \/ y = 7 \/ y = 8 \/ y = 9) by lia.
  clear Hx Hy.
  repeat (destruct Ex as [->|Ex]); try subst x;
    repeat (destruct Ey as [->|Ey]); try subst y; reflexivity.
Qed.

Lemma four_digits_compare a3 a2 a1 a0 b3 b2 b1 b0 :
  0 <= a3 <= 9 -> 0 <= a2 <= 9 -> 0 <= a1 <= 9 -> 0 <= a0 <= 9 ->
  0 <= b3 <= 9 -> 0 <= b2 <= 9 -> 0 <= b1 <= 9 -> 0 <= b0 <= 9 ->
  String.compare (four_digits a3 a2 a1 a0) (four_digits b3 b2 b1 b0)
  = (1000 * a3 + 100 * a2 + 10 * a1 + a0 ?= 1000 * b3 + 100 * b2 + 10 * b1 + b0).
Proof.
  intros. unfold four_digits. cbn [String.compare].
  rewrite !digit_char_compare by assumption.
  symmetry.
  destruct (Z.compare_spec a3 b3); [|apply Z.compare_lt_iff; lia|apply Z.compare_gt_iff; lia].
  destruct (Z.compare_spec a2 b2); [|apply Z.compare_lt_iff; lia|apply Z.compare_gt_iff; lia].
  destruct (Z.compare_spec a1 b1); [|apply Z.compare_lt_iff; lia|apply Z.compare_gt_iff; lia].
  destruct (Z.compare_spec a0 b0); [apply Z.compare_eq_iff; lia|apply Z.compare_lt_iff; lia|apply Z.compare_gt_iff; lia].
Qed.

Lemma format_04d_compare a b :
  0 <= a < 10000 -> 0 <= b < 10000 ->
  String.compare (Text.format_04d a) (Text.format_04d b) = (a ?= b).
Proof.
  intros Ha Hb.
  destruct (four_digit_rows a Ha) as (-> & _). destruct (four_digit_rows b Hb) as (-> & _).
  rewrite four_digits_compare.
  - f_equal; Z.div_mod_to_equations; lia.
  - Z.div_mod_to_equations; lia.
  - Z.div_mod_to_equations; lia.
  - Z.div_mod_to_equations; lia.
  - Z.div_mod_to_equations; lia.
  - Z.div_mod_to_equations; lia.
  - Z.div_mod_to_equations; lia.
  - Z.div_mod_to_equations; lia.
  - Z.div_mod_to_equations; lia.
Qed.

Lemma ascii_compare_refl c : Ascii.compare c c = Eq.
Proof. apply N.compare_refl. Qed.

Lemma compare_prefix (p x y : string) :
  String.compare (p +:+ x) (p +:+ y) = String.compare x y.
Proof.
  induction p as [|c p IH]; [reflexivity|].
  change (String c p +:+ x) with (String c (p +:+ x)).
  change (String c p +:+ y) with (String c (p +:+ y)).
  cbn [String.compare]. rewrite ascii_compare_refl. exact IH.
Qed.

Lemma year_number_ltb p a b :
  0 <= a < 10000 -> 0 <= b < 10000 ->
  String.ltb (p +:+ Text.format_04d a) (p +:+ Text.format_04d b) = (a <? b).
Proof.
  intros Ha Hb. unfold String.ltb, Z.ltb.
  rewrite compare_prefix, format_04d_compare by assumption. reflexivity.
Qed.

(** The greatest string of the numbers of a list of suffixes. *)
Lemma str_max_from p ns m :
  0 <= m < 10000 -> Forall (fun n => 0 <= n < 10000) ns ->
  fold_left
    (fun acc s =>
       match acc with
       | None => Some s
       | Some m => if String.ltb m s then Some s else Some m
       end)
    (map (fun n => p +:+ Text.format_04d n) ns)
    (Some (p +:+ Text.format_04d m))
  = Some (p +:+ Text.format_04d (fold_left Z.max ns m)).
Proof.
  revert m. induction ns as [|n ns IH]; intros m Hm Hns; cbn; [reflexivity|].
  apply Forall_cons in Hns as [Hn Hns].
  rewrite year_number_ltb by assumption.
  destruct (Z.ltb_spec m n).
  - replace (Z.max m n) with n by lia. apply IH; assumption.
  - replace (Z.max m n) with m by lia. apply IH; assumption.
Qed.

Lemma fold_max_spec ns m :
  m <= fold_left Z.max ns m /\
  Forall (fun n => n <= fold_left Z.max ns m) ns /\
  (fold_left Z.max ns m = m \/ In (fold_left Z.max ns m) ns).
Proof.
  revert m. induction ns as [|n ns IH]; intros m; cbn.
  - split; [lia|]. split; [constructor|]. auto.
  - destruct (IH (Z.max m n)) as (H1 & H2 & H3).
    split; [lia|]. split.
    + constructor; [lia|exact H2].
    + destruct H3 as [H3|H3]; [|auto].
      destruct (Z.max_spec m n) as [[_ E]|[_ E]]; rewrite E in *;
        [right; left; symmetry; exact H3|left; exact H3].
Qed.

Lemma split_nonempty sep s : Text.split sep s <> [].
Proof.
  destruct s as [|c s]; cbn; [discriminate|].
  destruct (Ascii.eqb c sep); [discriminate|].
  destruct (Text.split sep s); discriminate.
Qed.

Lemma last_app_nonempty {A} (l m : list A) d :
  m <> [] -> List.last (l ++ m) d = List.last m d.
Proof.
  intros Hm. induction l as [|x l IH]; [reflexivity|].
  cbn [app List.last]. destruct (l ++ m)%list eqn:E; [|exact IH].
  apply app_eq_nil in E as [_ ->]. contradiction.
Qed.

Lemma split_after_sep sep a b :
  exists f l,
    Text.split sep (a +:+ String sep b) = (f :: l ++ Text.split sep b)%list.
Proof.
  induction a as [|c a (f & l & IH)].
  - change ("" +:+ String sep b) with (String sep b). cbn [Text.split].
    rewrite Ascii.eqb_refl. exists "", []. reflexivity.
  - change (String c a +:+ String sep b) with (String c (a +:+ String sep b)).
    cbn [Text.split]. destruct (Ascii.eqb c sep).
    + exists "", (f :: l). rewrite IH. reflexivity.
    + rewrite IH. exists (String c f), l. reflexivity.
Qed.

Lemma last_split_after_sep sep a b :
  List.last (Text.split sep (a +:+ String sep b)) ""
  = List.last (Text.split sep b) "".
Proof.
  destruct (split_after_sep sep a b) as (f & l & ->).
  apply (last_app_nonempty (f :: l)), split_nonempty.
Qed.

Lemma append_assoc (a b c : string) : (a +:+ b) +:+ c = a +:+ (b +:+ c).
Proof.
  induction a as [|x a IH]; [reflexivity|].
  change (String x (a +:+ b) +:+ c = String x (a +:+ b +:+ c)).
  change (String x ((a +:+ b) +:+ c) = String x (a +:+ b +:+ c)).
  rewrite IH. reflexivity.
Qed.

Lemma year_number_suffix year n :
  0 <= n < 10000 ->
  Text.int (List.last (Text.split "-" (year_prefix year +:+ Text.format_04d n)) "")
  = Some n.
Proof.
  intros Hn. destruct (four_digit_rows n Hn) as (_ & Hint & Hsplit).
  unfold year_prefix.
  replace (("INV-" +:+ Text.str year +:+ "-") +:+ Text.format_04d n)
    with (("INV-" +:+ Text.str year) +:+ String "-" (Text.format_04d n)).
  - rewrite last_split_after_sep, Hsplit. exact Hint.
  - rewrite !append_assoc. reflexivity.
Qed.

Lemma year_numbers_are_suffixes year l :
  Forall (fun s => exists n, 0 <= n <= 9998 /\
                     s = year_prefix year +:+ Text.format_04d n) l ->
  exists ns, Forall (fun n => 0 <= n <= 9998) ns /\
             l = map (fun n => year_prefix year +:+ Text.format_04d n) ns.
Proof.
  induction 1 as [|s l (n & Hn & ->) _ (ns & Hns & ->)].
  - exists []. split; [constructor|reflexivity].
  - exists (n :: ns). split; [constructor; assumption|reflexivity].
Qed.

Lemma format_04d_inj a b :
  0 <= a < 10000 -> 0 <= b < 10000 ->
  Text.format_04d a = Text.format_04d b -> a = b.
Proof.
  intros Ha Hb E. apply Z.compare_eq_iff.
  rewrite <- format_04d_compare, E by assumption.
  clear. induction (Text.format_04d b) as [|c s IH]; cbn; [reflexivity|].
  rewrite ascii_compare_refl. exact IH.
Qed.

(** X14: up to 9999 the numbering is the intended one: if every stored
    number of the year has a suffix of at most 9998, the new number is
    the greatest stored suffix plus one (1 when there is none), padded
    to four digits. *)
Lemma invoice_numbers_up_to_9999 (year : Z) (db : DB) :
  Forall (fun s => exists n, 0 <= n <= 9998 /\
                     s = year_prefix year +:+ Text.format_04d n)
    (year_numbers year db) ->
  exists last,
    generate_invoice_number year db
      = Ok (year_prefix year +:+ Text.format_04d (last + 1)) db /\
    0 <= last <= 9998 /\
    (year_numbers year db = [] -> last = 0) /\
    (year_numbers year db <> [] ->
     In (year_prefix year +:+ Text.format_04d last) (year_numbers year db)) /\
    (forall n, 0 <= n <= 9998 ->
       In (year_prefix year +:+ Text.format_04d n) (year_numbers year db) ->
       n <= last).
Proof.
  intros Hall. apply year_numbers_are_suffixes in Hall as (ns & Hns & Hl).
  unfold generate_invoice_number. fold (year_prefix year).
  fold (year_numbers year db). rewrite Hl.
  destruct ns as [|m ns].
  - exists 0. cbn. split; [reflexivity|]. split; [lia|].
    split; [reflexivity|]. split; [congruence|]. intros n _ [].
  - apply Forall_cons in Hns as [Hm Hns].
    pose proof (fold_max_spec ns m) as (Hge & Hmax & Hin).
    set (last := fold_left Z.max ns m) in *.
    assert (Hlast : 0 <= last <= 9998).
    { destruct Hin as [->|Hin]; [exact Hm|].
      rewrite Forall_forall in Hns. apply Hns. apply list_elem_of_In, Hin. }
    exists last. unfold Text.str_max. cbn [map fold_left].
    rewrite str_max_from;
      [|lia|eapply Forall_impl; [exact Hns|cbn; intros; lia]].
    fold last.
    destruct (year_prefix year +:+ Text.format_04d last) as [|c rest] eqn:E.
    { exfalso. unfold year_prefix in E. discriminate E. }
    rewrite <- E, year_number_suffix by lia.
    split; [reflexivity|]. split; [exact Hlast|].
    split; [discriminate|]. split.
    + intros _. destruct Hin as [->|Hin]; [left; reflexivity|].
      right. apply in_map_iff. eauto.
    + intros n Hn [E'|Hin'].
      * apply String.app_inj, format_04d_inj in E'; lia.
      * apply in_map_iff in Hin' as (k & E' & Hk).
        apply String.app_inj, format_04d_inj in E'.
        -- subst k. rewrite Forall_forall in Hmax.
           apply Hmax, list_elem_of_In, Hk.
        -- rewrite Forall_forall in Hns.
           apply list_elem_of_In, Hns in Hk. lia.
        -- lia.
Qed.

(** C7 on the code.  In a fresh year the numbers are 0001, 0002, 0003;
    after 9998 come 9999 and 10000.  But with 9999 and 10000 both
    stored, the greatest number as a string is still INV-2026-9999
    (the character 1 sorts before 9), so the next number is 10000 again:
    it is neither the greatest stored suffix plus one nor a new
    number. *)
Theorem invoice_number_repeats_after_9999 :
  (exists db,
     Examples.issue 3 1 2026 Examples.empty_db
     = Ok ["INV-2026-0001"; "INV-2026-0002"; "INV-2026-0003"] db) /\
  (exists db,
     generate_invoice_number 2026
       (Examples.numbers_db ["INV-2025-0412"; "INV-2026-9997"; "INV-2026-9998"])
     = Ok "INV-2026-9999" db) /\
  String.ltb "INV-2026-10000" "INV-2026-9999" = true /\
  (exists db,
     generate_invoice_number 2026
       (Examples.numbers_db ["INV-2026-9998"; "INV-2026-9999"; "INV-2026-10000"])
     = Ok "INV-2026-10000" db) /\
  (exists db,
     Examples.issue 2 4 2026
       (Examples.numbers_db ["INV-2025-0412"; "INV-2026-9997"; "INV-2026-9998"])
     = Ok ["INV-2026-9999"; "INV-2026-10000"] db /\
     generate_invoice_number 2026 db = Ok "INV-2026-10000" db /\
     In "INV-2026-10000" (year_numbers 2026 db)).
Proof.
  split; [eexists; vm_compute; reflexivity|].
  split; [eexists; vm_compute; reflexivity|].
  split; [vm_compute; reflexivity|].
  split; [eexists; vm_compute; reflexivity|].
  eexists. split; [vm_compute; reflexivity|].
  split; [vm_compute; reflexivity|]. vm_compute. auto.
Qed.

(* ================================================================== *)
(** * Further properties of the code *)

(** ** Settlement: who is accepted *)

(** X1: a customer who is not wholesale must cover the total: below it
    the request is refused, from the total upward (an overpayment
    included) it is accepted, and in both cases nothing is written.  A
    wholesale customer who covers the total is accepted without any
    change as well, once the payment reaches half the total.  No
    outcome of the step touches the lines, the payments, the products
    or the audit rows. *)
Theorem settle_acceptance (sale : Sale.t) (customer : Customer.t) (paid : Q)
    (db : DB) :
  (Customer.customer_type customer <> Customer.wholesale ->
   ((paid < Sale.total sale)%Q ->
    settle sale customer paid db = Ok (inl InsufficientPayment) db) /\
   ((Sale.total sale <= paid)%Q ->
    settle sale customer paid db = Ok (inr (sale, customer)) db)) /\
  (Customer.customer_type customer = Customer.wholesale ->
   (Sale.total sale * 0.5 <= paid)%Q -> (Sale.total sale <= paid)%Q ->
   settle sale customer paid db = Ok (inr (sale, customer)) db) /\
  (forall v db',
     settle sale customer paid db = Ok v db' ->
     sale_items db' = sale_items db /\ payments db' = payments db /\
     products db' = products db /\ adjustments db' = adjustments db).
Proof.
  split; [|split].
  - intros Hty. unfold settle. split; intros H.
    + apply Qltb_lt in H.
      destruct (Customer.customer_type customer); try rewrite H;
        try reflexivity; contradiction.
    + apply Qltb_ge in H.
      destruct (Customer.customer_type customer); try rewrite H;
        try reflexivity; contradiction.
  - intros Hty Hmin Hfull. unfold settle. rewrite Hty.
    apply Qltb_ge in Hmin, Hfull. rewrite Hmin, Hfull. reflexivity.
  - intros v db' H. unfold settle in H.
    destruct (Customer.customer_type customer);
      repeat match type of H with
             | (if ?b then _ else _) _ = _ => destruct b
             end; injection H as _ <-; auto.
Qed.

(** The theorem at Bob's sale of 80: 79.99 is refused, 80 is accepted,
    nothing is written. *)
Lemma settle_acceptance_witness :
  settle (Sale.with_totals 80 0 80 Examples.pending_sale) Examples.bob
    79.99%Q Examples.sale_db
    = Ok (inl InsufficientPayment) Examples.sale_db /\
  settle (Sale.with_totals 80 0 80 Examples.pending_sale) Examples.bob
    80%Q Examples.sale_db
    = Ok (inr (Sale.with_totals 80 0 80 Examples.pending_sale, Examples.bob))
         Examples.sale_db.
Proof.
  destruct (settle_acceptance (Sale.with_totals 80 0 80 Examples.pending_sale)
              Examples.bob 79.99%Q Examples.sale_db) as ((Hlow & _) & _);
    [discriminate|].
  destruct (settle_acceptance (Sale.with_totals 80 0 80 Examples.pending_sale)
              Examples.bob 80%Q Examples.sale_db) as ((_ & Hfull) & _);
    [discriminate|].
  split; [apply Hlow; reflexivity|apply Hfull; vm_compute; discriminate].
Defined.

(** ** Sales: the states *)

(** X2: [complete_sale] is refused on every sale that is not pending,
    and whenever it fails, for this or for any other reason (a line
    whose product is gone, a missing sale row), the store is left as it
    was.  So a completed sale cannot be completed again, and a sale
    that was voided, before or after completion, cannot be completed at
    all. *)
Theorem complete_sale_only_pending (s : Sale.t) (now : Z) (db : DB) :
  (Sale.status s <> Sale.PENDING ->
   complete_sale s now db
     = Raise (ValueError "Only pending sales can be completed") db) /\
  (forall e db', complete_sale s now db = Raise e db' -> db' = db) /\
  (forall s' db',
     complete_sale s now db = Ok s' db' ->
     forall later,
       complete_sale s' later db'
         = Raise (ValueError "Only pending sales can be completed") db') /\
  (forall user reason s' db',
     void_sale s user reason now db = Ok s' db' ->
     forall later,
       complete_sale s' later db'
         = Raise (ValueError "Only pending sales can be completed") db').
Proof.
  assert (Hrefuse : forall s0 n d, Sale.status s0 <> Sale.PENDING ->
            complete_sale s0 n d
              = Raise (ValueError "Only pending sales can be completed") d).
  { intros s0 n d Hst. unfold complete_sale, atomic.
    destruct (Sale.status_eqb (Sale.status s0) Sale.PENDING) eqn:E;
      [apply status_eqb_eq in E; contradiction|reflexivity]. }
  split; [apply Hrefuse|]. split; [|split].
  - intros e db'. unfold complete_sale, atomic.
    match goal with |- context [match ?m db with _ => _ end] =>
      destruct (m db) end; congruence.
  - intros s' db' H later.
    apply complete_sale_Ok in H as (_ & -> & _). apply Hrefuse. discriminate.
  - intros user reason s' db' H later.
    apply void_sale_Ok in H as (-> & _). apply Hrefuse. discriminate.
Qed.

(** The theorem at the sample sale: completed once, then refused. *)
Lemma complete_sale_only_pending_witness :
  complete_sale Examples.voided_sale 1000 Examples.sale_db
    = Raise (ValueError "Only pending sales can be completed")
        Examples.sale_db /\
  exists s' db',
    complete_sale Examples.pending_sale 1000 Examples.sale_db = Ok s' db' /\
    complete_sale s' 1001 db'
      = Raise (ValueError "Only pending sales can be completed") db'.
Proof.
  split.
  - destruct (complete_sale_only_pending Examples.voided_sale 1000
                Examples.sale_db) as (H & _).
    apply H. vm_compute. discriminate.
  - eexists _, _. split; [vm_compute; reflexivity|].
    destruct (complete_sale_only_pending Examples.pending_sale 1000
                Examples.sale_db) as (_ & _ & H & _).
    apply (H _ _ ltac:(vm_compute; reflexivity)).
Defined.

(** X3: [void_sale] does not ask whether the stock of the sale was ever
    deducted.  On every sale that is not voided (pending, completed or
    refunded) it succeeds and raises the stock of each tracked product
    by the units on the sale's lines; voiding a sale that was never
    completed therefore leaves more stock than there was. *)
Theorem void_sale_adds_stock (s : Sale.t) (user : Z) (reason : string)
    (now : Z) (db : DB) :
  Sale.status s <> Sale.VOIDED ->
  is_Some (sales db !! Sale.pk s) ->
  products_keyed (products db) ->
  items_have_products (sale_lines s db) (products db) ->
  exists s' db',
    void_sale s user reason now db = Ok s' db' /\
    Sale.status s' = Sale.VOIDED /\
    (forall k, products db' !! k
               = moved_by (units_of k (sale_lines s db)) <$> products db !! k) /\
    (forall k p, products db !! k = Some p -> Product.track_stock p = true ->
       Product.stock <$> products db' !! k
       = Some (Product.stock p + units_of k (sale_lines s db))).
Proof.
  intros Hst [row Hrow] Hkey Hfk.
  destruct (adjust_items_run (fun item => SaleItem.quantity item) "return"
              (Some user) _ db Hkey Hfk)
    as (db1 & back & Hrun & _ & Hlook & _ & _).
  pose proof (void_sale_run s user reason now db db1 row Hst Hrow Hrun) as Hv.
  eexists _, _. split; [exact Hv|]. split; [reflexivity|].
  assert (Hall : forall k, products db1 !! k
            = moved_by (units_of k (sale_lines s db)) <$> products db !! k)
    by exact Hlook.
  split; [exact Hall|].
  intros k p Hp Ht. cbn. rewrite Hall, Hp. cbn. unfold moved_by.
  rewrite Ht. reflexivity.
Qed.

(** The theorem at the sample sale, voided while still pending: the 5
    widgets become 7 and the 5 gadgets 6. *)
Lemma void_sale_adds_stock_witness :
  Sale.status Examples.pending_sale = Sale.PENDING /\
  exists s' db',
    void_sale Examples.pending_sale 3 "mistake" 2000 Examples.sale_db
      = Ok s' db' /\
    Product.stock <$> products Examples.sale_db !! 1 = Some 5 /\
    Product.stock <$> products db' !! 1 = Some 7 /\
    Product.stock <$> products db' !! 2 = Some 6.
Proof.
  split; [reflexivity|].
  destruct (void_sale_adds_stock Examples.pending_sale 3 "mistake" 2000
              Examples.sale_db) as (s' & db' & Hrun & _ & _ & Hstock).
  - discriminate.
  - vm_compute. eauto.
  - unfold products_keyed. refine (bool_decide_unpack _ _).
    vm_compute. exact I.
  - unfold items_have_products. refine (bool_decide_unpack _ _).
    vm_compute. exact I.
  - exists s', db'. split; [exact Hrun|]. split; [reflexivity|].
    split.
    + apply (Hstock 1 Examples.widget); reflexivity.
    + apply (Hstock 2 Examples.gadget); reflexivity.
Defined.

(** ** Coupons: validity and the size of the discount *)

(** X4: [is_valid] accepts a coupon exactly when it is active, the
    clock is inside the validity window (both ends included), the usage
    limit is unset, zero or not yet reached, and the cart total, when
    one is given, is at least the minimum purchase.  The flag and the
    message agree. *)
Theorem is_valid_accepts_iff (c : Coupon.t) (now : Z) (cart_total : option Q) :
  (fst (is_valid c now cart_total) = true <->
   Coupon.is_active c = true /\
   Coupon.valid_from c <= now <= Coupon.valid_to c /\
   match Coupon.usage_limit c with
   | Some l => l = 0 \/ Coupon.times_used c < l
   | None => True
   end /\
   match cart_total with
   | Some t => (Coupon.min_purchase c <= t)%Q
   | None => True
   end) /\
  (fst (is_valid c now cart_total) = true <->
   snd (is_valid c now cart_total) = Valid).
Proof.
  unfold is_valid.
  destruct (Coupon.is_active c); cbn [negb];
    [|split; split; [discriminate|intros (? & _); discriminate
                    |discriminate|discriminate]].
  destruct (Z.ltb_spec now (Coupon.valid_from c));
    [split; split; [discriminate|intros (_ & ? & _); lia
                   |discriminate|discriminate]|].
  destruct (Z.ltb_spec (Coupon.valid_to c) now);
    [split; split; [discriminate|intros (_ & ? & _); lia
                   |discriminate|discriminate]|].
  destruct (Coupon.usage_limit c) as [l|].
  - destruct (Z.eqb_spec l 0) as [->|Hl]; cbn [negb andb].
    + destruct cart_total as [t|].
      * destruct (Qltb t (Coupon.min_purchase c)) eqn:E.
        -- apply Qltb_lt in E. split; split; try discriminate.
           intros (_ & _ & _ & Hm). exfalso. lra.
        -- apply Qltb_ge in E. cbn. intuition lia.
      * cbn. intuition lia.
    + destruct (Z.leb_spec l (Coupon.times_used c)).
      * split; split; try discriminate. intros (_ & _ & [?|?] & _); lia.
      * destruct cart_total as [t|].
        -- destruct (Qltb t (Coupon.min_purchase c)) eqn:E.
           ++ apply Qltb_lt in E. split; split; try discriminate.
              intros (_ & _ & _ & Hm). exfalso. lra.
           ++ apply Qltb_ge in E. cbn. intuition lia.
        -- cbn. intuition lia.
  - destruct cart_total as [t|].
    + destruct (Qltb t (Coupon.min_purchase c)) eqn:E.
      * apply Qltb_lt in E. split; split; try discriminate.
        intros (_ & _ & _ & Hm). exfalso. lra.
      * apply Qltb_ge in E. cbn. intuition lia.
    + cbn. intuition lia.
Qed.

Lemma Qmin_le_l x y : (Qmin x y <= x)%Q.
Proof.
  unfold Qmin. destruct (Qleb x y) eqn:E; [apply Qle_refl|].
  apply Qleb_gt in E. lra.
Qed.

Lemma Qmin_le_r x y : (Qmin x y <= y)%Q.
Proof.
  unfold Qmin. destruct (Qleb x y) eqn:E; [apply Qleb_le in E; exact E|].
  apply Qle_refl.
Qed.

Lemma Qmin_glb x y z : (z <= x)%Q -> (z <= y)%Q -> (z <= Qmin x y)%Q.
Proof. unfold Qmin. destruct (Qleb x y); auto. Qed.

(** X5: the size of the discount.  It never exceeds the cart total; on
    a percentage coupon with a cap other than zero it never exceeds the
    cap; a cap of zero is no cap; a fixed coupon ignores the cap and
    gives the smaller of its value and the cart total; and when the
    coupon's value, its cap and the cart total are not negative, the
    discount is not negative either. *)
Theorem calculate_discount_bounds (c : Coupon.t) (cart_total : Q) :
  (calculate_discount c cart_total <= cart_total)%Q /\
  (forall m, Coupon.discount_type c = Coupon.percentage ->
     Coupon.max_discount c = Some m -> ~ (m == 0)%Q ->
     (calculate_discount c cart_total <= m)%Q) /\
  (forall m, Coupon.max_discount c = Some m -> (m == 0)%Q ->
     calculate_discount c cart_total
     = calculate_discount (Coupon_with_max_discount None c) cart_total) /\
  (forall m, Coupon.discount_type c = Coupon.fixed ->
     calculate_discount (Coupon_with_max_discount m c) cart_total
     = Qmin (Coupon.discount_value c) cart_total) /\
  ((0 <= cart_total)%Q -> (0 <= Coupon.discount_value c)%Q ->
   match Coupon.max_discount c with
   | Some m => (0 <= m)%Q
   | None => True
   end ->
   (0 <= calculate_discount c cart_total)%Q).
Proof.
  split; [apply Qmin_le_r|]. split; [|split; [|split]].
  - intros m Hty Hm Hnz. unfold calculate_discount. rewrite Hty, Hm.
    destruct (Qeq_bool m 0) eqn:E; [apply Qeq_bool_iff in E; contradiction|].
    cbn [negb]. eapply Qle_trans; [apply Qmin_le_l|apply Qmin_le_r].
  - intros m Hm Hz. unfold calculate_discount. cbn. rewrite Hm.
    apply Qeq_bool_iff in Hz. rewrite Hz. reflexivity.
  - intros m Hty. unfold calculate_discount. cbn. rewrite Hty. reflexivity.
  - intros Ht Hv Hm. unfold calculate_discount.
    apply Qmin_glb; [|exact Ht].
    assert (Hp : (0 <= cart_total * (Coupon.discount_value c / 100))%Q).
    { apply Qmult_le_0_compat; [exact Ht|].
      apply Qle_shift_div_l; [reflexivity|]. lra. }
    destruct (Coupon.discount_type c); [|exact Hv].
    destruct (Coupon.max_discount c) as [m|]; [|exact Hp].
    destruct (negb (Qeq_bool m 0)); [|exact Hp].
    apply Qmin_glb; assumption.
Qed.

(** ** Prices by customer *)

(** X6: who gets the wholesale price.  The tier is wholesale exactly
    when there is a customer, the customer is a wholesale customer, the
    product has a wholesale price above zero and the quantity reaches
    the product's minimum; with no customer the price is the retail
    price, whatever the quantity; and the label carries the customer's
    percentage exactly when that percentage is above zero. *)
Theorem get_price_for_customer_tier (p : Product.t)
    (customer : option Customer.t) (quantity : Z) :
  (fst (snd (get_price_for_customer p customer quantity)) = tier_wholesale <->
   exists c wp,
     customer = Some c /\
     Customer.customer_type c = Customer.wholesale /\
     Product.wholesale_price p = Some wp /\ (0 < wp)%Q /\
     Product.minimum_wholesale_quantity p <= quantity) /\
  get_price_for_customer p None quantity
    = (Product.sell_price p, (tier_retail, None)) /\
  (forall pct,
     snd (snd (get_price_for_customer p customer quantity)) = Some pct <->
     exists c, customer = Some c /\ Customer.discount_percentage c = pct /\
               (0 < pct)%Q).
Proof.
  assert (Hpct : forall c (x y : Q) (t : PriceTier) pct,
            snd (snd (if Qltb 0 (Customer.discount_percentage c)
                      then (x, (t, Some (Customer.discount_percentage c)))
                      else (y, (t, None)))) = Some pct <->
            Customer.discount_percentage c = pct /\ (0 < pct)%Q).
  { intros c x y t pct.
    destruct (Qltb 0 (Customer.discount_percentage c)) eqn:E; cbn.
    - apply Qltb_lt in E. split.
      + intros [= <-]. auto.
      + intros [-> _]. reflexivity.
    - apply Qltb_ge in E. split; [discriminate|].
      intros [<- H]. exfalso. lra. }
  split; [|split; [reflexivity|]].
  - unfold get_price_for_customer. destruct customer as [c|];
      [|cbn; split; [discriminate|intros (c & wp & ? & _); discriminate]].
    destruct (Product.wholesale_price p) as [wp|] eqn:Hwp;
      destruct (Customer.customer_type c) eqn:Hty;
      try (destruct (Qltb 0 (Customer.discount_percentage c)); cbn;
           (split; [discriminate
                   |intros (c' & wp' & [= <-] & ? & ? & _); congruence])).
    destruct (Qeq_bool wp 0) eqn:Ez; cbn [negb andb].
    + apply Qeq_bool_iff in Ez.
      destruct (Qltb 0 (Customer.discount_percentage c)); cbn;
        (split; [discriminate|]);
        intros (c' & wp' & _ & _ & [= <-] & Hpos & _); exfalso; lra.
    + destruct (Qltb 0 wp) eqn:Ep; cbn [andb].
      * apply Qltb_lt in Ep.
        destruct (Z.leb_spec (Product.minimum_wholesale_quantity p) quantity);
          destruct (Qltb 0 (Customer.discount_percentage c)); cbn;
          (split;
           [first [discriminate|intros _; exists c, wp; auto 10]
           |first [reflexivity
                  |intros (c' & wp' & _ & _ & _ & _ & ?); lia]]).
      * apply Qltb_ge in Ep.
        destruct (Qltb 0 (Customer.discount_percentage c)); cbn;
          (split; [discriminate|]);
          intros (c' & wp' & _ & _ & [= <-] & Hpos & _); exfalso; lra.
  - intros pct. unfold get_price_for_customer. destruct customer as [c|].
    + match goal with
      | |- context [let '(a, b) := ?e in _] => destruct e as [price tier]
      end.
      rewrite Hpct. split.
      * intros [? ?]. eauto.
      * intros (c' & [= <-] & ? & ?). auto.
    + cbn. split; [discriminate|]. intros (c & ? & _). discriminate.
Qed.

(** The two steps of [get_price_for_customer]: the tier's price, then
    the customer's percentage. *)
Lemma get_price_for_customer_shape (p : Product.t) (c : Customer.t)
    (quantity : Z) :
  exists base t,
    get_price_for_customer p (Some c) quantity
    = (if Qltb 0 (Customer.discount_percentage c)
       then ((base - base * (Customer.discount_percentage c / 100))%Q,
             (t, Some (Customer.discount_percentage c)))
       else (base, (t, None))) /\
    match t with
    | tier_retail => base = Product.sell_price p
    | tier_wholesale =>
        Product.wholesale_price p = Some base /\ (0 < base)%Q
    end.
Proof.
  unfold get_price_for_customer.
  destruct (Product.wholesale_price p) as [wp|];
    destruct (Customer.customer_type c);
    try (exists (Product.sell_price p), tier_retail; split; reflexivity).
  destruct (negb (Qeq_bool wp 0) && Qltb 0 wp
            && (Product.minimum_wholesale_quantity p <=? quantity)) eqn:E.
  - apply andb_prop in E as [E _]. apply andb_prop in E as [_ E].
    apply Qltb_lt in E. exists wp, tier_wholesale. auto.
  - exists (Product.sell_price p), tier_retail. split; reflexivity.
Qed.

(** X7: the size of the price.  When the retail price is not negative
    and the customer's percentage is at most 100, the price is not
    negative; it is at most the retail price on the retail tier and at
    most the wholesale price on the wholesale tier; and it is the
    tier's price less the customer's percentage of it. *)
Theorem get_price_for_customer_bounds (p : Product.t) (c : Customer.t)
    (quantity : Z) :
  (0 <= Product.sell_price p)%Q ->
  (Customer.discount_percentage c <= 100)%Q ->
  exists base,
    match fst (snd (get_price_for_customer p (Some c) quantity)) with
    | tier_retail => base = Product.sell_price p
    | tier_wholesale => Product.wholesale_price p = Some base
    end /\
    (0 <= fst (get_price_for_customer p (Some c) quantity) <= base)%Q /\
    ((0 < Customer.discount_percentage c)%Q ->
     (fst (get_price_for_customer p (Some c) quantity)
      == base * (1 - Customer.discount_percentage c / 100))%Q) /\
    ((Customer.discount_percentage c <= 0)%Q ->
     fst (get_price_for_customer p (Some c) quantity) = base).
Proof.
  intros Hsell Hpct.
  assert (Hstep : forall (base : Q) (t : PriceTier), (0 <= base)%Q ->
    let r : Q * PriceType :=
          if Qltb 0 (Customer.discount_percentage c)
             then ((base - base * (Customer.discount_percentage c / 100))%Q,
                   (t, Some (Customer.discount_percentage c)))
             else (base, (t, None)) in
    fst (snd r) = t /\
    (0 <= fst r <= base)%Q /\
    ((0 < Customer.discount_percentage c)%Q ->
     (fst r == base * (1 - Customer.discount_percentage c / 100))%Q) /\
    ((Customer.discount_percentage c <= 0)%Q -> fst r = base)).
  { intros base t Hb. cbv zeta.
    destruct (Qltb 0 (Customer.discount_percentage c)) eqn:E; cbn [fst snd].
    - apply Qltb_lt in E. split; [reflexivity|].
      assert (Hd : (0 <= Customer.discount_percentage c / 100 <= 1)%Q).
      { split.
        - apply Qle_shift_div_l; [reflexivity|]. lra.
        - apply Qle_shift_div_r; [reflexivity|]. lra. }
      set (d := (Customer.discount_percentage c / 100)%Q) in *.
      split; [|split; [intros _; ring|intros H; exfalso; lra]].
      split; nra.
    - apply Qltb_ge in E. split; [reflexivity|].
      split; [split; [exact Hb|apply Qle_refl]|].
      split; [intros H; exfalso; lra|reflexivity]. }
  destruct (get_price_for_customer_shape p c quantity)
    as (base & t & -> & Hbase).
  assert (Hb : (0 <= base)%Q).
  { destruct t; [subst base; exact Hsell|destruct Hbase as [_ ?]; lra]. }
  destruct (Hstep base t Hb) as (Ht & Hrest). cbv zeta in Ht, Hrest.
  exists base. rewrite Ht. split; [|exact Hrest].
  destruct t; [exact Hbase|apply Hbase].
Qed.

(** The theorem at Carol (wholesale, 10 percent) buying the bulk
    product: 72 a unit from 10 units on, 90 below. *)
Lemma get_price_for_customer_bounds_witness :
  (fst (get_price_for_customer MoreExamples.bulk (Some MoreExamples.carol) 10)
   == 72)%Q /\
  (fst (get_price_for_customer MoreExamples.bulk (Some MoreExamples.carol) 9)
   == 90)%Q.
Proof.
  destruct (get_price_for_customer_bounds MoreExamples.bulk MoreExamples.carol
              10) as (b10 & Ht10 & _ & H10 & _);
    [vm_compute; discriminate|vm_compute; discriminate|].
  destruct (get_price_for_customer_bounds MoreExamples.bulk MoreExamples.carol
              9) as (b9 & Ht9 & _ & H9 & _);
    [vm_compute; discriminate|vm_compute; discriminate|].
  vm_compute in Ht10. injection Ht10 as <-.
  vm_compute in Ht9. subst b9.
  split.
  - rewrite (H10 ltac:(reflexivity)). reflexivity.
  - rewrite (H9 ltac:(reflexivity)). reflexivity.
Defined.

(** ** The stock endpoints *)

(** X8: [check_stock] answers from the stock figure alone.  For a
    stored product it reports availability exactly when the stock
    reaches the quantity, so it agrees with [can_sell] on active,
    tracked products only: a product that is not active is reported
    available although no sale of it is accepted, and a product whose
    stock is not tracked is reported unavailable although it can be
    sold.  A product id that is not a number is answered with "Invalid
    quantity", while a quantity that is not a number is not answered at
    all: its error leaves the view.  The store is never changed. *)
Theorem check_stock_reads_stock_only (id quantity : Z) (p : Product.t)
    (db : DB) :
  products db !! id = Some p ->
  PosQueries.check_stock (Some (Some id)) (Some quantity) db
    = Ok (if quantity <=? Product.stock p
          then PosQueries.Available (Product.stock p) (Product.sell_price p)
          else PosQueries.NotAvailable (Product.stock p)) db /\
  (Product.is_active p = true -> Product.track_stock p = true ->
   can_sell p quantity = (quantity <=? Product.stock p)) /\
  (Product.is_active p = false -> can_sell p quantity = false) /\
  (Product.is_active p = true -> Product.track_stock p = false ->
   can_sell p quantity = true) /\
  PosQueries.check_stock (Some None) (Some quantity) db
    = Ok PosQueries.InvalidQuantity db /\
  (forall product_id,
     PosQueries.check_stock product_id None db
     = Raise (ValueError "invalid literal for int()") db) /\
  (forall product_id quantity',
     match PosQueries.check_stock product_id quantity' db with
     | Ok _ db' | Raise _ db' => db' = db
     end).
Proof.
  intros Hp. split; [|split; [|split; [|split; [|split; [|split]]]]].
  - unfold PosQueries.check_stock, try_except, Product_get.
    unfold mbind, M_bind. rewrite Hp.
    destruct (quantity <=? Product.stock p); reflexivity.
  - intros Ha Ht. unfold can_sell. rewrite Ha, Ht. cbn.
    destruct (Z.ltb_spec (Product.stock p) quantity);
      destruct (Z.leb_spec quantity (Product.stock p)); try reflexivity; lia.
  - intros Ha. unfold can_sell. rewrite Ha. reflexivity.
  - intros Ha Ht. unfold can_sell. rewrite Ha, Ht. reflexivity.
  - reflexivity.
  - reflexivity.
  - intros product_id quantity'. unfold PosQueries.check_stock.
    destruct quantity' as [q|]; [|reflexivity].
    destruct product_id as [[k|]|]; try reflexivity.
    unfold try_except, Product_get, mbind, M_bind.
    destruct (products db !! k) as [p0|]; [|reflexivity].
    destruct (q <=? Product.stock p0); reflexivity.
Qed.

(** The theorem in the back room: the retired product is reported
    available and cannot be sold; the service is reported unavailable
    and can be sold. *)
Lemma check_stock_reads_stock_only_witness :
  (PosQueries.check_stock (Some (Some 4)) (Some 1) MoreExamples.back_room_db
   = Ok (PosQueries.Available 5 2%Q) MoreExamples.back_room_db /\
   can_sell MoreExamples.retired 1 = false) /\
  (PosQueries.check_stock (Some (Some 5)) (Some 1) MoreExamples.back_room_db
   = Ok (PosQueries.NotAvailable 0) MoreExamples.back_room_db /\
   can_sell MoreExamples.service 1 = true).
Proof.
  destruct (check_stock_reads_stock_only 4 1 MoreExamples.retired
              MoreExamples.back_room_db) as (H4 & _ & Hno & _);
    [vm_compute; reflexivity|].
  destruct (check_stock_reads_stock_only 5 1 MoreExamples.service
              MoreExamples.back_room_db) as (H5 & _ & _ & Hyes & _);
    [vm_compute; reflexivity|].
  split; split.
  - exact H4.
  - apply Hno. reflexivity.
  - exact H5.
  - apply Hyes; reflexivity.
Defined.

(** X9: the stock endpoint of the product API has no guard of its own.
    For a product stored under its key and a whole number that, like
    the stock it leads to, fits the integer columns (the reason fitting
    its column too), it answers "stock adjusted", the stored stock
    moves by that number (below zero if the number asks for it, tracked
    or not, active or not) and one audit row records the move under
    the user's name.  A quantity that is not a whole number is answered
    with an error and nothing is written; an unknown product writes
    nothing either. *)
Theorem adjust_stock_endpoint_has_no_guard (pk quantity : Z)
    (reason : string) (user : User.t) (p : Product.t) (db : DB) :
  products db !! pk = Some p ->
  Product.pk p = pk ->
  (Column.integer quantity = true ->
   Column.integer (Product.stock p + quantity) = true ->
   Column.char 20 reason = true ->
   exists db',
     CatalogViews.adjust_stock pk (Some quantity) reason user db
       = Ok CatalogViews.StockAdjusted db' /\
     products db'
       = <[pk := Product.with_stock (Product.stock p + quantity) p]>
           (products db) /\
     adjustments db'
       = (adjustments db ++
          [InventoryAdjustment.mk pk quantity (Product.stock p)
             (Product.stock p + quantity) reason (Some (User.pk user))])%list) /\
  CatalogViews.adjust_stock pk None reason user db
    = Ok (CatalogViews.AdjustError (ValueError "invalid literal for int()"))
         db /\
  (forall pk' quantity',
     products db !! pk' = None ->
     CatalogViews.adjust_stock pk' quantity' reason user db
     = Ok CatalogViews.AdjustNotFound db).
Proof.
  intros Hp Hpk. split; [|split].
  - intros _ _ _. unfold CatalogViews.adjust_stock. rewrite Hp.
    assert (Hrow : products db !! Product.pk p = Some p)
      by (rewrite Hpk; exact Hp).
    rewrite (adjust_stock_run p quantity reason (Some (User.pk user)) db p
               Hrow).
    eexists. split; [reflexivity|]. rewrite Hpk. split; reflexivity.
  - unfold CatalogViews.adjust_stock. rewrite Hp. reflexivity.
  - intros pk' quantity' Hnone. unfold CatalogViews.adjust_stock.
    rewrite Hnone. reflexivity.
Qed.

(** The theorem at the widget (5 on hand): a quantity of -10 is
    accepted and leaves a stock of -5. *)
Lemma adjust_stock_endpoint_has_no_guard_witness :
  exists db',
    CatalogViews.adjust_stock 1 (Some (-10)) "count" Examples.cashier
      Examples.widget_db = Ok CatalogViews.StockAdjusted db' /\
    Product.stock <$> products db' !! 1 = Some (-5).
Proof.
  destruct (adjust_stock_endpoint_has_no_guard 1 (-10) "count"
              Examples.cashier Examples.widget Examples.widget_db)
    as (H & _); [reflexivity|reflexivity|].
  destruct H as (db' & Hrun & Hprod & _);
    [reflexivity|reflexivity|reflexivity|].
  exists db'. split; [exact Hrun|]. rewrite Hprod.
  rewrite lookup_insert_eq. reflexivity.
Defined.

(** ** The coupon endpoint *)

(** X10: [validate_coupon] hands the cart total to the coupon as a
    [float].  A percentage coupon therefore is never applied: when it
    is valid, computing its discount fails and the endpoint answers
    with that error; when it is not, with the refusal.  A valid fixed
    coupon is applied with the smaller of its value and the cart total,
    and a coupon is refused by the endpoint exactly when [is_valid]
    refuses it for that cart total. *)
Theorem validate_coupon_percentage_never_applied (c : Coupon.t)
    (cart_total : Q) (now : Z) :
  (Coupon.discount_type c = Coupon.percentage ->
   (forall t amount,
      PosQueries.validate_coupon (Some c) t now
      <> PosQueries.CouponApplied amount) /\
   (fst (is_valid c now (Some cart_total)) = true ->
    PosQueries.validate_coupon (Some c) (Some cart_total) now
    = PosQueries.CouponFailed TypeError)) /\
  (Coupon.discount_type c = Coupon.fixed ->
   fst (is_valid c now (Some cart_total)) = true ->
   PosQueries.validate_coupon (Some c) (Some cart_total) now
   = PosQueries.CouponApplied (Qmin (Coupon.discount_value c) cart_total)) /\
  (fst (is_valid c now (Some cart_total)) = false ->
   PosQueries.validate_coupon (Some c) (Some cart_total) now
   = PosQueries.CouponRefused (snd (is_valid c now (Some cart_total)))).
Proof.
  split; [|split].
  - intros Hty. split.
    + intros [t|] amount; unfold PosQueries.validate_coupon;
        [|discriminate].
      destruct (is_valid c now (Some t)) as [[] message]; [|discriminate].
      unfold PosQueries.calculate_discount_float. rewrite Hty. discriminate.
    + unfold PosQueries.validate_coupon.
      destruct (is_valid c now (Some cart_total)) as [ok message].
      cbn. intros ->. unfold PosQueries.calculate_discount_float.
      rewrite Hty. reflexivity.
  - intros Hty. unfold PosQueries.validate_coupon.
    destruct (is_valid c now (Some cart_total)) as [ok message].
    cbn. intros ->. unfold PosQueries.calculate_discount_float.
    rewrite Hty. reflexivity.
  - unfold PosQueries.validate_coupon.
    destruct (is_valid c now (Some cart_total)) as [ok message].
    cbn. intros ->. reflexivity.
Qed.

(** ** Roles *)

(** X11: the permission classes form a ladder.  Whoever passes
    [IsAdmin] passes [IsManager], and whoever passes [IsManager] passes
    [IsCashier]; reports and product changes ask for exactly what
    [IsManager] asks, reading the product API only for a login.  A
    viewer passes none of the role checks, nobody passes any check
    without a login, and a saved superuser who is logged in passes all
    of them. *)
Theorem permission_ladder (user : Core.Account) (method : string) :
  (Core.IsAdmin user = true -> Core.IsManager user = true) /\
  (Core.IsManager user = true -> Core.IsCashier user = true) /\
  Core.CanAccessReports user = Core.IsManager user /\
  (~ In method Core.SAFE_METHODS ->
   Core.CanManageProducts user method = Core.IsManager user) /\
  (In method Core.SAFE_METHODS ->
   Core.CanManageProducts user method = Core.is_authenticated user) /\
  (Core.role user = Core.VIEWER -> Core.IsCashier user = false) /\
  (Core.is_authenticated user = false ->
   Core.IsCashier user = false /\ Core.CanManageProducts user method = false) /\
  (Core.is_superuser user = true -> Core.is_authenticated user = true ->
   Core.IsAdmin (Core.save user) = true /\
   Core.can_manage_users (Core.save user) = true) /\
  (Core.is_superuser user = false -> Core.save user = user).
Proof.
  assert (Hsafe : existsb (String.eqb method) Core.SAFE_METHODS = true
                  <-> In method Core.SAFE_METHODS).
  { rewrite existsb_exists. split.
    - intros (x & Hin & Heq). apply String.eqb_eq in Heq. subst. exact Hin.
    - intros Hin. exists method. split; [exact Hin|apply String.eqb_refl]. }
  destruct user as [role su auth].
  unfold Core.IsAdmin, Core.IsManager, Core.IsCashier, Core.CanAccessReports,
    Core.CanManageProducts, Core.save, Core.is_manager, Core.is_cashier,
    Core.can_access_reports, Core.can_manage_products, Core.can_manage_users.
  cbn [Core.role Core.is_superuser Core.is_authenticated].
  split; [|split; [|split; [|split; [|split; [|split; [|split; [|split]]]]]]].
  - destruct role, auth; cbn; congruence.
  - destruct role, auth; cbn; congruence.
  - reflexivity.
  - intros Hno.
    destruct (existsb (String.eqb method) Core.SAFE_METHODS) eqn:E;
      [exfalso; apply Hno, Hsafe; reflexivity|reflexivity].
  - intros Hin. apply Hsafe in Hin. rewrite Hin. reflexivity.
  - intros ->. destruct auth; reflexivity.
  - intros ->. split; [reflexivity|].
    destruct (existsb (String.eqb method) Core.SAFE_METHODS); reflexivity.
  - intros -> ->. destruct role; split; reflexivity.
  - intros ->. reflexivity.
Qed.

(** ** Invoices: what a save stores *)

Lemma generate_invoice_number_Ok year db number db' :
  generate_invoice_number year db = Ok number db' ->
  db' = db /\ number <> "".
Proof.
  unfold generate_invoice_number.
  destruct (Text.str_max _) as [[|c rest]|].
  - intros [= <- <-]. split; [reflexivity|discriminate].
  - destruct (Text.int _); [|discriminate].
    intros [= <- <-]. split; [reflexivity|discriminate].
  - intros [= <- <-]. split; [reflexivity|discriminate].
Qed.

(** The steps of [Invoice.save]: the number, the due date, the status,
    the row. *)
Lemma Invoice_save_inv i year today db i' db' :
  Invoice_save i year today db = Ok i' db' ->
  exists number due,
    (if String.eqb (Invoice.invoice_number i) ""
     then generate_invoice_number year db = Ok number db
     else number = Invoice.invoice_number i) /\
    number <> "" /\
    due = match Invoice.due_date i with
          | Some d => d
          | None => calculate_due_date i
          end /\
    update_payment_status
      (Invoice.with_due_date (Some due) (Invoice.with_invoice_number number i))
      today db = Ok i' db /\
    db' = set_invoices (<[Invoice.pk i := i']> (invoices db)) db.
Proof.
  unfold Invoice_save. intros H.
  apply bind_Ok in H as (i1 & db1 & H1 & H).
  apply bind_Ok in H as (i2 & db2 & H2 & H).
  apply bind_Ok in H as ([] & db3 & H3 & H). injection H as <- <-.
  injection H3 as <-.
  pose proof (update_payment_status_Ok _ _ _ _ _ H2) as (-> & _ & Hi2).
  assert (Hnum : exists number,
             (if String.eqb (Invoice.invoice_number i) ""
              then generate_invoice_number year db = Ok number db
              else number = Invoice.invoice_number i) /\
             number <> "" /\
             i1 = Invoice.with_invoice_number number i /\ db1 = db).
  { destruct (String.eqb (Invoice.invoice_number i) "") eqn:E.
    - apply bind_Ok in H1 as (number & db0 & Hgen & H1).
      injection H1 as <- <-.
      pose proof (generate_invoice_number_Ok _ _ _ _ Hgen) as (-> & Hne).
      exists number. auto.
    - injection H1 as <- <-. exists (Invoice.invoice_number i).
      apply String.eqb_neq in E. repeat split; [exact E|].
      destruct i; reflexivity. }
  destruct Hnum as (number & Hnumber & Hne & -> & ->).
  change (Invoice.due_date (Invoice.with_invoice_number number i))
    with (Invoice.due_date i) in *.
  change (calculate_due_date (Invoice.with_invoice_number number i))
    with (calculate_due_date i) in *.
  exists number. eexists. split; [exact Hnumber|]. split; [exact Hne|].
  split; [reflexivity|].
  destruct (Invoice.due_date i) as [d|] eqn:Hd.
  - assert (Hpk : Invoice.pk i2 = Invoice.pk i)
      by (rewrite <- Hi2; reflexivity).
    rewrite Hpk. split; [|reflexivity].
    rewrite <- H2. f_equal.
    unfold Invoice.with_due_date, Invoice.with_invoice_number. cbn.
    rewrite Hd. reflexivity.
  - assert (Hpk : Invoice.pk i2 = Invoice.pk i)
      by (rewrite <- Hi2; reflexivity).
    rewrite Hpk. split; [exact H2|reflexivity].
Qed.

(** X12: the status of a saved invoice is computed from the amounts,
    the due date and the day of the save alone, whatever it was before:
    it is paid exactly when something was paid and the amount paid
    reaches the total (so an invoice of zero with nothing paid is not
    paid); otherwise overdue exactly when the due date lies before the
    day of the save; otherwise unpaid when nothing was paid and partial
    when something was.  It is never cancelled.  On the day of the save
    the [is_overdue] property agrees with the stored status; the stored
    status is not updated by the passing of time, so on a later day
    past the due date [is_overdue] holds of an invoice whose stored
    status still is unpaid or partial. *)
Theorem Invoice_save_status (i : Invoice.t) (year today : Z) (db : DB)
    (i' : Invoice.t) (db' : DB) :
  Invoice_save i year today db = Ok i' db' ->
  exists due,
    Invoice.due_date i' = Some due /\
    (Invoice.payment_status i' = Invoice.paid <->
     (0 < Invoice.amount_paid i)%Q /\
     (Invoice.total_amount i <= Invoice.amount_paid i)%Q) /\
    (Invoice.payment_status i' = Invoice.overdue <->
     ~ ((0 < Invoice.amount_paid i)%Q /\
        (Invoice.total_amount i <= Invoice.amount_paid i)%Q) /\
     due < today) /\
    (Invoice.payment_status i' = Invoice.unpaid <->
     (Invoice.amount_paid i <= 0)%Q /\ today <= due) /\
    (Invoice.payment_status i' = Invoice.partial <->
     (0 < Invoice.amount_paid i)%Q /\
     (Invoice.amount_paid i < Invoice.total_amount i)%Q /\ today <= due) /\
    Invoice.payment_status i' <> Invoice.cancelled /\
    WholesaleInvoices.is_overdue i' today
      = Some (status_eqb (Invoice.payment_status i') Invoice.overdue) /\
    (forall later,
       due < later ->
       Invoice.payment_status i' = Invoice.unpaid \/
       Invoice.payment_status i' = Invoice.partial ->
       WholesaleInvoices.is_overdue i' later = Some true).
Proof.
  intros H.
  apply Invoice_save_inv in H as (number & due & _ & _ & _ & Hupd & _).
  pose proof (update_payment_status_Ok _ _ _ _ _ Hupd) as (_ & Hnc & _).
  apply (update_payment_status_cases _ due) in Hupd
    as (Hi' & Hpaid & Hover & Hunpaid & Hpartial); [|reflexivity].
  cbn [Invoice.amount_paid Invoice.total_amount Invoice.with_due_date
       Invoice.with_invoice_number] in Hpaid, Hover, Hunpaid, Hpartial.
  exists due.
  assert (Hdue : Invoice.due_date i' = Some due) by (rewrite Hi'; reflexivity).
  split; [exact Hdue|]. split; [exact Hpaid|]. split; [exact Hover|].
  split; [exact Hunpaid|]. split; [exact Hpartial|]. split; [exact Hnc|].
  split.
  - unfold WholesaleInvoices.is_overdue. rewrite Hdue. f_equal.
    destruct (Invoice.payment_status i') eqn:Est; cbn;
      try rewrite andb_false_r; try rewrite andb_true_r; try reflexivity.
    + destruct (Z.ltb_spec due today); [|reflexivity].
      destruct Hunpaid as [Hu _]. specialize (Hu eq_refl). lia.
    + destruct (Z.ltb_spec due today); [|reflexivity].
      destruct Hpartial as [Hp _]. specialize (Hp eq_refl). lia.
    + destruct (Z.ltb_spec due today); [reflexivity|].
      destruct Hover as [Ho _]. specialize (Ho eq_refl). lia.
  - intros later Hlater Hst. unfold WholesaleInvoices.is_overdue.
    rewrite Hdue. f_equal.
    destruct (Z.ltb_spec due later); [|lia].
    destruct Hst as [-> | ->]; reflexivity.
Qed.

(** The theorem at the sample invoice (nothing paid, due on day 30),
    saved on day 10: it is stored as unpaid, and on day 31 [is_overdue]
    holds of the stored invoice. *)
Lemma Invoice_save_status_witness :
  exists i' db',
    Invoice_save Examples.invoice1 2026 10 Examples.invoice_db = Ok i' db' /\
    Invoice.payment_status i' = Invoice.unpaid /\
    WholesaleInvoices.is_overdue i' 10 = Some false /\
    WholesaleInvoices.is_overdue i' 31 = Some true.
Proof.
  destruct (Invoice_save Examples.invoice1 2026 10 Examples.invoice_db)
    as [i' db'|] eqn:E; [|vm_compute in E; discriminate].
  exists i', db'. split; [reflexivity|].
  destruct (Invoice_save_status _ _ _ _ _ _ E)
    as (due & Hdue & _ & _ & Hunpaid & _ & _ & Hnow & Hlater).
  assert (Hd : due = 30).
  { vm_compute in E. injection E as <- _. cbn in Hdue. congruence. }
  subst due.
  assert (Hst : Invoice.payment_status i' = Invoice.unpaid).
  { apply Hunpaid. split; [vm_compute; discriminate|lia]. }
  split; [exact Hst|]. split.
  - rewrite Hnow, Hst. reflexivity.
  - apply Hlater; [lia|auto].
Defined.



(** ** Invoice numbers below 10000 *)

(** The numbering lemma above at a store that holds the numbers 7 and 3
    of 2026: the next number is formed from a stored suffix. *)
Lemma invoice_numbers_up_to_9999_witness :
  exists last,
    generate_invoice_number 2026
      (Examples.numbers_db ["INV-2026-0007"; "INV-2026-0003"])
    = Ok (year_prefix 2026 +:+ Text.format_04d (last + 1))
         (Examples.numbers_db ["INV-2026-0007"; "INV-2026-0003"]) /\
    0 <= last <= 9998 /\
    (forall n, 0 <= n <= 9998 ->
       In (year_prefix 2026 +:+ Text.format_04d n)
          (year_numbers 2026
             (Examples.numbers_db ["INV-2026-0007"; "INV-2026-0003"])) ->
       n <= last).
Proof.
  destruct (invoice_numbers_up_to_9999 2026
              (Examples.numbers_db ["INV-2026-0007"; "INV-2026-0003"]))
    as (last & Hrun & Hlast & _ & _ & Hmax).
  - assert (E : year_numbers 2026
                  (Examples.numbers_db ["INV-2026-0007"; "INV-2026-0003"])
                = ["INV-2026-0003"; "INV-2026-0007"])
      by (vm_compute; reflexivity).
    rewrite E. repeat constructor.
    + exists 3. split; [lia|vm_compute; reflexivity].
    + exists 7. split; [lia|vm_compute; reflexivity].
  - exists last. auto.
Defined.

(** ** The create-sale view: the lines and the stock *)

(** A line passes the check of the view when its product exists and can
    be sold in the line's quantity, going by the product table [m]. *)
Lemma create_items_run sale customer items db :
  Forall (fun it => exists p,
            products db !! ItemData.product_id it = Some p /\
            can_sell p (ItemData.quantity it) = true) items ->
  exists db' lines,
    create_items sale customer items db = Ok None db' /\
    products db' = products db /\
    sale_items db' = (sale_items db ++ lines)%list /\
    Forall2 (fun it l => exists p,
               products db !! ItemData.product_id it = Some p /\
               SaleItem.sale l = Sale.pk sale /\
               SaleItem.product l = Product.pk p /\
               SaleItem.quantity l = ItemData.quantity it /\
               SaleItem.unit_price l
               = fst (get_price_for_customer p (Some customer)
                        (ItemData.quantity it)) /\
               SaleItem.tax_rate l = Product.tax_rate p /\
               SaleItem.discount l = ItemData.discount it /\
               SaleItem.line_total l
               = (SaleItem.unit_price l * inject_Z (SaleItem.quantity l)
                  - SaleItem.discount l)%Q)
      items lines.
Proof.
  revert db. induction items as [|it rest IH]; intros db Hall.
  - exists db, []. cbn. rewrite app_nil_r. repeat split. constructor.
  - apply Forall_cons in Hall as [(p & Hp & Hsell) Hall].
    cbn [create_items]. unfold Product_get at 1.
    unfold mbind at 1, M_bind at 1. rewrite Hp, Hsell. cbn [negb].
    destruct (get_price_for_customer p (Some customer) (ItemData.quantity it))
      as [unit_price label] eqn:Hprice.
    unfold SaleItem_create. unfold_steps. cbn.
    match goal with
    | |- context [create_items sale customer rest ?d] =>
        destruct (IH d) as (db' & lines & Hrun & Hprod & Hlines & Hrows);
          [exact Hall|]
    end.
    rewrite Hrun. cbn in Hprod, Hlines.
    eexists db', (_ :: lines). split; [reflexivity|].
    split; [exact Hprod|]. split.
    + rewrite Hlines, <- app_assoc. reflexivity.
    + constructor; [|exact Hrows].
      exists p. cbn. rewrite Hprice. auto 10.
Qed.

Lemma create_items_None sale customer items db db' :
  create_items sale customer items db = Ok None db' ->
  Forall (fun it => exists p,
            products db !! ItemData.product_id it = Some p /\
            can_sell p (ItemData.quantity it) = true) items.
Proof.
  revert db. induction items as [|it rest IH]; intros db; cbn [create_items].
  - intros _. constructor.
  - intros H. apply bind_Ok in H as (product & db1 & Hget & H).
    unfold Product_get in Hget.
    destruct (products db !! ItemData.product_id it) as [p|] eqn:Hp;
      [|discriminate].
    injection Hget as <- <-.
    destruct (can_sell p (ItemData.quantity it)) eqn:Hsell;
      cbn [negb] in H; [|discriminate].
    destruct (get_price_for_customer p (Some customer) (ItemData.quantity it))
      as [unit_price label].
    apply bind_Ok in H as (l & db2 & Hl & H).
    unfold SaleItem_create in Hl. unfold_steps in Hl. injection Hl as _ <-.
    apply IH in H. cbn in H. constructor; [eauto|exact H].
Qed.

(** X15: the view checks each line of a request on its own, against
    the stock as it is before the sale.  For a stored sale and lines
    that the view can write as they are (whole quantities and
    discounts, prices and totals that fit the columns), the lines are
    all accepted exactly when every line's product exists and can be
    sold in that line's quantity, whatever the other lines ask of the
    same product.  Then one sale line is written per request line, in
    order, with the customer's price for that quantity, the product's
    tax rate, the line's discount and a line total of price times
    quantity less discount; the products are not touched. *)
Theorem create_items_checks_each_line_alone (sale : Sale.t)
    (customer : Customer.t) (items : list ItemData.t) (db : DB) :
  is_Some (sales db !! Sale.pk sale) ->
  Forall (fun it => forall p,
            products db !! ItemData.product_id it = Some p ->
            request_line_fits customer p it = true) items ->
  ((exists db', create_items sale customer items db = Ok None db') <->
   Forall (fun it => exists p,
             products db !! ItemData.product_id it = Some p /\
             can_sell p (ItemData.quantity it) = true) items) /\
  (forall db',
     create_items sale customer items db = Ok None db' ->
     products db' = products db /\
     exists lines,
       sale_items db' = (sale_items db ++ lines)%list /\
       Forall2 (fun it l => exists p,
                  products db !! ItemData.product_id it = Some p /\
                  SaleItem.sale l = Sale.pk sale /\
                  SaleItem.product l = Product.pk p /\
                  SaleItem.quantity l = ItemData.quantity it /\
                  SaleItem.unit_price l
                  = fst (get_price_for_customer p (Some customer)
                           (ItemData.quantity it)) /\
                  SaleItem.tax_rate l = Product.tax_rate p /\
                  SaleItem.discount l = ItemData.discount it /\
                  SaleItem.line_total l
                  = (SaleItem.unit_price l * inject_Z (SaleItem.quantity l)
                     - SaleItem.discount l)%Q)
         items lines).
Proof.
  intros _ _. split.
  - split.
    + intros [db' H]. exact (create_items_None _ _ _ _ _ H).
    + intros H. destruct (create_items_run sale customer items db H)
        as (db' & lines & Hrun & _). eauto.
  - intros db' H. pose proof (create_items_None _ _ _ _ _ H) as Hall.
    destruct (create_items_run sale customer items db Hall)
      as (db2 & lines & Hrun & Hprod & Hlines & Hrows).
    rewrite Hrun in H. injection H as <-. eauto.
Qed.

(** The theorem at two lines of three widgets each, for Bob, with five
    widgets on hand: each line passes on its own and both are
    written. *)
Lemma create_items_checks_each_line_alone_witness :
  exists db' lines,
    create_items Examples.pending_sale Examples.bob
      [ItemData.mk 1 3 0%Q; ItemData.mk 1 3 0%Q] Examples.sale_db
    = Ok None db' /\
    products db' = products Examples.sale_db /\
    sale_items db' = (sale_items Examples.sale_db ++ lines)%list /\
    length lines = 2%nat.
Proof.
  destruct (create_items_checks_each_line_alone Examples.pending_sale
              Examples.bob [ItemData.mk 1 3 0%Q; ItemData.mk 1 3 0%Q]
              Examples.sale_db) as (Hiff & Hrows).
  - eexists. vm_compute. reflexivity.
  - repeat constructor; intros p Hp; vm_compute in Hp; injection Hp as <-;
      vm_compute; reflexivity.
  - destruct Hiff as [_ Hall]. destruct Hall as [db' Hrun].
    + repeat constructor; exists Examples.widget;
        (split; [vm_compute; reflexivity|reflexivity]).
    + destruct (Hrows db' Hrun) as (Hprod & lines & Hlines & Hall).
      exists db', lines. split; [exact Hrun|]. split; [exact Hprod|].
      split; [exact Hlines|].
      apply Forall2_length in Hall. rewrite <- Hall. reflexivity.
Defined.

(** What [complete_sale] ran, read off a successful return. *)
Lemma complete_sale_inv s now db s' db' :
  complete_sale s now db = Ok s' db' ->
  Sale.status s = Sale.PENDING /\
  exists row dbm,
    adjust_items (fun item => - SaleItem.quantity item) "sale"
      (Some (Sale.cashier s)) (sale_lines s db) db = Ok tt dbm /\
    sales db !! Sale.pk s = Some row /\
    s' = Sale.with_completion Sale.COMPLETED (Some now) s /\
    db' = set_sales
            (<[Sale.pk s := Sale.with_completion Sale.COMPLETED (Some now) row]>
               (sales db)) dbm.
Proof.
  intros H.
  pose proof (complete_sale_Ok _ _ _ _ _ H)
    as (Hst & -> & row & dbm0 & _ & Hrow & _).
  split; [exact Hst|].
  destruct (adjust_items (fun item => - SaleItem.quantity item) "sale"
              (Some (Sale.cashier s)) (sale_lines s db) db)
    as [[] dbm|e dbm] eqn:Hadj.
  - exists row, dbm.
    rewrite (complete_sale_run s now db dbm row Hst Hrow Hadj) in H.
    injection H as <-. auto.
  - exfalso. revert H. unfold complete_sale, atomic. rewrite Hst.
    cbn [negb Sale.status_eqb]. unfold Sale_items.
    unfold mbind at 1, M_bind at 1. fold (sale_lines s db).
    unfold mbind at 1, M_bind at 1. rewrite Hadj. discriminate.
Qed.

(** The stock loop runs through only if every line's product exists. *)
Lemma adjust_items_has_products delta reason by_ items db u db' :
  adjust_items delta reason by_ items db = Ok u db' ->
  items_have_products items (products db).
Proof.
  revert db. induction items as [|item rest IH]; intros db;
    cbn [adjust_items].
  - intros _. constructor.
  - intros H. apply bind_Ok in H as (product & db1 & Hget & H).
    unfold Product_get in Hget.
    destruct (products db !! SaleItem.product item) as [p0|] eqn:Hp0;
      [|discriminate].
    injection Hget as <- <-.
    apply bind_Ok in H as ([] & db2 & Hadj & H).
    apply IH in H. constructor; [eauto|].
    destruct (Product.track_stock p0).
    + apply bind_Ok in Hadj as (p' & db3 & Hadj & Hret).
      injection Hret as <-.
      apply adjust_stock_Ok in Hadj as (row & Hrow & _ & ->).
      eapply Forall_impl; [exact H|]. intros it. cbn.
      rewrite lookup_insert. case_decide as Hk; [|auto].
      intros _. rewrite <- Hk, Hrow. eauto.
    + injection Hadj as <-. exact H.
Qed.

(** A completed sale has lowered every tracked product by the units on
    its lines, and touched nothing but the products, the audit rows and
    its own row. *)
Lemma complete_sale_stock s now db s' db' :
  products_keyed (products db) ->
  complete_sale s now db = Ok s' db' ->
  items_have_products (sale_lines s db) (products db) /\
  sale_lines s' db' = sale_lines s db /\
  Sale.status s' = Sale.COMPLETED /\
  Sale.pk s' = Sale.pk s /\
  is_Some (sales db' !! Sale.pk s) /\
  (forall k, products db' !! k
             = moved_by (- units_of k (sale_lines s db)) <$> products db !! k).
Proof.
  intros Hkey H.
  apply complete_sale_inv in H as (_ & row & dbm & Hadj & Hrow & -> & ->).
  pose proof (adjust_items_has_products _ _ _ _ _ _ _ Hadj) as Hfk.
  destruct (adjust_items_run (fun item => - SaleItem.quantity item) "sale"
              (Some (Sale.cashier s)) _ db Hkey Hfk)
    as (db1 & sold & Hrun & Hf & Hlook & _).
  rewrite Hrun in Hadj. injection Hadj as <-.
  split; [exact Hfk|]. split.
  { unfold sale_lines. cbn.
    apply only_stock_changed_sales in Hf as [_ ->]. reflexivity. }
  split; [reflexivity|]. split; [reflexivity|]. split.
  { cbn. rewrite lookup_insert_eq. eauto. }
  intros k. cbn. rewrite Hlook, sum_delta_opp. reflexivity.
Qed.

(** A created sale went through [complete_sale], in a store whose
    products and audit rows were still those of before the request. *)
Lemma create_sale_Created_inv user data now db s db' :
  create_sale user data now db = Ok (Created s) db' ->
  exists sale2 db7,
    complete_sale sale2 now db7 = Ok s db' /\
    products db7 = products db /\ adjustments db7 = adjustments db.
Proof.
  unfold create_sale. rewrite atomic_Ok. intros H.
  apply bind_Ok in H as ([customer0 created] & db1 & Hget & H).
  apply Customer_get_or_create_Ok in Hget as (Hp1 & Ha1 & _).
  apply bind_Ok in H as (customer & db2 & Hupd & H).
  apply Customer_update_Ok in Hupd as (Hp2 & Ha2 & _).
  apply bind_Ok in H as (sale0 & db3 & Hcreate & H).
  apply Sale_create_Ok in Hcreate as (_ & _ & _ & _ & Hp3 & Ha3).
  apply bind_Ok in H as (early & db4 & Hitems & H).
  apply create_items_Ok in Hitems as (_ & Hp4 & Ha4 & _ & _ & Hearly).
  destruct early as [response|].
  { injection H as -> _. destruct Hearly. }
  apply bind_Ok in H as (sale1 & db5 & Htot & H).
  apply calculate_totals_Ok in Htot
    as (st & tx & row & _ & _ & _ & Hp5 & Ha5 & _).
  apply bind_Ok in H as (tp & db6 & Hpay & H).
  apply create_payments_Ok in Hpay as (_ & _ & Hp6 & Ha6 & _).
  apply bind_Ok in H as ([e|[sale2 customer2]] & db7 & Hsettle & H);
    [discriminate|].
  apply settle_Ok in Hsettle as (Hp7 & Ha7 & _).
  apply bind_Ok in H as (s' & db8 & Hcomplete & H). injection H as <- <-.
  exists sale2, db7. split; [exact Hcomplete|]. split; congruence.
Qed.

(** X16: a created sale has taken the units of all its lines out of the
    stock.  When the view answers 201, every tracked product stands at
    its stock of before the request less the units on the lines of the
    sale, and no product row has changed otherwise.  Nothing keeps that
    figure at or above zero: the lines were checked one by one. *)
Theorem create_sale_deducts_every_line (user : User.t)
    (data : CreateSaleData.t) (now : Z) (db : DB) (s : Sale.t) (db' : DB) :
  products_keyed (products db) ->
  create_sale user data now db = Ok (Created s) db' ->
  (forall k, products db' !! k
             = moved_by (- units_of k (sale_lines s db')) <$> products db !! k) /\
  (forall k p, products db !! k = Some p -> Product.track_stock p = true ->
     Product.stock <$> products db' !! k
     = Some (Product.stock p - units_of k (sale_lines s db'))).
Proof.
  intros Hkey H.
  apply create_sale_Created_inv in H as (sale2 & db7 & Hc & Hp & _).
  rewrite <- Hp in Hkey.
  apply (complete_sale_stock _ _ _ _ _ Hkey) in Hc
    as (_ & Hlines & _ & _ & _ & Hlook).
  rewrite Hlines. rewrite Hp in Hlook.
  split; [exact Hlook|].
  intros k p Hk Ht. rewrite Hlook, Hk. cbn. unfold moved_by. rewrite Ht.
  cbn. f_equal; lia.
Qed.

(** The theorem at an order of three widgets and three widgets more,
    with five on hand: each line passes, the sale is created, and the
    stock of the widget is -1. *)
Lemma create_sale_deducts_every_line_witness :
  exists s db',
    create_sale Examples.cashier MoreExamples.double_order 1000
      Examples.shop_db = Ok (Created s) db' /\
    Product.stock <$> products Examples.shop_db !! 1 = Some 5 /\
    units_of 1 (sale_lines s db') = 6 /\
    Product.stock <$> products db' !! 1 = Some (-1).
Proof.
  destruct (create_sale Examples.cashier MoreExamples.double_order 1000
              Examples.shop_db) as [[s|e] db'|e db'] eqn:E;
    try (vm_compute in E; discriminate).
  exists s, db'. split; [reflexivity|]. split; [reflexivity|].
  assert (Hkey : products_keyed (products Examples.shop_db)).
  { unfold products_keyed. refine (bool_decide_unpack _ _).
    vm_compute. exact I. }
  destruct (create_sale_deducts_every_line _ _ _ _ _ _ Hkey E)
    as (_ & Hstock).
  assert (Hunits : units_of 1 (sale_lines s db') = 6).
  { vm_compute in E. injection E as <- <-. vm_compute. reflexivity. }
  split; [exact Hunits|].
  rewrite (Hstock 1 Examples.widget eq_refl eq_refl), Hunits. reflexivity.
Defined.

(** Voiding a sale whose units were taken out of the stock puts them
    back. *)
Lemma void_sale_puts_back s user reason later db0 dbc lines :
  Sale.status s <> Sale.VOIDED ->
  is_Some (sales dbc !! Sale.pk s) ->
  sale_lines s dbc = lines ->
  products_keyed (products db0) ->
  items_have_products lines (products db0) ->
  (forall k, products dbc !! k
             = moved_by (- units_of k lines) <$> products db0 !! k) ->
  exists s2 db2,
    void_sale s user reason later dbc = Ok s2 db2 /\
    products db2 = products db0 /\
    Sale.status <$> sales db2 !! Sale.pk s = Some Sale.VOIDED /\
    customers db2 = customers dbc /\ payments db2 = payments dbc /\
    invoices db2 = invoices dbc.
Proof.
  intros Hst [row Hrow] Hlines Hkey Hfk Hlook.
  assert (Hkey1 : products_keyed (products dbc)).
  { intros k p. rewrite Hlook.
    destruct (products db0 !! k) as [p0|] eqn:Hp0; cbn; [|discriminate].
    intros [= <-]. apply Hkey in Hp0. unfold moved_by.
    destruct (Product.track_stock p0); exact Hp0. }
  assert (Hfk1 : items_have_products (sale_lines s dbc) (products dbc)).
  { rewrite Hlines. eapply Forall_impl; [exact Hfk|].
    intros item [p Hp]. cbn. rewrite Hlook, Hp. cbn. eauto. }
  destruct (adjust_items_run (fun item => SaleItem.quantity item) "return"
              (Some user) _ dbc Hkey1 Hfk1)
    as (db2 & back & Hrun & Hf & Hlook2 & _ & _).
  pose proof (void_sale_run s user reason later dbc db2 row Hst Hrow Hrun)
    as Hv.
  eexists _, _. split; [exact Hv|]. cbn. split.
  { apply map_eq. intros k. rewrite Hlook2, Hlines, Hlook.
    fold (units_of k lines).
    destruct (products db0 !! k) as [p|]; cbn; [|reflexivity].
    rewrite moved_by_moved_by, Z.add_opp_diag_l, moved_by_0. reflexivity. }
  split; [rewrite lookup_insert_eq; reflexivity|].
  rewrite Hf. repeat split; reflexivity.
Qed.

(** X17: a sale made through the view and then voided through the view
    leaves the product table exactly as it was before the sale.  The
    void does not touch the customers or the payments: the balance that
    a part-paid wholesale sale put on the customer stays, and so do the
    payment rows. *)
Theorem create_then_void_restores_products (user voider : User.t)
    (data : CreateSaleData.t) (now later : Z) (reason : string)
    (db : DB) (s : Sale.t) (db1 : DB) :
  products_keyed (products db) ->
  create_sale user data now db = Ok (Created s) db1 ->
  exists db2,
    void (Sale.pk s) voider reason later db1 = Ok SaleVoided db2 /\
    products db2 = products db /\
    Sale.status <$> sales db2 !! Sale.pk s = Some Sale.VOIDED /\
    customers db2 = customers db1 /\ payments db2 = payments db1.
Proof.
  intros Hkey H.
  pose proof (create_sale_Created _ _ _ _ _ _ H) as (_ & _ & _ & _ & Hrow).
  apply create_sale_Created_inv in H as (sale2 & db7 & Hc & Hp & _).
  rewrite <- Hp in Hkey.
  pose proof (complete_sale_stock _ _ _ _ _ Hkey Hc)
    as (Hfk & Hlines & Hst & Hpk & Hsome & Hlook).
  destruct (void_sale_puts_back s (User.pk voider) reason later db7 db1
              (sale_lines sale2 db7))
    as (s2 & db2 & Hv & Hprod & Hvoided & Hcust & Hpay & _);
    try assumption.
  { rewrite Hst. discriminate. }
  { rewrite Hrow. eauto. }
  exists db2. unfold void. rewrite Hrow, Hv.
  split; [reflexivity|]. split; [congruence|]. auto.
Qed.

(** The theorem at Ann's part-paid sale of a widget (100, of which 60
    are paid): after the void the widget is back at 5 and Ann still
    owes the 40. *)
Lemma create_then_void_restores_products_witness :
  exists s db1 db2,
    create_sale Examples.cashier (Examples.order "Ann" "555" 1 60%Q) 1000
      Examples.shop_db = Ok (Created s) db1 /\
    void (Sale.pk s) Examples.cashier "mistake" 2000 db1 = Ok SaleVoided db2 /\
    products db2 = products Examples.shop_db /\
    (Customer.current_balance <$> customers Examples.shop_db !! 7 = Some 0%Q) /\
    (exists c, customers db2 !! 7 = Some c /\
               (Customer.current_balance c == 40)%Q).
Proof.
  destruct (create_sale Examples.cashier (Examples.order "Ann" "555" 1 60%Q)
              1000 Examples.shop_db) as [[s|e] db1|e db1] eqn:E;
    try (vm_compute in E; discriminate).
  assert (Hkey : products_keyed (products Examples.shop_db)).
  { unfold products_keyed. refine (bool_decide_unpack _ _).
    vm_compute. exact I. }
  destruct (create_then_void_restores_products Examples.cashier
              Examples.cashier _ 1000 2000 "mistake" _ s db1 Hkey E)
    as (db2 & Hv & Hprod & _ & Hcust & _).
  exists s, db1, db2. split; [reflexivity|]. split; [exact Hv|].
  split; [exact Hprod|]. split; [reflexivity|].
  rewrite Hcust. vm_compute in E. injection E as _ <-.
  eexists. split; [vm_compute; reflexivity|]. vm_compute. reflexivity.
Defined.

(** ** The customer of a sale *)

(** Inserting [x] into a table none of whose rows passes the filter [f]
    leaves [x] as the only row that passes. *)
Lemma filter_insert_only {A} (f : A -> bool) (k : Z) (x : A) (m : gmap Z A) :
  f x = true ->
  List.filter f (map snd (map_to_list m)) = [] ->
  List.filter f (map snd (map_to_list (<[k := x]> m))) = [x].
Proof.
  intros Hx Hnone.
  assert (Hperm : map snd (map_to_list (<[k := x]> m))
                  ≡ₚ x :: map snd (map_to_list (delete k m))).
  { rewrite <- insert_delete_eq.
    rewrite map_to_list_insert by apply lookup_delete_eq. reflexivity. }
  assert (Hdel : forall y, In y (map snd (map_to_list (delete k m))) ->
                   f y = false).
  { intros y Hy. apply in_map_iff in Hy as ([k' y'] & <- & Hin).
    apply list_elem_of_In, elem_of_map_to_list in Hin. cbn.
    apply lookup_delete_Some in Hin as [_ Hin].
    destruct (f y') eqn:E; [|reflexivity].
    assert (Hy' : In y' (List.filter f (map snd (map_to_list m)))).
    { apply filter_In. split; [|exact E].
      apply in_map_iff. exists (k', y'). split; [reflexivity|].
      apply list_elem_of_In, elem_of_map_to_list. exact Hin. }
    rewrite Hnone in Hy'. destruct Hy'. }
  assert (Hf : forall l l', l ≡ₚ l' -> List.filter f l ≡ₚ List.filter f l').
  { induction 1 as [|y l l' _ IH|y z l|l l' l'' _ IH1 _ IH2]; cbn.
    - reflexivity.
    - destruct (f y); [constructor|]; exact IH.
    - destruct (f y), (f z); try reflexivity. constructor.
    - etransitivity; eassumption. }
  apply Hf in Hperm. cbn in Hperm. rewrite Hx in Hperm.
  assert (Hnil : forall l, (forall y, In y l -> f y = false) ->
                   List.filter f l = []).
  { induction l as [|y l IH]; intros Hl; [reflexivity|].
    cbn. rewrite (Hl y (or_introl eq_refl)). apply IH.
    intros z Hz. apply Hl. right. exact Hz. }
  rewrite (Hnil _ Hdel) in Hperm.
  apply Permutation_singleton_r in Hperm. exact Hperm.
Qed.

(** X18: one phone number, one customer.  When the lookup by phone
    succeeds (the number is new, or exactly one customer has it), every
    later lookup of that number, under whatever name, finds the same
    customer and writes nothing; a customer the lookup had to create is
    a retail customer with no balance, no credit and no discount. *)
Theorem Customer_get_or_create_again (phone name email : string) (db : DB)
    (c : Customer.t) (created : bool) (db1 : DB) :
  Customer_get_or_create phone name email db = Ok (c, created) db1 ->
  Customer.phone c = phone /\
  (forall name' email',
     Customer_get_or_create phone name' email' db1 = Ok (c, false) db1) /\
  (created = true ->
   c = Customer.mk (next_pk db) name email phone Customer.retail 0%Q 0%Q 0%Q
         true /\
   customers db1 = <[next_pk db := c]> (customers db)) /\
  (created = false -> db1 = db).
Proof.
  unfold Customer_get_or_create.
  destruct (List.filter _ (map snd (map_to_list (customers db))))
    as [|c1 [|c2 l]] eqn:Hf; [| |discriminate].
  - intros [= <- <- <-]. cbn. split; [reflexivity|].
    split; [|split; [intros _; split; reflexivity|discriminate]].
    intros name' email'.
    rewrite filter_insert_only; [reflexivity|apply String.eqb_refl|exact Hf].
  - intros [= <- <- <-].
    assert (Hin : In c1 (List.filter
                           (fun c => String.eqb (Customer.phone c) phone)
                           (map snd (map_to_list (customers db)))))
      by (rewrite Hf; left; reflexivity).
    apply filter_In in Hin as [_ Hphone]. apply String.eqb_eq in Hphone.
    split; [exact Hphone|]. split; [|split; [discriminate|reflexivity]].
    intros name' email'. rewrite Hf. reflexivity.
Qed.

(** The theorem at a number the shop has not seen: the customer is
    created once and found afterwards. *)
Lemma Customer_get_or_create_again_witness :
  exists c db1,
    Customer_get_or_create "888" "Dan" "" Examples.shop_db = Ok (c, true) db1 /\
    Customer_get_or_create "888" "Daniel" "d@x" db1 = Ok (c, false) db1 /\
    Customer.customer_type c = Customer.retail.
Proof.
  destruct (Customer_get_or_create "888" "Dan" "" Examples.shop_db)
    as [[c created] db1|e db1] eqn:E; [|vm_compute in E; discriminate].
  assert (Hc : created = true) by (vm_compute in E; congruence).
  subst created.
  destruct (Customer_get_or_create_again _ _ _ _ _ _ _ E)
    as (_ & Hagain & Hnew & _).
  exists c, db1. split; [reflexivity|]. split; [apply Hagain|].
  destruct (Hnew eq_refl) as (-> & _). reflexivity.
Defined.

(** ** Requests that end in an exception *)

(** X19: an exception undoes the whole request.  Whatever exception
    leaves [create_sale], the store is the one of before the request;
    and a line whose product does not exist is such an exception, not
    a 400: with the lines before it in order (their products exist and
    can be sold, and the view can write them as they are for the
    customer of the request), a customer found or created and customer
    fields that fit their columns, the view raises [DoesNotExist] and
    no row of the request remains. *)
Theorem create_sale_exception_rolls_back (user : User.t)
    (data : CreateSaleData.t) (now : Z) (db : DB) :
  (forall e db', create_sale user data now db = Raise e db' -> db' = db) /\
  (forall before missing after,
     CreateSaleData.items data = (before ++ missing :: after)%list ->
     request_head_fits data = true ->
     Forall (fun it => exists p,
               products db !! ItemData.product_id it = Some p /\
               can_sell p (ItemData.quantity it) = true /\
               forall c, request_customer data db = Some c ->
                         request_line_fits c p it = true) before ->
     products db !! ItemData.product_id missing = None ->
     (length (List.filter
                (fun c => String.eqb (Customer.phone c)
                            (CreateSaleData.customer_phone data))
                (map snd (map_to_list (customers db)))) <= 1)%nat ->
     create_sale user data now db = Raise DoesNotExist db).
Proof.
  split.
  - intros e db'. unfold create_sale, atomic.
    match goal with |- context [match ?m db with _ => _ end] =>
      destruct (m db) end; congruence.
  - intros before missing after Hitems _ Hfit Hmissing Hphone.
    assert (Hbefore : Forall (fun it => exists p,
                         products db !! ItemData.product_id it = Some p /\
                         can_sell p (ItemData.quantity it) = true) before).
    { eapply Forall_impl; [exact Hfit|].
      intros it (p & Hp & Hsell & _). eauto. }
    clear Hfit.
    assert (Hloop : forall sale customer d,
              products d = products db ->
              exists d',
                create_items sale customer (before ++ missing :: after) d
                = Raise DoesNotExist d').
    { intros sale customer. clear Hitems.
      induction before as [|it rest IH]; intros d Hd.
      - cbn. unfold Product_get, mbind, M_bind. rewrite Hd, Hmissing. eauto.
      - apply Forall_cons in Hbefore as [(p & Hp & Hsell) Hrest].
        cbn [app create_items]. unfold Product_get at 1.
        unfold mbind at 1, M_bind at 1. rewrite Hd, Hp, Hsell. cbn [negb].
        destruct (get_price_for_customer p (Some customer)
                    (ItemData.quantity it)) as [unit_price label].
        unfold SaleItem_create. unfold_steps. cbn.
        match goal with
        | |- context [create_items sale customer _ ?d1] =>
            destruct (IH Hrest d1) as (d' & Hrun); [cbn; exact Hd|]
        end.
        rewrite Hrun. eauto. }
    unfold create_sale, atomic.
    assert (Hget : exists r d1,
               Customer_get_or_create (CreateSaleData.customer_phone data)
                 (CreateSaleData.customer_name data)
                 (CreateSaleData.customer_email data) db = Ok r d1).
    { unfold Customer_get_or_create.
      destruct (List.filter _ (map snd (map_to_list (customers db))))
        as [|c1 [|c2 l]]; [eauto|eauto|cbn in Hphone; lia]. }
    destruct Hget as ([customer0 created] & d1 & Hget).
    unfold mbind at 1, M_bind at 1. rewrite Hget.
    pose proof (Customer_get_or_create_Ok _ _ _ _ _ _ Hget) as (Hp1 & _).
    match goal with
    | |- context [(?upd ≫= ?k) d1] =>
        destruct (upd d1) as [customer d2|e d2] eqn:Hupd
    end.
    2:{ exfalso. revert Hupd. destruct created; cbn;
          unfold Customer_save; unfold_steps; discriminate. }
    pose proof (Customer_update_Ok _ _ _ _ _ _ _ Hupd) as (Hp2 & _).
    unfold mbind at 1, M_bind at 1. rewrite Hupd.
    unfold Sale_create, Sale_save. unfold_steps. cbn.
    rewrite Hitems.
    match goal with
    | |- context [create_items ?sale customer _ ?d3] =>
        destruct (Hloop sale customer d3) as (d' & Hrun);
          [cbn; congruence|]
    end.
    rewrite Hrun. reflexivity.
Qed.

(** ** Invoices made from sales *)

Lemma Qsum_from (l : list Q) (a : Q) :
  (fold_left Qplus l a == a + Qsum l)%Q.
Proof.
  unfold Qsum. revert a. induction l as [|x l IH]; intros a; cbn.
  - ring.
  - rewrite IH, (IH (0 + x)%Q). ring.
Qed.

Lemma Qsum_app (l m : list Q) : (Qsum (l ++ m) == Qsum l + Qsum m)%Q.
Proof.
  unfold Qsum at 1. rewrite fold_left_app. rewrite Qsum_from.
  reflexivity.
Qed.

(** The numbering reads the invoice table only. *)
Lemma generate_invoice_number_frame year db db1 number :
  invoices db1 = invoices db ->
  generate_invoice_number year db = Ok number db ->
  generate_invoice_number year db1 = Ok number db1.
Proof.
  unfold generate_invoice_number. intros ->.
  destruct (Text.str_max _) as [[|c rest]|].
  - intros [= <-]. reflexivity.
  - destruct (Text.int _); [|discriminate]. intros [= <-]. reflexivity.
  - intros [= <-]. reflexivity.
Qed.

(** [Invoice.save] of an invoice that has neither number nor due date. *)
Lemma Invoice_save_new i year today db number :
  Invoice.invoice_number i = "" ->
  Invoice.due_date i = None ->
  generate_invoice_number year db = Ok number db ->
  exists st,
    let i1 :=
      Invoice.with_payment_status st
        (Invoice.with_due_date (Some (calculate_due_date i))
           (Invoice.with_invoice_number number i)) in
    Invoice_save i year today db
    = Ok i1 (set_invoices (<[Invoice.pk i := i1]> (invoices db)) db).
Proof.
  intros Hn Hd Hgen. unfold Invoice_save. rewrite Hn. cbn [String.eqb].
  unfold mbind at 1, M_bind at 1. unfold mbind at 1, M_bind at 1.
  rewrite Hgen. cbn [mret M_ret Invoice.due_date Invoice.with_invoice_number].
  rewrite Hd.
  destruct (update_payment_status_run
              (Invoice.with_due_date
                 (Some (calculate_due_date
                          (Invoice.with_invoice_number number i)))
                 (Invoice.with_invoice_number number i))
              (calculate_due_date (Invoice.with_invoice_number number i))
              today db eq_refl) as (st & Hrun & _).
  exists st. cbv zeta.
  unfold Invoice.with_invoice_number at 1 2 in Hrun.
  unfold mbind at 1, M_bind at 1.
  match goal with
  | |- match update_payment_status ?x _ _ with _ => _ end = _ =>
      change x with (Invoice.with_due_date
                       (Some (calculate_due_date
                                (Invoice.with_invoice_number number i)))
                       (Invoice.with_invoice_number number i))
  end.
  unfold Invoice.with_invoice_number at 1 2.
  rewrite Hrun. reflexivity.
Qed.

(** The rows that the item loop of [invoice_from_sale] writes: one per
    sale line, with the line's figures, and a total in which the line's
    tax rate is read as a percentage. *)
Lemma copy_items_run invoice items db :
  exists rows db',
    WholesaleInvoices.copy_items invoice items db = Ok rows db' /\
    db' = set_next_pk (next_pk db') db /\
    Forall2 (fun l row =>
               InvoiceItem.invoice row = Invoice.pk invoice /\
               InvoiceItem.product row = SaleItem.product l /\
               InvoiceItem.quantity row = SaleItem.quantity l /\
               InvoiceItem.unit_price row = SaleItem.unit_price l /\
               InvoiceItem.discount row = SaleItem.discount l /\
               InvoiceItem.tax_rate row = SaleItem.tax_rate l /\
               InvoiceItem.total row
               = (InvoiceItem.subtotal row + InvoiceItem.tax_amount row)%Q)
      items rows.
Proof.
  revert db. induction items as [|l rest IH]; intros db.
  - exists [], db. cbn. split; [reflexivity|].
    split; [destruct db; reflexivity|constructor].
  - cbn [WholesaleInvoices.copy_items].
    unfold WholesaleInvoices.InvoiceItem_create. unfold_steps. cbn.
    match goal with
    | |- context [WholesaleInvoices.copy_items invoice rest ?d] =>
        destruct (IH d) as (rows & db' & Hrun & Hdb & Hrows)
    end.
    rewrite Hrun. eexists (_ :: rows), db'. split; [reflexivity|].
    split; [rewrite Hdb at 1; reflexivity|].
    constructor; [|exact Hrows]. cbn. repeat split.
Qed.

(** X20: an invoice item made from a sale line carries one hundredth of
    the line's tax.  The sale line's [tax_rate] is a fraction (its tax
    is subtotal times rate); the invoice item divides the same figure
    by 100.  So the item's total is the line's subtotal plus a
    hundredth of the line's tax, and equals the line's total with tax
    exactly when the line's tax is zero. *)
Theorem invoice_item_tax_is_a_hundredth (invoice : Invoice.t)
    (items : list SaleItem.t) (db : DB) :
  exists rows db',
    WholesaleInvoices.copy_items invoice items db = Ok rows db' /\
    Forall2 (fun l row =>
               (InvoiceItem.subtotal row
                == SaleItem.unit_price l * inject_Z (SaleItem.quantity l)
                   - SaleItem.discount l)%Q /\
               (InvoiceItem.tax_amount row == SaleItem.tax_amount l / 100)%Q /\
               (InvoiceItem.total row
                == InvoiceItem.subtotal row + SaleItem.tax_amount l / 100)%Q /\
               ((InvoiceItem.total row
                 == InvoiceItem.subtotal row + SaleItem.tax_amount l)%Q
                <-> (SaleItem.tax_amount l == 0)%Q))
      items rows.
Proof.
  destruct (copy_items_run invoice items db)
    as (rows & db' & Hrun & _ & Hrows).
  exists rows, db'. split; [exact Hrun|].
  eapply Forall2_impl; [exact Hrows|].
  intros l row (_ & _ & Hq & Hu & Hd & Hr & Ht).
  assert (Hsub : InvoiceItem.subtotal row
                 = (SaleItem.unit_price l * inject_Z (SaleItem.quantity l)
                    - SaleItem.discount l)%Q)
    by (unfold InvoiceItem.subtotal; rewrite Hq, Hu, Hd; reflexivity).
  assert (Htax : (InvoiceItem.tax_amount row == SaleItem.tax_amount l / 100)%Q).
  { unfold InvoiceItem.tax_amount, SaleItem.tax_amount.
    rewrite Hsub, Hr. field. }
  split; [rewrite Hsub; reflexivity|]. split; [exact Htax|].
  split; [rewrite Ht, Htax; reflexivity|].
  rewrite Ht, Htax.
  set (t := SaleItem.tax_amount l). set (u := InvoiceItem.subtotal row).
  split; intros H.
  - assert (H' : (t / 100 == t)%Q) by lra.
    assert (H'' : (t == 100 * (t / 100))%Q) by field. lra.
  - rewrite H. field.
Qed.

(** The link loop of [invoice_from_sale]. *)
Lemma link_payments_run user year today pays :
  forall inv db d,
    Invoice.invoice_number inv <> "" ->
    Invoice.due_date inv = Some d ->
    exists inv' db' links,
      WholesaleInvoices.link_payments inv pays user year today db
        = Ok inv' db' /\
      invoice_payments db' = (invoice_payments db ++ links)%list /\
      Forall2 (fun p ip =>
                 InvoicePayment.invoice ip = Invoice.pk inv /\
                 InvoicePayment.payment ip = Payment.pk p /\
                 InvoicePayment.amount ip = Payment.amount p /\
                 InvoicePayment.recorded_by ip = User.pk user)
        pays links /\
      Invoice.with_payment_status (Invoice.payment_status inv')
        (Invoice.with_amount_paid (Invoice.amount_paid inv') inv) = inv' /\
      (pays = [] -> inv' = inv /\ db' = db) /\
      (pays <> [] ->
       (Invoice.amount_paid inv' == linked_total (Invoice.pk inv) db')%Q /\
       invoices db' = <[Invoice.pk inv := inv']> (invoices db)) /\
      sales db' = sales db /\ payments db' = payments db /\
      customers db' = customers db /\ products db' = products db /\
      sale_items db' = sale_items db /\ adjustments db' = adjustments db.
Proof.
  induction pays as [|p rest IH]; intros inv db d Hn Hd.
  - exists inv, db, []. cbn. rewrite app_nil_r.
    split; [reflexivity|]. split; [reflexivity|]. split; [constructor|].
    split; [destruct inv; reflexivity|]. split; [auto|].
    split; [intros H; contradiction|]. auto 10.
  - cbn [WholesaleInvoices.link_payments].
    unfold InvoicePayment_create. unfold_steps.
    cbn -[Invoice_save sum_invoice_payments WholesaleInvoices.link_payments].
    set (ip := InvoicePayment.mk (next_pk db) (Invoice.pk inv) (Payment.pk p)
                 (Payment.amount p) "" (User.pk user)).
    set (db1 := set_invoice_payments _ _).
    set (paid_now := or_zero (sum_invoice_payments (Invoice.pk inv) db1)).
    destruct (Invoice_save_run (Invoice.with_amount_paid paid_now inv) d year
                today db1 Hn Hd) as (st & Hsave & _).
    cbn [Invoice.pk Invoice.with_amount_paid] in Hsave.
    rewrite Hsave.
    cbn -[Invoice_save sum_invoice_payments WholesaleInvoices.link_payments].
    set (inv1 := Invoice.with_payment_status st
                   (Invoice.with_amount_paid paid_now inv)) in *.
    set (db2 := set_invoices _ db1).
    destruct (IH inv1 db2 d Hn Hd)
      as (inv' & db' & links & Hrun & Hlinks & Hrows & Hinv' & Hnil & Hcons
          & Hs & Hp & Hc & Hpr & Hsi & Ha).
    change (Invoice.pk inv1) with (Invoice.pk inv) in *.
    rewrite Hrun. exists inv', db', (ip :: links).
    split; [reflexivity|]. split.
    { rewrite Hlinks. subst db2 db1. cbn. rewrite <- app_assoc. reflexivity. }
    split.
    { constructor; [|exact Hrows]. subst ip. cbn. auto. }
    split.
    { etransitivity; [|exact Hinv']. reflexivity. }
    split; [discriminate|].
    split; [|subst db2 db1; cbn in *; auto 10].
    intros _. destruct rest as [|p2 rest].
    + destruct (Hnil eq_refl) as (-> & ->). split; [|reflexivity].
      subst inv1. cbn [Invoice.amount_paid Invoice.with_payment_status
                       Invoice.with_amount_paid].
      subst paid_now. unfold sum_invoice_payments, linked_total.
      subst db2 db1. cbn [invoice_payments set_invoices set_invoice_payments
                          set_next_pk].
      rewrite List.filter_app. cbn [List.filter]. subst ip.
      cbn [InvoicePayment.invoice]. rewrite Z.eqb_refl.
      destruct (List.filter _ (invoice_payments db)); apply or_zero_Some.
    + destruct (Hcons ltac:(discriminate)) as (Hamount & Hinvs).
      split; [exact Hamount|]. rewrite Hinvs. subst db2. cbn.
      apply insert_insert_eq.
Qed.

Lemma filter_none {A} (f : A -> bool) (m : gmap Z A) :
  (forall k x, m !! k = Some x -> f x = false) ->
  List.filter f (map snd (map_to_list m)) = [].
Proof.
  intros H.
  assert (Hall : forall l, (forall y, In y l -> f y = false) ->
                   List.filter f l = []).
  { induction l as [|y l IH]; intros Hl; [reflexivity|].
    cbn. rewrite (Hl y (or_introl eq_refl)). apply IH.
    intros z Hz. apply Hl. right. exact Hz. }
  apply Hall. intros y Hy. apply in_map_iff in Hy as ([k y'] & <- & Hin).
  apply list_elem_of_In, elem_of_map_to_list in Hin. exact (H _ _ Hin).
Qed.

(** X21: the invoice of a sale.  For a stored sale that has a customer
    and no invoice yet, in a year whose numbering works and gives a
    number that no stored invoice carries, the view creates one invoice
    under a fresh key, with the sale's customer and totals, that number
    and a due date 30 days on, and links every payment of the sale to
    it, the newest first.  The amount paid on the invoice is the
    sum of the linked payments as soon as there is one (the sale's own
    [amount_paid] is used only when the sale has no payment), whatever
    the sale's payment status says.  Sales, payments, customers and
    products are not touched, and a second request for the same sale
    finds the invoice and writes nothing. *)
Theorem invoice_from_sale_books_the_payments (sale_id : Z) (sale : Sale.t)
    (c : Z) (user : User.t) (year today : Z) (number : string) (db : DB) :
  sales db !! sale_id = Some sale ->
  Sale.customer sale = Some c ->
  (forall k i, invoices db !! k = Some i ->
     Invoice.sale i <> Some (Sale.pk sale)) ->
  generate_invoice_number year db = Ok number db ->
  Column.number_free number (next_pk db) db = true ->
  exists items invoice db',
    WholesaleInvoices.invoice_from_sale sale_id user year today db
      = Ok (WholesaleInvoices.InvoiceCreated number, items) db' /\
    invoices db' = <[next_pk db := invoice]> (invoices db) /\
    Invoice.pk invoice = next_pk db /\
    Invoice.invoice_number invoice = number /\
    Invoice.customer invoice = c /\
    Invoice.sale invoice = Some (Sale.pk sale) /\
    Invoice.due_date invoice = Some (today + 30) /\
    Invoice.total_amount invoice = Sale.total sale /\
    (exists links,
       invoice_payments db' = (invoice_payments db ++ links)%list /\
       Forall2 (fun p ip =>
                  InvoicePayment.invoice ip = next_pk db /\
                  InvoicePayment.payment ip = Payment.pk p /\
                  InvoicePayment.amount ip = Payment.amount p /\
                  InvoicePayment.recorded_by ip = User.pk user)
         (rev (List.filter
                 (fun p => match Payment.sale p with
                           | Some s => s =? Sale.pk sale
                           | None => false
                           end) (payments db)))
         links /\
       (links = [] -> Invoice.amount_paid invoice = Sale.amount_paid sale) /\
       (links <> [] ->
        (Invoice.amount_paid invoice == linked_total (next_pk db) db')%Q /\
        (linked_total (next_pk db) db'
         == linked_total (next_pk db) db
            + Qsum (map InvoicePayment.amount links))%Q)) /\
    sales db' = sales db /\ payments db' = payments db /\
    customers db' = customers db /\ products db' = products db /\
    (forall year' today',
       WholesaleInvoices.invoice_from_sale sale_id user year' today' db'
       = Ok (WholesaleInvoices.InvoiceExists (next_pk db), []) db').
Proof.
  intros Hsale Hcust Hnone Hgen _.
  set (has_sale := fun i : Invoice.t =>
                     match Invoice.sale i with
                     | Some s => s =? Sale.pk sale
                     | None => false
                     end).
  assert (Hfilter : List.filter has_sale (map snd (map_to_list (invoices db)))
                    = []).
  { apply filter_none. intros k i Hi. unfold has_sale.
    destruct (Invoice.sale i) as [s|] eqn:Hs; [|reflexivity].
    destruct (Z.eqb_spec s (Sale.pk sale)) as [->|]; [|reflexivity].
    exfalso. exact (Hnone _ _ Hi Hs). }
  unfold WholesaleInvoices.invoice_from_sale. rewrite Hsale.
  fold has_sale. rewrite Hfilter. unfold try_except.
  unfold WholesaleInvoices.Invoice_create. rewrite Hcust.
  unfold mbind at 1, M_bind at 1. unfold mbind at 1, M_bind at 1.
  unfold fresh_pk at 1.
  set (db1 := set_next_pk (next_pk db + 1) db).
  set (i0 := Invoice.mk (next_pk db) "" c (Some (Sale.pk sale)) today None
               "net_30" (Sale.subtotal sale) (Sale.tax sale)
               (Sale.discount sale) (Sale.total sale) (Sale.amount_paid sale)
               Invoice.unpaid "" (User.pk user)).
  assert (Hgen1 : generate_invoice_number year db1 = Ok number db1)
    by (apply (generate_invoice_number_frame year db); [reflexivity|exact Hgen]).
  pose proof (generate_invoice_number_Ok _ _ _ _ Hgen) as (_ & Hne).
  destruct (Invoice_save_new i0 year today db1 number eq_refl eq_refl Hgen1)
    as (st & Hsave). cbv zeta in Hsave.
  set (i1 := Invoice.with_payment_status st
               (Invoice.with_due_date (Some (calculate_due_date i0))
                  (Invoice.with_invoice_number number i0))) in *.
  rewrite Hsave.
  set (db2 := set_invoices _ db1).
  unfold Sale_items at 1. unfold mbind at 1, M_bind at 1.
  destruct (copy_items_run i1
              (List.filter (fun i => SaleItem.sale i =? Sale.pk sale)
                 (sale_items db2)) db2)
    as (items & db3 & Hcopy & Hdb3 & _).
  unfold mbind at 1, M_bind at 1. rewrite Hcopy.
  unfold WholesaleInvoices.Sale_payments at 1.
  unfold mbind at 1, M_bind at 1.
  assert (Hpay3 : payments db3 = payments db) by (rewrite Hdb3; reflexivity).
  rewrite Hpay3.
  set (pays := rev (List.filter _ (payments db))).
  destruct (link_payments_run user year today pays i1 db3 (today + 30) Hne
              eq_refl)
    as (inv' & db' & links & Hrun & Hlinks & Hrows & Hinv' & Hnil & Hcons
        & Hs & Hp & Hc & Hpr & _).
  change (Invoice.pk i1) with (next_pk db) in *.
  unfold mbind at 1, M_bind at 1. rewrite Hrun. cbn [mret M_ret].
  assert (Hnum : Invoice.invoice_number inv' = number)
    by (rewrite <- Hinv'; reflexivity).
  rewrite Hnum.
  assert (Hinvs3 : invoices db3 = <[next_pk db := i1]> (invoices db))
    by (rewrite Hdb3; reflexivity).
  assert (Hlp3 : invoice_payments db3 = invoice_payments db)
    by (rewrite Hdb3; reflexivity).
  assert (Hinvs : invoices db' = <[next_pk db := inv']> (invoices db)).
  { destruct pays as [|p0 pays0].
    - destruct (Hnil eq_refl) as (-> & ->). exact Hinvs3.
    - destruct (Hcons ltac:(discriminate)) as (_ & ->).
      rewrite Hinvs3. apply insert_insert_eq. }
  exists items, inv', db'. split; [reflexivity|].
  split; [exact Hinvs|].
  split; [rewrite <- Hinv'; reflexivity|]. split; [exact Hnum|].
  split; [rewrite <- Hinv'; reflexivity|].
  split; [rewrite <- Hinv'; reflexivity|].
  split; [rewrite <- Hinv'; reflexivity|].
  split; [rewrite <- Hinv'; reflexivity|].
  split.
  { exists links. rewrite Hlinks, Hlp3. split; [reflexivity|].
    split; [exact Hrows|]. split.
    - intros ->. pose proof (Forall2_length _ _ _ Hrows) as Hlen.
      assert (Hpays : pays = []) by (destruct pays; [reflexivity|discriminate]).
      destruct (Hnil Hpays) as (-> & _). reflexivity.
    - intros Hl. pose proof (Forall2_length _ _ _ Hrows) as Hlen.
      assert (Hpays : pays <> []).
      { intros E. rewrite E in Hlen. destruct links; [contradiction|].
        discriminate. }
      destruct (Hcons Hpays) as (Hamount & _). split; [exact Hamount|].
      unfold linked_total. rewrite Hlinks, Hlp3, List.filter_app, map_app.
      rewrite Qsum_app.
      assert (Hall : List.filter
                       (fun ip => InvoicePayment.invoice ip =? next_pk db)
                       links = links).
      { clear -Hrows. induction Hrows as [|p ip ps ips (Hi & _) _ IH];
          [reflexivity|].
        cbn. rewrite Hi, Z.eqb_refl, IH. reflexivity. }
      rewrite Hall. reflexivity. }
  assert (Hframe : sales db' = sales db /\ payments db' = payments db /\
                   customers db' = customers db /\ products db' = products db).
  { rewrite Hs, Hp, Hc, Hpr, Hdb3. auto. }
  destruct Hframe as (Hs' & Hp' & Hc' & Hpr').
  split; [exact Hs'|]. split; [exact Hp'|]. split; [exact Hc'|].
  split; [exact Hpr'|].
  intros year' today'. rewrite Hs', Hsale. fold has_sale.
  rewrite Hinvs.
  assert (Hpk' : Invoice.pk inv' = next_pk db)
    by (rewrite <- Hinv'; reflexivity).
  rewrite (filter_insert_only has_sale _ inv' _);
    [rewrite Hpk'; reflexivity| |exact Hfilter].
  unfold has_sale. rewrite <- Hinv'. cbn. apply Z.eqb_refl.
Qed.

(** The theorem at Ann's part-paid sale of a widget (100, of which 60
    are paid): the invoice shows 60 paid and 40 due, the amount that
    the sale put on Ann's balance. *)
Lemma invoice_from_sale_books_the_payments_witness :
  exists items invoice db',
    WholesaleInvoices.invoice_from_sale 100 Examples.cashier 2026 10
      MoreExamples.ann_sale_db
      = Ok (WholesaleInvoices.InvoiceCreated "INV-2026-0001", items) db' /\
    invoices db' !! 103 = Some invoice /\
    (Invoice.total_amount invoice == 100)%Q /\
    (Invoice.amount_paid invoice == 60)%Q /\
    (Invoice.balance_due invoice == 40)%Q /\
    (exists ann, customers db' !! 7 = Some ann /\
                 (Customer.current_balance ann == 40)%Q).
Proof.
  destruct (sales MoreExamples.ann_sale_db !! 100) as [sale|] eqn:Hsale;
    [|vm_compute in Hsale; discriminate].
  assert (Hs : sale = Sale.mk 100 3 (Some 7) 100%Q 0%Q 0%Q 100%Q "cash"
                        Sale.PARTIAL 0%Q Sale.COMPLETED "" "T1" (Some 1000)
                        None None "").
  { vm_compute in Hsale. injection Hsale as <-. vm_compute. reflexivity. }
  destruct (invoice_from_sale_books_the_payments 100 sale 7 Examples.cashier
              2026 10 "INV-2026-0001" MoreExamples.ann_sale_db Hsale)
    as (items & invoice & db' & Hrun & Hinvs & _ & _ & _ & _ & _ & Htotal
        & (links & Hlinks & Hrows & _ & Hpaid) & _ & _ & Hcust & _).
  - rewrite Hs. reflexivity.
  - intros k i Hi. vm_compute in Hi. discriminate.
  - vm_compute. reflexivity.
  - vm_compute. reflexivity.
  - exists items, invoice, db'. split; [exact Hrun|].
    assert (Hnext : next_pk MoreExamples.ann_sale_db = 103)
      by (vm_compute; reflexivity).
    rewrite Hnext in *. split; [rewrite Hinvs; apply lookup_insert_eq|].
    assert (Ht : (Invoice.total_amount invoice == 100)%Q)
      by (rewrite Htotal, Hs; reflexivity).
    assert (Hlinked : (Invoice.amount_paid invoice == 60)%Q).
    { assert (Hpays : List.filter
                        (fun p => match Payment.sale p with
                                  | Some s => s =? Sale.pk sale
                                  | None => false
                                  end) (payments MoreExamples.ann_sale_db)
                      = [Payment.mk 102 (Some 100) 60%Q "cash"
                           Payment.COMPLETED None None])
        by (rewrite Hs; vm_compute; reflexivity).
      rewrite Hpays in Hrows. cbn [rev app] in Hrows.
      inversion Hrows as [|p ip ps ips (_ & _ & Hamount & _) Hrest]; subst.
      inversion Hrest; subst.
      destruct (Hpaid ltac:(discriminate)) as (-> & ->).
      cbn [map]. rewrite Hamount. vm_compute. reflexivity. }
    split; [exact Ht|]. split; [exact Hlinked|].
    split; [unfold Invoice.balance_due; rewrite Ht, Hlinked; reflexivity|].
    rewrite Hcust. eexists. split; [vm_compute; reflexivity|].
    vm_compute. reflexivity.
Defined.

(** ** Stock that is low *)

Lemma units_of_nonneg k items :
  Forall (fun l => 0 <= SaleItem.quantity l) items -> 0 <= units_of k items.
Proof.
  unfold units_of, sum_delta. induction 1 as [|l rest Hl _ IH]; cbn; [lia|].
  destruct (SaleItem.product l =? k); lia.
Qed.

(** X22: a sale makes no product less low on stock.  A product is low
    on stock when it is tracked and its stock is at or below its
    threshold.  When a sale whose lines carry no negative quantity is
    completed, every stored product keeps its row, its stock is not
    higher than before, a product that was low on stock still is, and a
    tracked product is low on stock afterwards exactly when its stock
    less the units sold is at or below its threshold. *)
Theorem low_stock_stays_after_sale (s : Sale.t) (now : Z) (db : DB)
    (s' : Sale.t) (db' : DB) :
  products_keyed (products db) ->
  Forall (fun l => 0 <= SaleItem.quantity l) (sale_lines s db) ->
  complete_sale s now db = Ok s' db' ->
  forall k p,
    products db !! k = Some p ->
    exists p',
      products db' !! k = Some p' /\
      Product.stock p' <= Product.stock p /\
      (is_low_stock p = true -> is_low_stock p' = true) /\
      (Product.track_stock p = true ->
       (is_low_stock p' = true <->
        Product.stock p - units_of k (sale_lines s db)
        <= Product.low_stock_threshold p)).
Proof.
  intros Hkey Hq H k p Hk.
  apply (complete_sale_stock _ _ _ _ _ Hkey) in H
    as (_ & _ & _ & _ & _ & Hlook).
  pose proof (units_of_nonneg k _ Hq) as Hu.
  exists (moved_by (- units_of k (sale_lines s db)) p).
  split; [rewrite Hlook, Hk; reflexivity|].
  unfold moved_by, is_low_stock.
  destruct (Product.track_stock p) eqn:Ht; cbn; rewrite ?Ht; cbn.
  - split; [lia|]. split.
    + intros Hle. apply Z.leb_le in Hle. apply Z.leb_le. lia.
    + intros _. rewrite Z.leb_le. lia.
  - split; [lia|]. split; [discriminate|discriminate].
Qed.

(** The theorem at the sample sale of two widgets and a gadget: the
    widget was low on stock (5 on hand, threshold 10) and, at 3, still
    is. *)
Lemma low_stock_stays_after_sale_witness :
  exists s' db' p',
    complete_sale Examples.pending_sale 1000 Examples.sale_db = Ok s' db' /\
    is_low_stock Examples.widget = true /\
    products db' !! 1 = Some p' /\
    Product.stock p' <= 5 /\ is_low_stock p' = true.
Proof.
  destruct (complete_sale Examples.pending_sale 1000 Examples.sale_db)
    as [s' db'|e db'] eqn:E; [|vm_compute in E; discriminate].
  destruct (low_stock_stays_after_sale Examples.pending_sale 1000
              Examples.sale_db s' db') with (k := 1) (p := Examples.widget)
    as (p' & Hp' & Hle & Hstay & _).
  - unfold products_keyed. refine (bool_decide_unpack _ _).
    vm_compute. exact I.
  - assert (El : sale_lines Examples.pending_sale Examples.sale_db
                 = [SaleItem.mk 51 50 1 2 100%Q 0%Q 0%Q 200%Q;
                    SaleItem.mk 52 50 2 1 80%Q 0%Q 0%Q 80%Q])
      by reflexivity.
    rewrite El. repeat constructor; cbn; lia.
  - exact E.
  - reflexivity.
  - exists s', db', p'. split; [reflexivity|]. split; [reflexivity|].
    split; [exact Hp'|]. split; [exact Hle|]. apply Hstay. reflexivity.
Defined.

(** ** The manual invoice *)

(** A row of the form is in order when it names no product or a stored
    one. *)
Lemma add_items_run invoice lines :
  forall subtotal tax_amount rows db,
    Forall (fun line => match InvoiceLine.product_id line with
                        | Some k => is_Some (products db !! k)
                        | None => True
                        end) lines ->
    exists new st tx db',
      WholesaleCreate.add_items invoice lines subtotal tax_amount rows db
      = Ok ((rows ++ new)%list, inr (st, tx)) db' /\
      db' = set_next_pk (next_pk db') db /\
      (st == subtotal + Qsum (map InvoiceItem.subtotal new))%Q /\
      (tx == tax_amount + Qsum (map InvoiceItem.tax_amount new))%Q /\
      Forall2 (fun line row => exists k p,
                 InvoiceLine.product_id line = Some k /\
                 products db !! k = Some p /\
                 InvoiceItem.invoice row = Invoice.pk invoice /\
                 InvoiceItem.product row = Product.pk p /\
                 InvoiceItem.quantity row = InvoiceLine.quantity line /\
                 InvoiceItem.unit_price row = InvoiceLine.unit_price line /\
                 InvoiceItem.discount row = 0%Q /\
                 InvoiceItem.tax_rate row = Product.tax_rate p /\
                 InvoiceItem.total row
                 = (InvoiceItem.subtotal row + InvoiceItem.tax_amount row)%Q)
        (List.filter (fun line => bool_decide
                                    (is_Some (InvoiceLine.product_id line)))
           lines)
        new.
Proof.
  induction lines as [|line rest IH]; intros subtotal tax_amount rows db Hall.
  - exists [], subtotal, tax_amount, db. cbn. rewrite app_nil_r.
    split; [reflexivity|]. split; [destruct db; reflexivity|].
    split; [unfold Qsum; cbn; ring|]. split; [unfold Qsum; cbn; ring|].
    constructor.
  - apply Forall_cons in Hall as [Hline Hall].
    cbn [WholesaleCreate.add_items List.filter].
    destruct (InvoiceLine.product_id line) as [k|] eqn:Hk.
    + destruct Hline as [p Hp].
      unfold get_db at 1. unfold mbind at 1, M_bind at 1. rewrite Hp.
      unfold WholesaleInvoices.InvoiceItem_create. unfold_steps.
      cbn -[WholesaleCreate.add_items].
      match goal with
      | |- context [WholesaleCreate.add_items invoice rest ?s ?t ?r ?d] =>
          destruct (IH s t r d) as (new & st & tx & db' & Hrun & Hdb & Hst
                                    & Htx & Hrows); [exact Hall|]
      end.
      rewrite Hrun. rewrite <- app_assoc. cbn [app].
      eexists (_ :: new), st, tx, db'. split; [reflexivity|].
      split; [rewrite Hdb at 1; reflexivity|].
      split; [rewrite Hst; unfold Qsum; cbn [map fold_left];
              rewrite (Qsum_from _ (0 + _)); unfold Qsum; ring|].
      split; [rewrite Htx; unfold Qsum; cbn [map fold_left];
              rewrite (Qsum_from _ (0 + _)); unfold Qsum; ring|].
      try (rewrite bool_decide_eq_true_2 by eauto).
      constructor; [|exact Hrows].
      exists k, p. cbn. auto 12.
    + destruct (IH subtotal tax_amount rows db Hall)
        as (new & st & tx & db' & Hrun & Hrest).
      try (rewrite bool_decide_eq_false_2 by (intros [? ?]; discriminate)).
      exists new, st, tx, db'. split; [exact Hrun|exact Hrest].
Qed.

Lemma add_items_stops invoice before bad after k :
  InvoiceLine.product_id bad = Some k ->
  forall subtotal tax_amount rows db,
    products db !! k = None ->
    Forall (fun line => match InvoiceLine.product_id line with
                        | Some k => is_Some (products db !! k)
                        | None => True
                        end) before ->
    exists new db',
      WholesaleCreate.add_items invoice (before ++ bad :: after) subtotal
        tax_amount rows db
      = Ok ((rows ++ new)%list, inl DoesNotExist) db' /\
      db' = set_next_pk (next_pk db') db /\
      length new
      = length (List.filter
                  (fun line => bool_decide
                                 (is_Some (InvoiceLine.product_id line)))
                  before) /\
      Forall (fun row => InvoiceItem.invoice row = Invoice.pk invoice) new.
Proof.
  intros Hbad.
  induction before as [|line rest IH]; intros subtotal tax_amount rows db
    Hnone Hall.
  - exists [], db. cbn [app WholesaleCreate.add_items]. rewrite Hbad.
    unfold get_db at 1. unfold mbind at 1, M_bind at 1. rewrite Hnone.
    rewrite app_nil_r. split; [reflexivity|].
    split; [destruct db; reflexivity|]. split; [reflexivity|constructor].
  - apply Forall_cons in Hall as [Hline Hall].
    cbn [app WholesaleCreate.add_items List.filter].
    destruct (InvoiceLine.product_id line) as [k'|] eqn:Hk.
    + destruct Hline as [p Hp].
      unfold get_db at 1. unfold mbind at 1, M_bind at 1. rewrite Hp.
      unfold WholesaleInvoices.InvoiceItem_create. unfold_steps.
      cbn -[WholesaleCreate.add_items].
      match goal with
      | |- context [WholesaleCreate.add_items invoice _ ?s ?t ?r ?d] =>
          destruct (IH s t r d) as (new & db' & Hrun & Hdb & Hlen & Hinv);
            [exact Hnone|exact Hall|]
      end.
      rewrite Hrun. rewrite <- app_assoc. cbn [app].
      eexists (_ :: new), db'. split; [reflexivity|].
      split; [rewrite Hdb at 1; reflexivity|].
      try (rewrite bool_decide_eq_true_2 by eauto).
      split; [cbn; rewrite Hlen; reflexivity|].
      constructor; [reflexivity|exact Hinv].
    + destruct (IH subtotal tax_amount rows db Hnone Hall)
        as (new & db' & Hrun & Hrest).
      try (rewrite bool_decide_eq_false_2 by (intros [? ?]; discriminate)).
      exists new, db'. split; [exact Hrun|exact Hrest].
Qed.

(** [Invoice.objects.create] for an existing customer, in a year whose
    numbering works. *)
Lemma Invoice_create_run c sale terms st tx disc total paid notes by_ year
    today db number :
  generate_invoice_number year db = Ok number db ->
  exists status,
    let i1 :=
      Invoice.mk (next_pk db) number c sale today
        (Some (today + terms_days terms)) terms st tx disc total paid status
        notes by_ in
    WholesaleInvoices.Invoice_create (Some c) sale terms st tx disc total
      paid notes by_ year today db
    = Ok i1 (set_invoices (<[next_pk db := i1]> (invoices db))
               (set_next_pk (next_pk db + 1) db)).
Proof.
  intros Hgen. unfold WholesaleInvoices.Invoice_create.
  unfold mbind at 1, M_bind at 1. unfold fresh_pk at 1.
  set (db1 := set_next_pk (next_pk db + 1) db).
  assert (Hgen1 : generate_invoice_number year db1 = Ok number db1)
    by (apply (generate_invoice_number_frame year db); [reflexivity|exact Hgen]).
  destruct (Invoice_save_new
              (Invoice.mk (next_pk db) "" c sale today None terms st tx disc
                 total paid Invoice.unpaid notes by_)
              year today db1 number eq_refl eq_refl Hgen1) as (status & Hsave).
  exists status. cbv zeta in *. exact Hsave.
Qed.

(** X23: the totals of a manual invoice.  For a stored customer, rows
    that name stored products (or none) and fit the columns of the
    invoice item, a year whose numbering works and gives a number that
    no stored invoice carries, and totals that fit the columns of the
    invoice, the view creates the invoice and one item per row with a
    product, at the row's quantity and price.  The invoice's subtotal
    and tax are the sums over the items and its total is subtotal plus
    tax less the discount of the form.  The tax of an item is its
    subtotal times the product's tax rate divided by 100: the rate that
    the point of sale applies as a fraction is applied here as a
    percentage. *)
Theorem invoice_create_totals (customer_id : Z) (customer : Customer.t)
    (payment_terms notes : string) (discount_amount : Q)
    (lines : list InvoiceLine.t) (user : User.t) (year today : Z)
    (number : string) (db : DB) :
  customers db !! customer_id = Some customer ->
  generate_invoice_number year db = Ok number db ->
  Column.number_free number (next_pk db) db = true ->
  Forall (form_line_in_order db) lines ->
  Column.invoice_fits
    (WholesaleCreate.invoice_create customer_id payment_terms notes
       discount_amount lines user year today db) (next_pk db) = true ->
  exists rows invoice db',
    WholesaleCreate.invoice_create customer_id payment_terms notes
      discount_amount lines user year today db
    = Ok (WholesaleCreate.InvoiceCreated number, rows) db' /\
    invoices db' = <[next_pk db := invoice]> (invoices db) /\
    Invoice.invoice_number invoice = number /\
    Invoice.customer invoice = Customer.pk customer /\
    (Invoice.subtotal invoice == Qsum (map InvoiceItem.subtotal rows))%Q /\
    (Invoice.tax_amount invoice == Qsum (map InvoiceItem.tax_amount rows))%Q /\
    (Invoice.total_amount invoice
     == Invoice.subtotal invoice + Invoice.tax_amount invoice
        - discount_amount)%Q /\
    Forall2 (fun line row => exists k p,
               InvoiceLine.product_id line = Some k /\
               products db !! k = Some p /\
               InvoiceItem.quantity row = InvoiceLine.quantity line /\
               InvoiceItem.unit_price row = InvoiceLine.unit_price line /\
               (InvoiceItem.subtotal row
                == InvoiceLine.unit_price line
                   * inject_Z (InvoiceLine.quantity line))%Q /\
               (InvoiceItem.tax_amount row
                == InvoiceItem.subtotal row * Product.tax_rate p / 100)%Q)
      (List.filter (fun line => bool_decide
                                  (is_Some (InvoiceLine.product_id line)))
         lines)
      rows.
Proof.
  intros Hc Hgen _ Hfit _.
  assert (Hall : Forall (fun line => match InvoiceLine.product_id line with
                                     | Some k => is_Some (products db !! k)
                                     | None => True
                                     end) lines).
  { eapply Forall_impl; [exact Hfit|]. intros line. unfold form_line_in_order.
    destruct (InvoiceLine.product_id line); [|auto].
    intros (p & Hp & _). eauto. }
  clear Hfit.
  unfold WholesaleCreate.invoice_create. rewrite Hc. cbv zeta.
  destruct (Invoice_create_run (Customer.pk customer) None payment_terms
              0%Q 0%Q discount_amount 0%Q 0%Q notes (User.pk user) year today
              db number Hgen) as (status & Hcreate).
  cbv zeta in Hcreate. rewrite Hcreate.
  set (i1 := Invoice.mk _ _ _ _ _ _ _ _ _ _ _ _ _ _ _) in *.
  set (db1 := set_invoices _ _).
  destruct (add_items_run i1 lines 0%Q 0%Q [] db1)
    as (rows & st & tx & db2 & Hrun & Hdb2 & Hst & Htx & Hrows);
    [exact Hall|].
  rewrite Hrun. cbn [app].
  pose proof (generate_invoice_number_Ok _ _ _ _ Hgen) as (_ & Hne).
  destruct (Invoice_save_run
              (WholesaleCreate.Invoice_with_totals st tx
                 (st + tx - discount_amount)%Q i1)
              (today + terms_days payment_terms) year today db2 Hne eq_refl)
    as (status2 & Hsave & _).
  rewrite Hsave.
  eexists rows, _, _. split; [reflexivity|].
  split.
  { cbn. rewrite Hdb2. cbn. apply insert_insert_eq. }
  split; [reflexivity|]. split; [reflexivity|]. cbn.
  split; [rewrite Hst; ring|]. split; [rewrite Htx; ring|].
  split; [reflexivity|].
  eapply Forall2_impl; [exact Hrows|].
  intros line row (k & p & Hk & Hp & _ & _ & Hq & Hu & Hd & Hr & _).
  exists k, p. split; [exact Hk|]. split; [exact Hp|].
  split; [exact Hq|]. split; [exact Hu|].
  assert (Hsub : (InvoiceItem.subtotal row
                  == InvoiceLine.unit_price line
                     * inject_Z (InvoiceLine.quantity line))%Q).
  { unfold InvoiceItem.subtotal. rewrite Hq, Hu, Hd. ring. }
  split; [exact Hsub|].
  unfold InvoiceItem.tax_amount. rewrite Hr. field.
Qed.

(** The theorem at an invoice for Ann over ten units of the bulk
    product at 80 (tax rate 0.15): the tax on 800 is 1.20 and the
    total 801.20. *)
Lemma invoice_create_totals_witness :
  exists rows invoice db',
    WholesaleCreate.invoice_create 7 "net_30" "" 0%Q
      [InvoiceLine.mk (Some 3) 10 80%Q] Examples.cashier 2026 10
      MoreExamples.back_room_db
    = Ok (WholesaleCreate.InvoiceCreated "INV-2026-0001", rows) db' /\
    invoices db' !! 100 = Some invoice /\
    (Invoice.tax_amount invoice == 1.2)%Q /\
    (Invoice.total_amount invoice == 801.2)%Q.
Proof.
  destruct (invoice_create_totals 7 Examples.ann "net_30" "" 0%Q
              [InvoiceLine.mk (Some 3) 10 80%Q] Examples.cashier 2026 10
              "INV-2026-0001" MoreExamples.back_room_db)
    as (rows & invoice & db' & Hrun & Hinvs & _ & _ & Hst & Htx & Htot
        & Hrows).
  - reflexivity.
  - vm_compute. reflexivity.
  - vm_compute. reflexivity.
  - repeat constructor. exists MoreExamples.bulk.
    split; [vm_compute; reflexivity|vm_compute; reflexivity].
  - vm_compute. reflexivity.
  - exists rows, invoice, db'. split; [exact Hrun|].
    split; [rewrite Hinvs; apply lookup_insert_eq|].
    cbn [List.filter InvoiceLine.product_id] in Hrows.
    rewrite bool_decide_eq_true_2 in Hrows by eauto.
    inversion Hrows as [|line row ls rs (k & p & Hk & Hp & _ & _ & Hsub & Htax)
                          Hrest]; subst.
    inversion Hrest; subst.
    injection Hk as <-. vm_compute in Hp. injection Hp as <-.
    cbn [map] in Hst, Htx.
    assert (Htx' : (Invoice.tax_amount invoice == 1.2)%Q).
    { rewrite Htx. unfold Qsum. cbn [fold_left]. rewrite Htax, Hsub.
      vm_compute. reflexivity. }
    split; [exact Htx'|].
    rewrite Htot, Htx', Hst. unfold Qsum. cbn [fold_left]. rewrite Hsub.
    vm_compute. reflexivity.
Defined.

(** X24: a manual invoice is not created in one piece.  The view runs
    outside any transaction and catches every exception itself.  When a
    row names a product that does not exist, the invoice that was
    created before the rows were read stays in the store, with its
    number and with totals of zero, together with the items of the rows
    before the failing one; the view reports an error.  (The number is
    one that no stored invoice carries, and the discount and the
    payment terms of the form and the rows before the failing one fit
    their columns.)  When the customer is unknown, nothing is
    written. *)
Theorem invoice_create_leaves_a_partial_invoice (customer_id : Z)
    (customer : Customer.t) (payment_terms notes : string)
    (discount_amount : Q) (before after : list InvoiceLine.t)
    (bad : InvoiceLine.t) (k : Z) (user : User.t) (year today : Z)
    (number : string) (db : DB) :
  customers db !! customer_id = Some customer ->
  generate_invoice_number year db = Ok number db ->
  Column.number_free number (next_pk db) db = true ->
  Column.amount discount_amount = true ->
  Column.char 20 payment_terms = true ->
  Forall (form_line_in_order db) before ->
  InvoiceLine.product_id bad = Some k ->
  products db !! k = None ->
  (exists rows invoice db',
     WholesaleCreate.invoice_create customer_id payment_terms notes
       discount_amount (before ++ bad :: after)%list user year today db
     = Ok (WholesaleCreate.ErrorCreatingInvoice DoesNotExist, rows) db' /\
     invoices db' = <[next_pk db := invoice]> (invoices db) /\
     Invoice.invoice_number invoice = number /\
     Invoice.customer invoice = Customer.pk customer /\
     Invoice.subtotal invoice = 0%Q /\
     Invoice.total_amount invoice = 0%Q /\
     length rows
     = length (List.filter
                 (fun line => bool_decide
                                (is_Some (InvoiceLine.product_id line)))
                 before) /\
     Forall (fun row => InvoiceItem.invoice row = next_pk db) rows) /\
  (forall unknown lines,
     customers db !! unknown = None ->
     WholesaleCreate.invoice_create unknown payment_terms notes
       discount_amount lines user year today db
     = Ok (WholesaleCreate.ErrorCreatingInvoice DoesNotExist, []) db).
Proof.
  intros Hc Hgen _ _ _ Hfit Hbad Hnone.
  assert (Hall : Forall (fun line => match InvoiceLine.product_id line with
                                     | Some k => is_Some (products db !! k)
                                     | None => True
                                     end) before).
  { eapply Forall_impl; [exact Hfit|]. intros line. unfold form_line_in_order.
    destruct (InvoiceLine.product_id line); [|auto].
    intros (p & Hp & _). eauto. }
  clear Hfit. split.
  - unfold WholesaleCreate.invoice_create. rewrite Hc. cbv zeta.
    destruct (Invoice_create_run (Customer.pk customer) None payment_terms
                0%Q 0%Q discount_amount 0%Q 0%Q notes (User.pk user) year
                today db number Hgen) as (status & Hcreate).
    cbv zeta in Hcreate. rewrite Hcreate.
    set (i1 := Invoice.mk _ _ _ _ _ _ _ _ _ _ _ _ _ _ _) in *.
    set (db1 := set_invoices _ _).
    destruct (add_items_stops i1 before bad after k Hbad 0%Q 0%Q [] db1)
      as (rows & db2 & Hrun & Hdb2 & Hlen & Hinv); [exact Hnone|exact Hall|].
    rewrite Hrun. cbn [app].
    exists rows, i1, db2. split; [reflexivity|].
    split; [rewrite Hdb2; reflexivity|].
    split; [reflexivity|]. split; [reflexivity|]. split; [reflexivity|].
    split; [reflexivity|]. split; [exact Hlen|exact Hinv].
  - intros unknown lines Hu. unfold WholesaleCreate.invoice_create.
    rewrite Hu. reflexivity.
Qed.

(** The theorem at a form for Ann with two widgets and then a product
    that does not exist: the view reports an error, and the invoice
    INV-2026-0001 over nothing and one item stay behind. *)
Lemma invoice_create_leaves_a_partial_invoice_witness :
  exists rows invoice db',
    WholesaleCreate.invoice_create 7 "net_30" "" 0%Q
      [InvoiceLine.mk (Some 1) 2 100%Q; InvoiceLine.mk (Some 99) 1 5%Q]
      Examples.cashier 2026 10 Examples.shop_db
    = Ok (WholesaleCreate.ErrorCreatingInvoice DoesNotExist, rows) db' /\
    invoices Examples.shop_db !! 100 = None /\
    invoices db' !! 100 = Some invoice /\
    Invoice.invoice_number invoice = "INV-2026-0001" /\
    Invoice.total_amount invoice = 0%Q /\
    length rows = 1%nat.
Proof.
  destruct (invoice_create_leaves_a_partial_invoice 7 Examples.ann "net_30" ""
              0%Q [InvoiceLine.mk (Some 1) 2 100%Q] []
              (InvoiceLine.mk (Some 99) 1 5%Q) 99 Examples.cashier 2026 10
              "INV-2026-0001" Examples.shop_db)
    as ((rows & invoice & db' & Hrun & Hinvs & Hnum & _ & _ & Htot
         & Hlen & _) & _).
  - reflexivity.
  - vm_compute. reflexivity.
  - vm_compute. reflexivity.
  - reflexivity.
  - reflexivity.
  - repeat constructor. exists Examples.widget.
    split; [vm_compute; reflexivity|vm_compute; reflexivity].
  - reflexivity.
  - vm_compute. reflexivity.
  - exists rows, invoice, db'. split; [exact Hrun|].
    split; [vm_compute; reflexivity|].
    split; [rewrite Hinvs; apply lookup_insert_eq|].
    split; [exact Hnum|]. split; [exact Htot|]. exact Hlen.
Defined.
